(** * Muaina report PDF generator: a shallow embedding of
      [scripts/generate-pdf.py] and the properties of its block list.

    The script reads a JSON value from standard input, builds the ordered
    list of layout blocks ([story]) and hands it to ReportLab.  The JSON
    parser, the Unicode case tables, the text of exception messages, the
    version of the interpreter and ReportLab itself are not part of the
    script: they are the fields of the class [Runtime] below.  Standard
    input and standard output are arguments of [main]. *)

From Stdlib Require Import List String Ascii ZArith NArith Bool Lia.
From Stdlib.Strings Require Import Byte.
From Stdlib.Floats Require Import SpecFloat.
Import ListNotations.

#[local] Set Warnings "-register-all".

(* ===================================================================== *)
(** ** Python values *)
(* ===================================================================== *)

(** A Python [str] is a sequence of Unicode code points. *)
Definition pystr := list N.

(** The code points of an ASCII literal of the script. *)
Definition lit (s : string) : pystr :=
  map N_of_ascii (list_ascii_of_string s).

Definition pystr_eqb (s t : pystr) : bool :=
  if list_eq_dec N.eq_dec s t then true else false.

(** What [json.loads] can return. *)
Inductive pyval :=
| PNone
| PBool (b : bool)
| PInt (z : Z)
| PFloat (f : spec_float)
| PStr (s : pystr)
| PList (l : list pyval)
| PDict (items : list (pystr * pyval)).

Inductive pytype :=
| TNoneType | Tbool | Tint | Tfloat | Tstr | Tlist | Tdict.

Definition type_of (v : pyval) : pytype :=
  match v with
  | PNone => TNoneType
  | PBool _ => Tbool
  | PInt _ => Tint
  | PFloat _ => Tfloat
  | PStr _ => Tstr
  | PList _ => Tlist
  | PDict _ => Tdict
  end.

(** Python truth value, as tested by [if x:]. *)
Definition truthy (v : pyval) : bool :=
  match v with
  | PNone => false
  | PBool b => b
  | PInt z => negb (Z.eqb z 0)
  | PFloat (S754_zero _) => false
  | PFloat _ => true
  | PStr [] => false
  | PStr _ => true
  | PList [] => false
  | PList _ => true
  | PDict [] => false
  | PDict _ => true
  end.

(** [v == 'literal']: a value of another type is never equal to a str. *)
Definition py_eq_str (v : pyval) (s : pystr) : bool :=
  match v with
  | PStr t => pystr_eqb t s
  | _ => false
  end.

(* ===================================================================== *)
(** ** Exceptions and the error monad *)
(* ===================================================================== *)

(** Every exception the script can meet is a subclass of [Exception]. *)
Inductive exn :=
| AttributeError (t : pytype) (attr : string)
| TypeError_subscript (t : pytype)
| TypeError_operand (t : pytype)
| TypeError_iter (t : pytype)
| KeyError (key : string)
| KeyError_slice
| InputError (msg : pystr)
| OutputError (msg : pystr)
| LayoutError (msg : pystr).

Inductive result (A : Type) :=
| Ok (a : A)
| Err (e : exn).
Arguments Ok {A} a.
Arguments Err {A} e.

Definition rbind {A B} (r : result A) (f : A -> result B) : result B :=
  match r with
  | Ok a => f a
  | Err e => Err e
  end.

(** True of the exceptions raised inside the layout library. *)
Definition is_layout_error (e : exn) : bool :=
  match e with
  | LayoutError _ => true
  | _ => false
  end.

(* ===================================================================== *)
(** ** Operations of the Python objects the script uses *)
(* ===================================================================== *)

Fixpoint dict_lookup (k : pystr) (items : list (pystr * pyval)) : option pyval :=
  match items with
  | [] => None
  | (k', v) :: rest => if pystr_eqb k k' then Some v else dict_lookup k rest
  end.

(** [v.get(k, default)]: only a dict has the method. *)
Definition py_get (v : pyval) (k : string) (default : pyval) : result pyval :=
  match v with
  | PDict items =>
      Ok (match dict_lookup (lit k) items with
          | Some x => x
          | None => default
          end)
  | _ => Err (AttributeError (type_of v) "get")
  end.

(** [v + "literal"] *)
Definition py_add_str (v : pyval) (s : pystr) : result pyval :=
  match v with
  | PStr t => Ok (PStr (t ++ s))
  | _ => Err (TypeError_operand (type_of v))
  end.

(** The sequence a [for] loop runs over. *)
Definition py_iter (v : pyval) : result (list pyval) :=
  match v with
  | PList l => Ok l
  | PStr s => Ok (map (fun c => PStr [c]) s)
  | PDict items => Ok (map (fun kv => PStr (fst kv)) items)
  | _ => Err (TypeError_iter (type_of v))
  end.

(* ===================================================================== *)
(** ** ReportLab objects, as the script constructs them *)
(* ===================================================================== *)

Inductive Color := HexColor (rgb : N).

Definition Color_eqb (c d : Color) : bool :=
  match c, d with
  | HexColor x, HexColor y => N.eqb x y
  end.

Definition PRIMARY_COLOR := HexColor 0x5b0202.
Definition SUCCESS_COLOR := HexColor 0x166534.
Definition WARNING_COLOR := HexColor 0x92400e.
Definition DANGER_COLOR := HexColor 0x991b1b.
Definition INFO_COLOR := HexColor 0x1e40af.
Definition NEUTRAL_COLOR := HexColor 0x374151.
Definition LIGHT_BG := HexColor 0xf9fafb.

Definition TA_CENTER : Z := 1.

(** A paragraph style: its name, its parent and the keyword arguments
    given to the constructor ([None]: inherited from the parent). *)
Record ParagraphStyle := mkStyle {
  style_name : string;
  style_parent : option string;
  fontSize : option Z;
  textColor : option Color;
  spaceBefore : option Z;
  spaceAfter : option Z;
  borderPadding : option Z;
  leading : option Z;
  leftIndent : option Z;
  alignment : option Z
}.

Definition base_style (name : string) : ParagraphStyle :=
  mkStyle name None None None None None None None None None.

(** [ParagraphStyle(name, parent=p)] *)
Definition child_style (name : string) (p : ParagraphStyle) : ParagraphStyle :=
  mkStyle name (Some (style_name p)) None None None None None None None None.

Definition with_fontSize (n : Z) (s : ParagraphStyle) :=
  mkStyle (style_name s) (style_parent s) (Some n) (textColor s) (spaceBefore s)
    (spaceAfter s) (borderPadding s) (leading s) (leftIndent s) (alignment s).
Definition with_textColor (c : Color) (s : ParagraphStyle) :=
  mkStyle (style_name s) (style_parent s) (fontSize s) (Some c) (spaceBefore s)
    (spaceAfter s) (borderPadding s) (leading s) (leftIndent s) (alignment s).
Definition with_spaceBefore (n : Z) (s : ParagraphStyle) :=
  mkStyle (style_name s) (style_parent s) (fontSize s) (textColor s) (Some n)
    (spaceAfter s) (borderPadding s) (leading s) (leftIndent s) (alignment s).
Definition with_spaceAfter (n : Z) (s : ParagraphStyle) :=
  mkStyle (style_name s) (style_parent s) (fontSize s) (textColor s) (spaceBefore s)
    (Some n) (borderPadding s) (leading s) (leftIndent s) (alignment s).
Definition with_borderPadding (n : Z) (s : ParagraphStyle) :=
  mkStyle (style_name s) (style_parent s) (fontSize s) (textColor s) (spaceBefore s)
    (spaceAfter s) (Some n) (leading s) (leftIndent s) (alignment s).
Definition with_leading (n : Z) (s : ParagraphStyle) :=
  mkStyle (style_name s) (style_parent s) (fontSize s) (textColor s) (spaceBefore s)
    (spaceAfter s) (borderPadding s) (Some n) (leftIndent s) (alignment s).
Definition with_leftIndent (n : Z) (s : ParagraphStyle) :=
  mkStyle (style_name s) (style_parent s) (fontSize s) (textColor s) (spaceBefore s)
    (spaceAfter s) (borderPadding s) (leading s) (Some n) (alignment s).
Definition with_alignment (n : Z) (s : ParagraphStyle) :=
  mkStyle (style_name s) (style_parent s) (fontSize s) (textColor s) (spaceBefore s)
    (spaceAfter s) (borderPadding s) (leading s) (leftIndent s) (Some n).

(** The text handed to [Paragraph]: a value taken from the input as it
    is, or an f-string, kept as its literal pieces and the values it
    formats (formatting a value from [json.loads] raises nothing). *)
Inductive frag :=
| Lit (s : pystr)
| Fmt (v : pyval).

Inductive ptext :=
| Raw (v : pyval)
| FStr (fs : list frag).

(** A literal paragraph text. *)
Definition text (s : string) : ptext := Raw (PStr (lit s)).

(** The commands of a [TableStyle], each on the cell range
    [(sc, sr)] to [(ec, er)] (column first, negative: from the end). *)
Inductive TableCmd :=
| FONT (sc sr ec er : Z) (face : string)
| FONTSIZE (sc sr ec er : Z) (size : Z)
| TEXTCOLOR (sc sr ec er : Z) (c : Color)
| VALIGN (sc sr ec er : Z) (pos : string)
| BOTTOMPADDING (sc sr ec er : Z) (pad : Z).

Record TableObj := mkTable {
  table_data : list (list pyval);
  table_colWidths : list Z;
  table_cmds : list TableCmd
}.

(** [table.setStyle(TableStyle(cmds))] adds the commands to the table's. *)
Definition setStyle (t : TableObj) (cmds : list TableCmd) : TableObj :=
  mkTable (table_data t) (table_colWidths t) (table_cmds t ++ cmds).

Inductive flowable :=
| Paragraph (txt : ptext) (style : ParagraphStyle)
| Spacer (width height : Z)
| HRFlowable (width : string) (thickness : Z) (color : Color)
| Table (t : TableObj)
| PageBreak.

(* ===================================================================== *)
(** ** What the script takes from its environment *)
(* ===================================================================== *)

Class Runtime := {
  (** slice objects can be hashed: Python 3.12 and later *)
  hashable_slices : bool;
  (** [str.upper] on one code point outside ASCII (the Unicode tables) *)
  upper_nonascii : N -> list N;
  (** [json.loads] *)
  json_loads : pystr -> result pyval;
  (** [str(e)] *)
  str_exn : exn -> pystr;
  (** the message of the exception [Paragraph(text, style)] raises, if any *)
  Paragraph_init : ptext -> ParagraphStyle -> option pystr;
  (** the same for [Table(data, colWidths=widths)] *)
  Table_init : list (list pyval) -> list Z -> option pystr;
  (** [doc.build(story)] followed by [buffer.getvalue()] *)
  doc_build : list flowable -> result (list byte)
}.

(** The blocks appended to [story] so far, or the exception raised:
    [story] is a local list that is only ever appended to. *)
Definition M (A : Type) : Type := result (A * list flowable).

Definition ret {A} (a : A) : M A := Ok (a, []).

Definition bind {A B} (m : M A) (f : A -> M B) : M B :=
  match m with
  | Err e => Err e
  | Ok (a, w1) =>
      match f a with
      | Err e => Err e
      | Ok (b, w2) => Ok (b, w1 ++ w2)
      end
  end.

Definition lift {A} (r : result A) : M A :=
  match r with
  | Ok a => Ok (a, [])
  | Err e => Err e
  end.

(** [story.append(f)] *)
Definition append (f : flowable) : M unit := Ok (tt, [f]).

Declare Scope story_scope.
Delimit Scope story_scope with story.
Notation "x <- m ;; k" := (bind m (fun x => k))
  (at level 61, m at next level, right associativity) : story_scope.
Notation "m ;; k" := (bind m (fun _ => k))
  (at level 61, right associativity) : story_scope.
Notation "x <-! r ;; k" := (rbind r (fun x => k))
  (at level 61, r at next level, right associativity) : story_scope.
Local Open Scope story_scope.
Local Open Scope string_scope.
Local Open Scope Z_scope.
Local Open Scope list_scope.

(** [if b: body] *)
Definition when (b : bool) (body : M unit) : M unit :=
  if b then body else ret tt.

(** [for x in l: body(x)] *)
Fixpoint for_each (l : list pyval) (body : pyval -> M unit) : M unit :=
  match l with
  | [] => ret tt
  | x :: rest => body x ;; for_each rest body
  end.

(* ===================================================================== *)
(** ** The style sheet *)
(* ===================================================================== *)

Definition StyleSheet := list ParagraphStyle.

Fixpoint sheet_find (name : string) (styles : StyleSheet) : option ParagraphStyle :=
  match styles with
  | [] => None
  | s :: rest => if String.eqb (style_name s) name then Some s else sheet_find name rest
  end.

(** [styles[name]] *)
Definition sheet_get (styles : StyleSheet) (name : string) : result ParagraphStyle :=
  match sheet_find name styles with
  | Some s => Ok s
  | None => Err (KeyError name)
  end.

(** [styles.add(s)]: a name already in the sheet is refused. *)
Definition sheet_add (styles : StyleSheet) (s : ParagraphStyle) : result StyleSheet :=
  match sheet_find (style_name s) styles with
  | Some _ => Err (KeyError (style_name s))
  | None => Ok (styles ++ [s])
  end.

(** The names of ReportLab's sample sheet (their attributes are the
    library's and are left out). *)
Definition getSampleStyleSheet : StyleSheet :=
  map base_style
    ["Normal"; "BodyText"; "Italic"; "Heading1"; "Title"; "Heading2"; "Heading3";
     "Heading4"; "Heading5"; "Heading6"; "Bullet"; "Definition"; "Code";
     "UnorderedList"; "OrderedList"].

(** [styles.add(ParagraphStyle(name=.., parent=styles[parent], ..))] *)
Definition add_style (styles : StyleSheet) (name parent : string)
    (kw : ParagraphStyle -> ParagraphStyle) : result StyleSheet :=
  p <-! sheet_get styles parent ;;
  sheet_add styles (kw (child_style name p)).

Definition create_styles : result StyleSheet :=
  let styles := getSampleStyleSheet in
  styles <-! add_style styles "Logo" "Heading1" (fun s =>
    with_spaceAfter 6 (with_textColor PRIMARY_COLOR (with_fontSize 28 s))) ;;
  styles <-! add_style styles "Subtitle" "Normal" (fun s =>
    with_spaceAfter 12 (with_textColor NEUTRAL_COLOR (with_fontSize 10 s))) ;;
  styles <-! add_style styles "SectionTitle" "Heading2" (fun s =>
    with_borderPadding 4 (with_spaceAfter 8 (with_spaceBefore 16
      (with_textColor PRIMARY_COLOR (with_fontSize 14 s))))) ;;
  styles <-! add_style styles "SubSectionTitle" "Heading3" (fun s =>
    with_spaceAfter 6 (with_spaceBefore 12
      (with_textColor NEUTRAL_COLOR (with_fontSize 12 s)))) ;;
  styles <-! add_style styles "CustomBodyText" "Normal" (fun s =>
    with_leading 14 (with_spaceAfter 6
      (with_textColor NEUTRAL_COLOR (with_fontSize 10 s)))) ;;
  styles <-! add_style styles "ListItem" "Normal" (fun s =>
    with_spaceAfter 4 (with_leftIndent 20
      (with_textColor NEUTRAL_COLOR (with_fontSize 10 s)))) ;;
  styles <-! add_style styles "SuccessText" "Normal" (fun s =>
    with_spaceAfter 4 (with_leftIndent 20
      (with_textColor SUCCESS_COLOR (with_fontSize 10 s)))) ;;
  styles <-! add_style styles "DangerText" "Normal" (fun s =>
    with_spaceAfter 4 (with_leftIndent 20
      (with_textColor DANGER_COLOR (with_fontSize 10 s)))) ;;
  styles <-! add_style styles "WarningText" "Normal" (fun s =>
    with_spaceAfter 4 (with_leftIndent 20
      (with_textColor WARNING_COLOR (with_fontSize 10 s)))) ;;
  styles <-! add_style styles "InfoText" "Normal" (fun s =>
    with_spaceAfter 4 (with_leftIndent 20
      (with_textColor INFO_COLOR (with_fontSize 10 s)))) ;;
  styles <-! add_style styles "Disclaimer" "Normal" (fun s =>
    with_leading 12 (with_spaceAfter 6
      (with_textColor WARNING_COLOR (with_fontSize 9 s)))) ;;
  styles <-! add_style styles "Footer" "Normal" (fun s =>
    with_alignment TA_CENTER (with_textColor NEUTRAL_COLOR (with_fontSize 8 s))) ;;
  Ok styles.

Definition get_classification_color (classification : pyval) : Color :=
  if py_eq_str classification (lit "normal") then SUCCESS_COLOR
  else if py_eq_str classification (lit "abnormal") then WARNING_COLOR
  else if py_eq_str classification (lit "critical") then DANGER_COLOR
  else NEUTRAL_COLOR.

(* ===================================================================== *)
(** ** [generate_pdf] and [main] *)
(* ===================================================================== *)

Section Script.
Context {R : Runtime}.

(** [str.upper]: ASCII letters by the ASCII rule, the rest by the tables. *)
Definition upper_char (c : N) : list N :=
  if (97 <=? c)%N && (c <=? 122)%N then [(c - 32)%N]
  else if (c <? 128)%N then [c]
  else upper_nonascii c.

Definition str_upper (s : pystr) : pystr := flat_map upper_char s.

(** [v.upper()]: only a str has the method. *)
Definition py_upper (v : pyval) : result pyval :=
  match v with
  | PStr s => Ok (PStr (str_upper s))
  | _ => Err (AttributeError (type_of v) "upper")
  end.

(** [v[:n]].  A dict takes the slice for a key: hashing it raises
    [TypeError] before Python 3.12; from 3.12 on the slice is looked up
    and, the keys of a JSON object being strs, [KeyError] is raised. *)
Definition py_slice_to (v : pyval) (n : nat) : result pyval :=
  match v with
  | PStr s => Ok (PStr (firstn n s))
  | PList l => Ok (PList (firstn n l))
  | PDict _ =>
      if hashable_slices then Err KeyError_slice
      else Err (TypeError_subscript Tdict)
  | _ => Err (TypeError_subscript (type_of v))
  end.

Definition new_Paragraph (t : ptext) (s : ParagraphStyle) : result flowable :=
  match Paragraph_init t s with
  | Some msg => Err (LayoutError msg)
  | None => Ok (Paragraph t s)
  end.

Definition new_Table (data : list (list pyval)) (widths : list Z) : result TableObj :=
  match Table_init data widths with
  | Some msg => Err (LayoutError msg)
  | None => Ok (mkTable data widths [])
  end.

(** [story.append(Paragraph(t, styles[name]))] *)
Definition append_para (styles : StyleSheet) (t : ptext) (name : string) : M unit :=
  st <- lift (sheet_get styles name) ;;
  p <- lift (new_Paragraph t st) ;;
  append p.

(** [story.append(Paragraph(t, ParagraphStyle(name, parent=styles[parent], ..)))] *)
Definition append_para_styled (styles : StyleSheet) (t : ptext) (name parent : string)
    (kw : ParagraphStyle -> ParagraphStyle) : M unit :=
  st <- lift (sheet_get styles parent) ;;
  p <- lift (new_Paragraph t (kw (child_style name st))) ;;
  append p.

(** The title block that opens every page (lines 172-175, 248-251, 353-356). *)
Definition page_header (styles : StyleSheet) (t : ptext) (name : string) : M unit :=
  append_para styles (text "MUAINA") "Logo" ;;
  append_para styles t name ;;
  append (HRFlowable "100%" 2 PRIMARY_COLOR) ;;
  append (Spacer 1 12).

Definition info_table_style (classification_color : Color) : list TableCmd :=
  [ FONT 0 0 0 (-1) "Helvetica-Bold";
    FONT 1 0 1 (-1) "Helvetica";
    FONTSIZE 0 0 (-1) (-1) 10;
    TEXTCOLOR 0 0 0 (-1) NEUTRAL_COLOR;
    TEXTCOLOR 1 0 1 (-1) NEUTRAL_COLOR;
    TEXTCOLOR 1 4 1 4 classification_color;
    VALIGN 0 0 (-1) (-1) "TOP";
    BOTTOMPADDING 0 0 (-1) (-1) 6 ].

(** Lines 178-202. *)
Definition report_information (styles : StyleSheet) (data : pyval) : M unit :=
  append_para styles (text "Report Information") "SectionTitle" ;;
  id <- lift (py_get data "id" (PStr (lit "N/A"))) ;;
  id8 <- lift (py_slice_to id 8) ;;
  report_id <- lift (py_add_str id8 (lit "...")) ;;
  fileName <- lift (py_get data "fileName" (PStr (lit "Unknown"))) ;;
  uploadedAt <- lift (py_get data "uploadedAt" (PStr (lit "N/A"))) ;;
  organizationName <- lift (py_get data "organizationName" (PStr (lit "Unknown"))) ;;
  classification <- lift (py_get data "classification" (PStr (lit "pending"))) ;;
  classification_upper <- lift (py_upper classification) ;;
  reviewStatus <- lift (py_get data "reviewStatus" (PStr (lit "pending"))) ;;
  let info_data :=
    [ [PStr (lit "Report ID:"); report_id];
      [PStr (lit "File Name:"); fileName];
      [PStr (lit "Uploaded:"); uploadedAt];
      [PStr (lit "Organization:"); organizationName];
      [PStr (lit "Classification:"); classification_upper];
      [PStr (lit "Review Status:"); reviewStatus] ] in
  info_table <- lift (new_Table info_data [120; 350]) ;;
  classification <- lift (py_get data "classification" (PStr [])) ;;
  let classification_color := get_classification_color classification in
  let info_table := setStyle info_table (info_table_style classification_color) in
  append (Table info_table) ;;
  append (Spacer 1 16).

(** Lines 205-209. *)
Definition analysis_summary (styles : StyleSheet) (data : pyval) : M unit :=
  append_para styles (text "AI Analysis Summary") "SectionTitle" ;;
  summary <- lift (py_get data "summary" (PStr (lit "No summary available"))) ;;
  append_para styles (Raw summary) "CustomBodyText" ;;
  append (Spacer 1 8) ;;
  details <- lift (py_get data "details" (PStr (lit "No details available"))) ;;
  append_para styles (Raw details) "CustomBodyText" ;;
  append (Spacer 1 16).

Definition severity_color (severity : pyval) : Color :=
  if py_eq_str severity (lit "CRITICAL") then DANGER_COLOR
  else if py_eq_str severity (lit "WARNING") then WARNING_COLOR
  else NEUTRAL_COLOR.

(** The body of the loop of lines 215-230. *)
Definition finding_block (styles : StyleSheet) (finding : pyval) : M unit :=
  sev <- lift (py_get finding "severity" (PStr (lit "info"))) ;;
  severity <- lift (py_upper sev) ;;
  category <- lift (py_get finding "category" (PStr [])) ;;
  description <- lift (py_get finding "description" (PStr [])) ;;
  append_para_styled styles
    (FStr [Lit (lit "<b>["); Fmt severity; Lit (lit "]</b> "); Fmt category])
    "FindingTitle" "CustomBodyText" (with_textColor (severity_color severity)) ;;
  append_para styles (Raw description) "ListItem".

(** Lines 212-231. *)
Definition key_findings (styles : StyleSheet) (data : pyval) : M unit :=
  findings <- lift (py_get data "findings" (PList [])) ;;
  when (truthy findings) (
    append_para styles (text "Key Findings") "SectionTitle" ;;
    items <- lift (py_iter findings) ;;
    for_each items (finding_block styles) ;;
    append (Spacer 1 16)).

Definition disclaimer1 : string :=
  "<b>DISCLAIMER:</b> This AI-generated analysis is for informational purposes only and should not replace professional medical advice. Always consult with qualified healthcare providers for diagnosis and treatment decisions.".

Definition disclaimer2 : string :=
  "This interpretation is designed to help you understand your results in simple terms. It is NOT a substitute for professional medical advice. Please discuss these findings with your healthcare provider.".

Definition disclaimer3 : string :=
  "The suggested doctors are recommendations based on your medical needs. Availability and fees may vary. Please contact the healthcare provider directly to confirm appointment details.".

(** Lines 169-240. *)
Definition generate_pdf_page1 (styles : StyleSheet) (data : pyval) : M unit :=
  page_header styles (text "AI-Powered Pathology Report Analysis") "Subtitle" ;;
  report_information styles data ;;
  analysis_summary styles data ;;
  key_findings styles data ;;
  append (Spacer 1 20) ;;
  append_para styles (text disclaimer1) "Disclaimer".

(** [for item in v: story.append(Paragraph(f"<glyph> {item}", styles[name]))] *)
Definition item_lines (styles : StyleSheet) (glyph : N) (name : string)
    (items : list pyval) : M unit :=
  for_each items (fun item =>
    append_para styles (FStr [Lit [glyph; 32%N]; Fmt item]) name).

Definition WARNING_SIGN : N := 0x26A0.
Definition BULLET : N := 0x2022.
Definition CHECK_MARK : N := 0x2713.
Definition BALLOT_X : N := 0x2717.

(** Lines 254-268. *)
Definition medical_condition (styles : StyleSheet) (interpretation : pyval) : M unit :=
  condition <- lift (py_get interpretation "medicalCondition" (PDict [])) ;;
  when (truthy condition) (
    append_para styles (text "Medical Condition") "SubSectionTitle" ;;
    name <- lift (py_get condition "name" (PStr (lit "Unknown"))) ;;
    append_para_styled styles (FStr [Lit (lit "<b>"); Fmt name; Lit (lit "</b>")])
      "ConditionName" "CustomBodyText"
      (fun s => with_fontSize 12 (with_textColor DANGER_COLOR s)) ;;
    description <- lift (py_get condition "description" (PStr [])) ;;
    append_para styles (Raw description) "CustomBodyText" ;;
    sev <- lift (py_get condition "severity" (PStr (lit "moderate"))) ;;
    severity <- lift (py_upper sev) ;;
    icd <- lift (py_get condition "icdCode" (PStr [])) ;;
    let meta_text := [Lit (lit "Severity: "); Fmt severity] in
    let meta_text :=
      if truthy icd then meta_text ++ [Lit (lit " | ICD Code: "); Fmt icd]
      else meta_text in
    append_para styles (FStr meta_text) "ListItem" ;;
    append (Spacer 1 12)).

(** Lines 276-289 and 329-334: a titled list of items. *)
Definition item_section (styles : StyleSheet) (interpretation : pyval)
    (key title : string) (glyph : N) (name : string) : M unit :=
  v <- lift (py_get interpretation key (PList [])) ;;
  when (truthy v) (
    append_para styles (text title) "SubSectionTitle" ;;
    items <- lift (py_iter v) ;;
    item_lines styles glyph name items ;;
    append (Spacer 1 12)).

Definition urgency_color (urgency : pyval) : Color :=
  if py_eq_str urgency (lit "URGENT") then DANGER_COLOR
  else if py_eq_str urgency (lit "SOON") then WARNING_COLOR
  else INFO_COLOR.

(** Lines 292-309. *)
Definition consultation_info (styles : StyleSheet) (interpretation : pyval) : M unit :=
  consultation <- lift (py_get interpretation "consultation" (PDict [])) ;;
  when (truthy consultation) (
    append_para styles (text "Consultation Information") "SubSectionTitle" ;;
    followUp <- lift (py_get consultation "followUpTiming" (PStr (lit "N/A"))) ;;
    append_para styles (FStr [Lit (lit "<b>Follow-up:</b> "); Fmt followUp])
      "CustomBodyText" ;;
    booking <- lift (py_get consultation "bookingInfo" (PStr (lit "N/A"))) ;;
    append_para styles (FStr [Lit (lit "<b>How to Book:</b> "); Fmt booking])
      "CustomBodyText" ;;
    urg <- lift (py_get consultation "urgency" (PStr (lit "routine"))) ;;
    urgency <- lift (py_upper urg) ;;
    append_para_styled styles (FStr [Lit (lit "<b>Priority:</b> "); Fmt urgency])
      "Urgency" "CustomBodyText" (with_textColor (urgency_color urgency)) ;;
    append (Spacer 1 12)).

(** Lines 312-326. *)
Definition dos_and_donts (styles : StyleSheet) (interpretation : pyval) : M unit :=
  dos <- lift (py_get interpretation "dos" (PList [])) ;;
  donts <- lift (py_get interpretation "donts" (PList [])) ;;
  when (truthy dos || truthy donts) (
    append_para styles (text "Do's and Don'ts") "SubSectionTitle" ;;
    when (truthy dos) (
      append_para styles (text "<b>Things to Do:</b>") "CustomBodyText" ;;
      items <- lift (py_iter dos) ;;
      item_lines styles CHECK_MARK "SuccessText" items) ;;
    when (truthy donts) (
      append_para styles (text "<b>Things to Avoid:</b>") "CustomBodyText" ;;
      items <- lift (py_iter donts) ;;
      item_lines styles BALLOT_X "DangerText" items) ;;
    append (Spacer 1 12)).

(** The body of the loop of lines 360-374. *)
Definition doctor_block (styles : StyleSheet) (doctor : pyval) : M unit :=
  name <- lift (py_get doctor "name" (PStr (lit "N/A"))) ;;
  append_para_styled styles (FStr [Lit (lit "<b>"); Fmt name; Lit (lit "</b>")])
    "DocName" "CustomBodyText"
    (fun s => with_fontSize 11 (with_textColor SUCCESS_COLOR s)) ;;
  specialty <- lift (py_get doctor "specialty" (PStr [])) ;;
  qualification <- lift (py_get doctor "qualification" (PStr [])) ;;
  append_para styles (FStr [Fmt specialty; Lit (lit " - "); Fmt qualification])
    "CustomBodyText" ;;
  location <- lift (py_get doctor "location" (PStr (lit "N/A"))) ;;
  append_para styles (FStr [Lit (lit "Location: "); Fmt location]) "ListItem" ;;
  availability <- lift (py_get doctor "availability" (PStr (lit "N/A"))) ;;
  append_para styles (FStr [Lit (lit "Availability: "); Fmt availability]) "ListItem" ;;
  contact <- lift (py_get doctor "contact" (PStr (lit "N/A"))) ;;
  append_para styles (FStr [Lit (lit "Contact: "); Fmt contact]) "ListItem" ;;
  fee <- lift (py_get doctor "consultationFee" PNone) ;;
  when (truthy fee) (
    fee <- lift (py_get doctor "consultationFee" PNone) ;;
    append_para styles (FStr [Lit (lit "Fee: "); Fmt fee]) "ListItem") ;;
  append (Spacer 1 10).

(** The body of the loop of lines 378-385. *)
Definition recommendation_block (styles : StyleSheet) (rec : pyval) : M unit :=
  urg <- lift (py_get rec "urgency" (PStr (lit "routine"))) ;;
  urgency <- lift (py_upper urg) ;;
  specialty <- lift (py_get rec "specialty" (PStr (lit "N/A"))) ;;
  append_para styles
    (FStr [Lit (lit "<b>"); Fmt specialty; Lit (lit "</b> ("); Fmt urgency; Lit (lit ")")])
    "CustomBodyText" ;;
  reason <- lift (py_get rec "reason" (PStr [])) ;;
  append_para styles (Raw reason) "ListItem" ;;
  append (Spacer 1 6).

(** Lines 346-394. *)
Definition generate_pdf_page3 (styles : StyleSheet) (interpretation : pyval) : M unit :=
  doctors <- lift (py_get interpretation "suggestedDoctors" (PList [])) ;;
  doctor_recs <- lift (py_get interpretation "doctorRecommendations" (PList [])) ;;
  when (truthy doctors || truthy doctor_recs) (
    append PageBreak ;;
    page_header styles (text "Recommended Healthcare Providers") "SectionTitle" ;;
    when (truthy doctors) (
      append_para styles (text "Suggested Doctors") "SubSectionTitle" ;;
      items <- lift (py_iter doctors) ;;
      for_each items (doctor_block styles)) ;;
    when (truthy doctor_recs) (
      append_para styles (text "Specialist Consultations Recommended") "SubSectionTitle" ;;
      items <- lift (py_iter doctor_recs) ;;
      for_each items (recommendation_block styles)) ;;
    append (Spacer 1 20) ;;
    append_para styles (text disclaimer3) "Disclaimer").

(** Lines 245-343. *)
Definition generate_pdf_page2 (styles : StyleSheet) (interpretation : pyval) : M unit :=
  append PageBreak ;;
  page_header styles (text "Patient-Friendly Interpretation") "SectionTitle" ;;
  medical_condition styles interpretation ;;
  append_para styles (text "What This Means") "SubSectionTitle" ;;
  summary <- lift (py_get interpretation "summary" (PStr [])) ;;
  append_para styles (Raw summary) "CustomBodyText" ;;
  append (Spacer 1 12) ;;
  item_section styles interpretation "precautions" "Important Precautions"
    WARNING_SIGN "WarningText" ;;
  item_section styles interpretation "diet" "Diet Recommendations"
    BULLET "InfoText" ;;
  consultation_info styles interpretation ;;
  dos_and_donts styles interpretation ;;
  item_section styles interpretation "lifestyleChanges" "Lifestyle Changes"
    BULLET "ListItem" ;;
  append (Spacer 1 20) ;;
  append_para styles (text disclaimer2) "Disclaimer".

(** The value of [story] when [doc.build] is reached (lines 166-395). *)
Definition generate_pdf_story (data : pyval) : M unit :=
  styles <- lift create_styles ;;
  generate_pdf_page1 styles data ;;
  interpretation <- lift (py_get data "muainaInterpretation" PNone) ;;
  when (truthy interpretation) (
    generate_pdf_page2 styles interpretation ;;
    generate_pdf_page3 styles interpretation).

Definition generate_pdf (data : pyval) : result (list byte) :=
  match generate_pdf_story data with
  | Err e => Err e
  | Ok (_, story) => doc_build story
  end.

(** What one run of the process leaves behind. *)
Record outcome := mkOutcome {
  stdout : list byte;
  stderr : pystr;
  exit_code : Z
}.

Definition NEWLINE : N := 10.

(** What standard output does with the bytes of
    [sys.stdout.buffer.write(pdf_bytes)]: it takes them all; or the call
    raises after [sent] went out, and the flush the interpreter does at
    exit may fail as well; or the call returns and that flush fails.  A
    failed flush leaves the interpreter's own message on standard error
    and turns the exit status into 120. *)
Inductive write_result :=
| Written
| WriteRaises (sent : list byte) (e : exn) (at_exit : option pystr)
| FlushFails (sent : list byte) (msg : pystr).

(** The [except Exception as e] clause (lines 415-418). *)
Definition error_line (e : exn) : pystr :=
  lit "Error generating PDF: " ++ str_exn e ++ [NEWLINE].

(** [stdin] is what [sys.stdin.read()] returns or raises, [stdout_write]
    what standard output does with the bytes it is given.  The write of
    line 412 is inside the [try]: an exception it raises is handled as one
    of [json.loads] or [generate_pdf] is.  [sys.exit(0)] raises
    [SystemExit], which [except Exception] lets through. *)
Definition main (stdin : result pystr) (stdout_write : list byte -> write_result)
    : outcome :=
  match (input_data <-! stdin ;;
         data <-! json_loads input_data ;;
         generate_pdf data) with
  | Ok pdf_bytes =>
      match stdout_write pdf_bytes with
      | Written => mkOutcome pdf_bytes [] 0
      | WriteRaises sent e None => mkOutcome sent (error_line e) 1
      | WriteRaises sent e (Some msg) => mkOutcome sent (error_line e ++ msg) 120
      | FlushFails sent msg => mkOutcome sent msg 120
      end
  | Err e => mkOutcome [] (error_line e) 1
  end.

End Script.

(* ===================================================================== *)
(** ** Reading the input record and the block list *)
(* ===================================================================== *)

(** The value stored under a key of a JSON object, if the key is there. *)
Definition field (data : pyval) (k : string) : option pyval :=
  match data with
  | PDict items => dict_lookup (lit k) items
  | _ => None
  end.

(** The same for a key of the [muainaInterpretation] object. *)
Definition interpretation_field (data : pyval) (k : string) : option pyval :=
  match field data "muainaInterpretation" with
  | Some interpretation => field interpretation k
  | None => None
  end.

Definition present_non_null (o : option pyval) : bool :=
  match o with
  | None | Some PNone => false
  | Some _ => true
  end.

Definition nonempty_object (o : option pyval) : bool :=
  match o with
  | Some (PDict (_ :: _)) => true
  | _ => false
  end.

Definition nonempty_list (o : option pyval) : bool :=
  match o with
  | Some (PList (_ :: _)) => true
  | _ => false
  end.

Definition empty_or_absent (o : option pyval) : bool :=
  match o with
  | None | Some (PList []) => true
  | _ => false
  end.

(** The truth value of an optional field read with [d.get(k)]. *)
Definition truthy_field (o : option pyval) : bool :=
  match o with
  | Some v => truthy v
  | None => false
  end.

Definition style_is (name : string) (st : ParagraphStyle) : bool :=
  String.eqb (style_name st) name.

(** A paragraph made of the literal [s] in the style called [name]. *)
Definition is_para (s name : string) (f : flowable) : bool :=
  match f with
  | Paragraph (Raw (PStr t)) st => pystr_eqb t (lit s) && style_is name st
  | _ => false
  end.

Definition is_page_break (f : flowable) : bool :=
  match f with
  | PageBreak => true
  | _ => false
  end.

(** The heading that opens page 2. *)
Definition has_page2 (story : list flowable) : bool :=
  existsb (is_para "Patient-Friendly Interpretation" "SectionTitle") story.

(** The heading that opens page 3. *)
Definition has_page3 (story : list flowable) : bool :=
  existsb (is_para "Recommended Healthcare Providers" "SectionTitle") story.

Definition has_key_findings_heading (story : list flowable) : bool :=
  existsb (is_para "Key Findings" "SectionTitle") story.

(** The title line of a finding: a paragraph in the style [FindingTitle]. *)
Definition is_finding_title (f : flowable) : bool :=
  match f with
  | Paragraph _ st => style_is "FindingTitle" st
  | _ => false
  end.

(** A line [f"Fee: {..}"] of a doctor's block. *)
Definition is_fee_line (f : flowable) : bool :=
  match f with
  | Paragraph (FStr (Lit p :: _)) st => pystr_eqb p (lit "Fee: ") && style_is "ListItem" st
  | _ => false
  end.

Fixpoint first_table (story : list flowable) : option TableObj :=
  match story with
  | [] => None
  | Table t :: _ => Some t
  | _ :: rest => first_table rest
  end.

(** The cell in column [col] of row [row], both counted from 0. *)
Definition table_cell (t : TableObj) (col row : nat) : option pyval :=
  match nth_error (table_data t) row with
  | Some r => nth_error r col
  | None => None
  end.

(** ReportLab's reading of a cell range: a negative bound counts from the
    end, and the range is cut to the table. *)
Definition norm_range (n lo hi : Z) : Z * Z :=
  let lo := if lo <? 0 then lo + n else lo in
  let hi := if hi <? 0 then hi + n else hi in
  (Z.max 0 lo, Z.min (n - 1) hi).

Definition in_range (n lo hi i : Z) : bool :=
  let (lo, hi) := norm_range n lo hi in
  (lo <=? i) && (i <=? hi).

(** The text colour of a cell: the commands are applied in order, a later
    one overriding an earlier one on the cells they share. *)
Fixpoint cell_textcolor (cmds : list TableCmd) (ncols nrows col row : Z)
    (current : option Color) : option Color :=
  match cmds with
  | [] => current
  | TEXTCOLOR sc sr ec er c :: rest =>
      cell_textcolor rest ncols nrows col row
        (if in_range ncols sc ec col && in_range nrows sr er row
         then Some c else current)
  | _ :: rest => cell_textcolor rest ncols nrows col row current
  end.

Definition table_textcolor (t : TableObj) (col row : Z) : option Color :=
  let nrows := Z.of_nat (List.length (table_data t)) in
  let ncols := Z.of_nat (List.length (hd [] (table_data t))) in
  cell_textcolor (table_cmds t) ncols nrows col row None.

(** The three-way mapping of the classification, on the input field. *)
Definition classification_color_of (o : option pyval) : Color :=
  match o with
  | Some (PStr s) =>
      if pystr_eqb s (lit "normal") then SUCCESS_COLOR
      else if pystr_eqb s (lit "abnormal") then WARNING_COLOR
      else if pystr_eqb s (lit "critical") then DANGER_COLOR
      else NEUTRAL_COLOR
  | _ => NEUTRAL_COLOR
  end.

(* ===================================================================== *)
(** ** A runtime to run the script on concrete inputs *)
(* ===================================================================== *)

Definition type_name (t : pytype) : string :=
  match t with
  | TNoneType => "NoneType"
  | Tbool => "bool"
  | Tint => "int"
  | Tfloat => "float"
  | Tstr => "str"
  | Tlist => "list"
  | Tdict => "dict"
  end.

Definition demo_str_exn (e : exn) : pystr :=
  match e with
  | AttributeError t attr =>
      lit ("'" ++ type_name t ++ "' object has no attribute '" ++ attr ++ "'")%string
  | TypeError_subscript Tdict => lit "unhashable type: 'slice'"
  | TypeError_subscript t => lit ("'" ++ type_name t ++ "' object is not subscriptable")%string
  | TypeError_operand t =>
      lit ("can only concatenate " ++ type_name t ++ " (not ")%string
      ++ [34%N] ++ lit "str" ++ [34%N] ++ lit (") to " ++ type_name t)%string
  | TypeError_iter t => lit ("'" ++ type_name t ++ "' object is not iterable")%string
  | KeyError k => lit ("Style '" ++ k ++ "' not found in stylesheet")%string
  | KeyError_slice => lit "slice(None, 8, None)"
  | InputError msg => msg
  | OutputError msg => msg
  | LayoutError msg => msg
  end.

(** A parser that knows one text only. *)
Definition demo_loads (s : pystr) : result pyval :=
  if pystr_eqb s (lit "{}") then Ok (PDict [])
  else Err (InputError (lit "Expecting value: line 1 column 1 (char 0)")).

(** The layout library accepts every block and answers with a header. *)
Definition demo_runtime : Runtime := {|
  hashable_slices := true;
  upper_nonascii := fun c => [c];
  json_loads := demo_loads;
  str_exn := demo_str_exn;
  Paragraph_init := fun _ _ => None;
  Table_init := fun _ _ => None;
  doc_build := fun _ => Ok ["%"%byte; "P"%byte; "D"%byte; "F"%byte]
|}.

(** A standard output that takes every byte. *)
Definition accepting (b : list byte) : write_result := Written.

(** The text of [{"summary": "<b>"}]. *)
Definition open_bold_text : pystr :=
  lit "{" ++ [34%N] ++ lit "summary" ++ [34%N] ++ lit ": "
  ++ [34%N] ++ lit "<b>" ++ [34%N] ++ lit "}".

(** [{"summary": "<b>"}]: the summary opens a bold run and never closes it. *)
Definition open_bold_input : pyval :=
  PDict [(lit "summary", PStr (lit "<b>"))].

(** A message of two lines, the first of them empty, as the one of the
    [ValueError] of ReportLab's paragraph parser on that text. *)
Definition open_bold_message : pystr :=
  [10%N]
  ++ lit "paragraph text '<para><b></para>' caused exception Parse error: saw </para> instead of expected </b>".

Definition markup_loads (s : pystr) : result pyval :=
  if pystr_eqb s open_bold_text then Ok open_bold_input
  else Err (InputError (lit "Expecting value: line 1 column 1 (char 0)")).

(** A layout library that, as ReportLab does, refuses the paragraph whose
    text is [<b>]. *)
Definition markup_runtime : Runtime := {|
  hashable_slices := true;
  upper_nonascii := fun c => [c];
  json_loads := markup_loads;
  str_exn := demo_str_exn;
  Paragraph_init := fun t _ =>
    match t with
    | Raw (PStr s) => if pystr_eqb s (lit "<b>") then Some open_bold_message else None
    | _ => None
    end;
  Table_init := fun _ _ => None;
  doc_build := fun _ => Ok ["%"%byte; "P"%byte; "D"%byte; "F"%byte]
|}.

(* ===================================================================== *)
(** ** Predicates on runs *)
(* ===================================================================== *)

(** Every block of a successful run satisfies [P]. *)
Definition emits {A} (P : flowable -> bool) (m : M A) : Prop :=
  forall a w, m = Ok (a, w) -> forallb P w = true.

(** No block is the literal paragraph [s] in the style [name]. *)
Definition not_para (s name : string) (f : flowable) : bool :=
  negb (is_para s name f).

(** Neither the heading of the findings nor the title of a finding. *)
Definition no_findings_block (f : flowable) : bool :=
  negb (is_para "Key Findings" "SectionTitle" f) && negb (is_finding_title f).

(* ===================================================================== *)
(** ** Sample inputs *)
(* ===================================================================== *)

Definition str (s : string) : pyval := PStr (lit s).

(** [{"muainaInterpretation": {}}] *)
Definition empty_interpretation_input : pyval :=
  PDict [(lit "muainaInterpretation", PDict [])].

(** A doctor whose consultation is free of charge. *)
Definition free_doctor : pyval :=
  PDict [(lit "name", str "Dr. A"); (lit "consultationFee", PInt 0)].

Definition paid_doctor : pyval :=
  PDict [(lit "name", str "Dr. B"); (lit "specialty", str "Cardiology");
         (lit "consultationFee", str "PKR 2000")].

(** A report with two findings, an interpretation and two doctors. *)
Definition full_input : pyval :=
  PDict
    [ (lit "id", str "0123456789abcdef");
      (lit "fileName", str "cbc.pdf");
      (lit "classification", str "critical");
      (lit "findings",
        PList [ PDict [(lit "severity", str "Critical"); (lit "category", str "Hemoglobin");
                       (lit "description", str "Low")];
                PDict [(lit "category", str "Platelets")] ]);
      (lit "muainaInterpretation",
        PDict [ (lit "summary", str "Anemia");
                (lit "precautions", PList [str "Rest"]);
                (lit "suggestedDoctors", PList [free_doctor; paid_doctor]) ]) ].

(** The block [b] is a run of consecutive blocks of [w]. *)
Definition contains_block (b w : list flowable) : Prop :=
  exists pre post, w = pre ++ b ++ post.

(** The value [d.get(k, default)] reads from a dict. *)
Definition get_or (o : option pyval) (default : pyval) : pyval :=
  match o with
  | Some v => v
  | None => default
  end.

(* ===================================================================== *)
(** ** Case-insensitive severities *)
(* ===================================================================== *)

Section Casing.
Context {R : Runtime}.

(** Two strs differ by case only: [s.upper() == w.upper()]. *)
Definition same_casing (s w : pystr) : bool :=
  pystr_eqb (str_upper s) (str_upper w).

(** The colour of a finding's title, as a mapping on the severity that
    ignores case. *)
Definition severity_color_of (sev : pystr) : Color :=
  if same_casing sev (lit "critical") then DANGER_COLOR
  else if same_casing sev (lit "warning") then WARNING_COLOR
  else NEUTRAL_COLOR.

End Casing.

Definition ascii_upper (c : N) : N :=
  if (97 <=? c)%N && (c <=? 122)%N then (c - 32)%N else c.

(** [s] is an ASCII str that is [w] up to the case of its letters. *)
Definition ascii_recasing (s w : pystr) : bool :=
  forallb (fun c => (c <? 128)%N) s
  && pystr_eqb (map ascii_upper s) (map ascii_upper w).

(** The title line of a finding. *)
Definition finding_title (severity : pystr) (category : pyval) (st : ParagraphStyle)
    : flowable :=
  Paragraph
    (FStr [Lit (lit "<b>["); Fmt (PStr severity); Lit (lit "]</b> "); Fmt category]) st.

(* ===================================================================== *)
(** ** Inputs of the documented shape *)
(* ===================================================================== *)

Definition is_str (v : pyval) : bool :=
  match v with
  | PStr _ => true
  | _ => false
  end.

Definition is_object (v : pyval) : bool :=
  match v with
  | PDict _ => true
  | _ => false
  end.

(** An optional string. *)
Definition opt_str (o : option pyval) : bool :=
  match o with
  | None => true
  | Some v => is_str v
  end.

(** An optional list whose items satisfy [p]. *)
Definition opt_list (p : pyval -> bool) (o : option pyval) : bool :=
  match o with
  | None => true
  | Some (PList l) => forallb p l
  | Some _ => false
  end.

(** An optional object that satisfies [p]. *)
Definition opt_object (p : pyval -> bool) (o : option pyval) : bool :=
  match o with
  | None => true
  | Some v => is_object v && p v
  end.

Definition all_opt_str (v : pyval) (keys : list string) : bool :=
  forallb (fun k => opt_str (field v k)) keys.

Definition finding_ok (f : pyval) : bool :=
  is_object f && all_opt_str f ["severity"; "category"; "description"].

Definition condition_ok (c : pyval) : bool :=
  all_opt_str c ["name"; "description"; "severity"; "icdCode"].

Definition consultation_ok (c : pyval) : bool :=
  all_opt_str c ["followUpTiming"; "bookingInfo"; "urgency"].

(** The fee of a doctor is optional and of any type. *)
Definition doctor_ok (d : pyval) : bool :=
  is_object d
  && all_opt_str d
       ["name"; "specialty"; "qualification"; "location"; "availability"; "contact"].

Definition recommendation_ok (r : pyval) : bool :=
  is_object r && all_opt_str r ["specialty"; "urgency"; "reason"].

Definition interpretation_ok (i : pyval) : bool :=
  opt_object condition_ok (field i "medicalCondition")
  && opt_str (field i "summary")
  && opt_list is_str (field i "precautions")
  && opt_list is_str (field i "diet")
  && opt_object consultation_ok (field i "consultation")
  && opt_list is_str (field i "dos")
  && opt_list is_str (field i "donts")
  && opt_list is_str (field i "lifestyleChanges")
  && opt_list doctor_ok (field i "suggestedDoctors")
  && opt_list recommendation_ok (field i "doctorRecommendations").

(** A JSON object whose present fields have the types of the data model;
    the interpretation may also be [null]. *)
Definition well_typed (data : pyval) : bool :=
  is_object data
  && all_opt_str data
       ["id"; "fileName"; "uploadedAt"; "organizationName"; "classification";
        "reviewStatus"; "summary"; "details"]
  && opt_list finding_ok (field data "findings")
  && match field data "muainaInterpretation" with
     | Some PNone => true
     | o => opt_object interpretation_ok o
     end.

(** The style sheet [create_styles] returns. *)
Definition the_styles : StyleSheet :=
  match create_styles with
  | Ok styles => styles
  | Err _ => []
  end.

Definition style_of (name : string) : ParagraphStyle :=
  match sheet_find name the_styles with
  | Some s => s
  | None => base_style name
  end.

(** The block list of the input [{}]: one page of placeholders. *)
Definition minimal_story : list flowable :=
  [ Paragraph (text "MUAINA") (style_of "Logo");
    Paragraph (text "AI-Powered Pathology Report Analysis") (style_of "Subtitle");
    HRFlowable "100%" 2 PRIMARY_COLOR;
    Spacer 1 12;
    Paragraph (text "Report Information") (style_of "SectionTitle");
    Table (mkTable
      [ [str "Report ID:"; str "N/A..."];
        [str "File Name:"; str "Unknown"];
        [str "Uploaded:"; str "N/A"];
        [str "Organization:"; str "Unknown"];
        [str "Classification:"; str "PENDING"];
        [str "Review Status:"; str "pending"] ]
      [120; 350]
      (info_table_style NEUTRAL_COLOR));
    Spacer 1 16;
    Paragraph (text "AI Analysis Summary") (style_of "SectionTitle");
    Paragraph (text "No summary available") (style_of "CustomBodyText");
    Spacer 1 8;
    Paragraph (text "No details available") (style_of "CustomBodyText");
    Spacer 1 16;
    Spacer 1 20;
    Paragraph (text disclaimer1) (style_of "Disclaimer") ].

Section Layout.
Context {R : Runtime}.

(** The exception was raised by a constructor of the layout library. *)
Definition raised_by_layout (e : exn) : Prop :=
  exists msg, e = LayoutError msg /\
    ((exists t s, Paragraph_init t s = Some msg) \/
     (exists d ws, Table_init d ws = Some msg)).

(** A run that fails fails inside the layout library. *)
Definition layout_only {A} (m : M A) : Prop :=
  forall e, m = Err e -> raised_by_layout e.

(** The layout library constructs the block. *)
Definition block_accepted (f : flowable) : bool :=
  match f with
  | Paragraph t s =>
      match Paragraph_init t s with None => true | Some _ => false end
  | Table t =>
      match Table_init (table_data t) (table_colWidths t) with
      | None => true
      | Some _ => false
      end
  | _ => true
  end.

End Layout.

(* ===================================================================== *)
(** ** The documented defaults *)
(* ===================================================================== *)

(** [v[k] = x] on a JSON object: the key [k] now holds [x]. *)
Definition set_field (v : pyval) (k : string) (x : pyval) : pyval :=
  match v with
  | PDict items => PDict ((lit k, x) :: items)
  | _ => v
  end.

(** The default of each field, by the object it belongs to. *)
Definition record_defaults : list (string * pyval) :=
  [ ("id", str "N/A"); ("fileName", str "Unknown"); ("uploadedAt", str "N/A");
    ("organizationName", str "Unknown"); ("classification", str "pending");
    ("reviewStatus", str "pending"); ("summary", str "No summary available");
    ("details", str "No details available"); ("findings", PList []);
    ("muainaInterpretation", PNone) ].

Definition finding_defaults : list (string * pyval) :=
  [ ("severity", str "info"); ("category", PStr []); ("description", PStr []) ].

Definition interpretation_defaults : list (string * pyval) :=
  [ ("medicalCondition", PDict []); ("summary", PStr []); ("precautions", PList []);
    ("diet", PList []); ("consultation", PDict []); ("dos", PList []);
    ("donts", PList []); ("lifestyleChanges", PList []);
    ("suggestedDoctors", PList []); ("doctorRecommendations", PList []) ].

Definition condition_defaults : list (string * pyval) :=
  [ ("name", str "Unknown"); ("description", PStr []); ("severity", str "moderate");
    ("icdCode", PStr []) ].

Definition consultation_defaults : list (string * pyval) :=
  [ ("followUpTiming", str "N/A"); ("bookingInfo", str "N/A");
    ("urgency", str "routine") ].

Definition doctor_defaults : list (string * pyval) :=
  [ ("name", str "N/A"); ("specialty", PStr []); ("qualification", PStr []);
    ("location", str "N/A"); ("availability", str "N/A"); ("contact", str "N/A");
    ("consultationFee", PNone) ].

Definition recommendation_defaults : list (string * pyval) :=
  [ ("specialty", str "N/A"); ("urgency", str "routine"); ("reason", PStr []) ].

(* ===================================================================== *)
(** ** Further readings of the block list *)
(* ===================================================================== *)

(** The exceptions the script raises before [doc.build]: a missing
    method, a bad slice (a [TypeError], or the [KeyError] of a slice taken
    of a dict), a bad operand or loop, or a failure of a constructor of
    the layout library.  The [KeyError] of a style name is not one. *)
Definition script_error (e : exn) : bool :=
  match e with
  | AttributeError _ attr => String.eqb attr "get" || String.eqb attr "upper"
  | TypeError_subscript _ | TypeError_operand _ | TypeError_iter _ => true
  | KeyError_slice => true
  | LayoutError _ => true
  | KeyError _ | InputError _ | OutputError _ => false
  end.

(** The exceptions of [script_error], the [KeyError] of a slice being
    allowed only where slices can be hashed and the [id] of the record is
    an object. *)
Definition record_error `{R : Runtime} (data : pyval) (e : exn) : bool :=
  match e with
  | KeyError_slice =>
      hashable_slices && match field data "id" with
                         | Some (PDict _) => true
                         | _ => false
                         end
  | _ => script_error e
  end.

(** [{"id": {}}]: the identifier is an object. *)
Definition object_id_input : pyval := PDict [(lit "id", PDict [])].

(** The blocks of an optional page: none when the page is left out; else
    a page break, the logo, the title of the page, and blocks among which
    there is no page break. *)
Definition page_from (title : string) (present : bool) (p : list flowable) : Prop :=
  if present then
    exists st1 st2 rest,
      p = PageBreak :: Paragraph (text "MUAINA") st1
            :: Paragraph (text title) st2 :: rest /\
      style_name st1 = "Logo" /\ style_name st2 = "SectionTitle" /\
      existsb is_page_break rest = false
  else p = [].

(** A standard output that is closed by its reader: the write raises. *)
Definition broken_pipe (b : list byte) : write_result :=
  WriteRaises [] (OutputError (lit "[Errno 32] Broken pipe")) None.

(** A run that fails fails with an exception that satisfies [Q]. *)
Definition fails_with {A} (Q : exn -> bool) (m : M A) : Prop :=
  forall e, m = Err e -> Q e = true.

(** The number of page breaks of a block list. *)
Definition page_breaks (story : list flowable) : nat :=
  List.length (filter is_page_break story).

Definition pytype_eqb (s t : pytype) : bool :=
  match s, t with
  | TNoneType, TNoneType | Tbool, Tbool | Tint, Tint | Tfloat, Tfloat
  | Tstr, Tstr | Tlist, Tlist | Tdict, Tdict => true
  | _, _ => false
  end.

(** The exception is the missing [get] of a value of type [t], or comes
    from the layout library. *)
Definition missing_get_or_layout (t : pytype) (e : exn) : bool :=
  match e with
  | LayoutError _ => true
  | AttributeError t' attr => pytype_eqb t t' && String.eqb attr "get"
  | _ => false
  end.

Definition is_table (f : flowable) : bool :=
  match f with
  | Table _ => true
  | _ => false
  end.

(** [{"classification": "Normal"}] *)
Definition capitalised_input : pyval :=
  PDict [(lit "classification", str "Normal")].

Section FindingTitles.
Context {R : Runtime}.

(** The style of a finding's title: [ParagraphStyle('FindingTitle',
    parent=styles['CustomBodyText'], textColor=c)]. *)
Definition finding_title_style (c : Color) : ParagraphStyle :=
  with_textColor c (child_style "FindingTitle" (base_style "CustomBodyText")).

(** The title line the loop of lines 215-230 builds for a finding. *)
Definition finding_title_of (f : pyval) : flowable :=
  let sev := match get_or (field f "severity") (str "info") with
             | PStr s => s
             | _ => []
             end in
  finding_title (str_upper sev) (get_or (field f "category") (PStr []))
    (finding_title_style (severity_color_of sev)).

End FindingTitles.

Section Urgency.
Context {R : Runtime}.

(** The colour of the priority line, as a mapping on the urgency that
    ignores case. *)
Definition urgency_color_of (urg : pystr) : Color :=
  if same_casing urg (lit "urgent") then DANGER_COLOR
  else if same_casing urg (lit "soon") then WARNING_COLOR
  else INFO_COLOR.

(** The meta line of the medical condition (lines 262-267). *)
Definition condition_meta_text (condition : pyval) : list frag :=
  let sev := match get_or (field condition "severity") (str "moderate") with
             | PStr s => s
             | _ => []
             end in
  let icd := get_or (field condition "icdCode") (PStr []) in
  [Lit (lit "Severity: "); Fmt (PStr (str_upper sev))]
  ++ (if truthy icd then [Lit (lit " | ICD Code: "); Fmt icd] else []).

End Urgency.

(** The three titled lists of page 2: key, title, glyph and style. *)
Definition item_sections : list (string * string * N * string) :=
  [ ("precautions", "Important Precautions", WARNING_SIGN, "WarningText");
    ("diet", "Diet Recommendations", BULLET, "InfoText");
    ("lifestyleChanges", "Lifestyle Changes", BULLET, "ListItem") ].

(** The line of one item of a titled list. *)
Definition item_line (glyph : N) (st : ParagraphStyle) (item : pyval) : flowable :=
  Paragraph (FStr [Lit [glyph; 32%N]; Fmt item]) st.

(** An interpretation whose precautions are a str, not a list. *)
Definition str_precautions_input : pyval :=
  PDict [(lit "muainaInterpretation",
          PDict [ (lit "precautions", str "Rest");
                  (lit "medicalCondition",
                   PDict [(lit "name", str "Anemia"); (lit "icdCode", str "D64.9")]);
                  (lit "consultation", PDict [(lit "urgency", str "Urgent")]);
                  (lit "donts", PList [str "Smoking"]);
                  (lit "doctorRecommendations",
                   PList [PDict [(lit "specialty", str "Hematology");
                                 (lit "urgency", str "soon");
                                 (lit "reason", str "Low hemoglobin")]]) ])].

(** The lines under "Things to Do" or "Things to Avoid": nothing when the
    value is false, else the sub-heading and one line per item. *)
Definition advice_lines (v : pyval) (heading : string) (glyph : N)
    (st_heading st_item : ParagraphStyle) : list flowable :=
  if truthy v then
    Paragraph (text heading) st_heading
    :: map (item_line glyph st_item)
         (match py_iter v with Ok items => items | Err _ => [] end)
  else [].

(* ===================================================================== *)
(** ** How the monad runs *)
(* ===================================================================== *)

Lemma pystr_eqb_eq (s t : pystr) : pystr_eqb s t = true <-> s = t.
Proof.
  unfold pystr_eqb. destruct (list_eq_dec N.eq_dec s t); split; congruence.
Qed.

Lemma pystr_eqb_refl (s : pystr) : pystr_eqb s s = true.
Proof. now apply pystr_eqb_eq. Qed.

Lemma bind_Ok {A B} (m : M A) (f : A -> M B) (b : B) (w : list flowable) :
  bind m f = Ok (b, w) ->
  exists a w1 w2, m = Ok (a, w1) /\ f a = Ok (b, w2) /\ w = w1 ++ w2.
Proof.
  unfold bind. destruct m as [[a w1]|e]; [|discriminate].
  destruct (f a) as [[b' w2]|e] eqn:Hf; [|discriminate].
  intros H. injection H as -> <-. now exists a, w1, w2.
Qed.

Lemma bind_Err {A B} (m : M A) (f : A -> M B) (e : exn) :
  bind m f = Err e ->
  m = Err e \/ exists a w, m = Ok (a, w) /\ f a = Err e.
Proof.
  unfold bind. destruct m as [[a w1]|e']; [|left; congruence].
  destruct (f a) as [[b' w2]|e'] eqn:Hf; [discriminate|].
  intros H. right. exists a, w1. split; congruence.
Qed.

Lemma lift_Ok {A} (r : result A) (a : A) (w : list flowable) :
  lift r = Ok (a, w) -> r = Ok a /\ w = [].
Proof. destruct r; simpl; intros H; [injection H as -> <-; auto | discriminate]. Qed.

Lemma append_Ok (f : flowable) (u : unit) (w : list flowable) :
  append f = Ok (u, w) -> w = [f].
Proof. unfold append. congruence. Qed.

Lemma ret_Ok {A} (a b : A) (w : list flowable) : ret a = Ok (b, w) -> a = b /\ w = [].
Proof. unfold ret. intros H. injection H as -> <-. auto. Qed.

Lemma when_Ok (b : bool) (m : M unit) (u : unit) (w : list flowable) :
  when b m = Ok (u, w) -> (b = true /\ m = Ok (u, w)) \/ (b = false /\ w = []).
Proof.
  destruct b; simpl; [now left|]. intros H. apply ret_Ok in H. now right.
Qed.

Lemma for_each_Ok (body : pyval -> M unit) (l : list pyval) (u : unit) (w : list flowable) :
  for_each l body = Ok (u, w) ->
  exists ws, Forall2 (fun x wx => body x = Ok (tt, wx)) l ws /\ w = List.concat ws.
Proof.
  revert u w. induction l as [|x l IH]; simpl; intros u w H.
  - apply ret_Ok in H. exists []. split; [constructor | tauto].
  - apply bind_Ok in H. destruct H as ([] & w1 & w2 & Hx & Hl & ->).
    destruct (IH _ _ Hl) as (ws & Hws & ->).
    exists (w1 :: ws). split; [now constructor | reflexivity].
Qed.

Lemma Forall2_nth_split {A} (P : A -> list flowable -> Prop) (l : list A)
    (ws : list (list flowable)) (i : nat) (x : A) :
  Forall2 P l ws -> nth_error l i = Some x ->
  exists wx pre post, P x wx /\ List.concat ws = pre ++ wx ++ post.
Proof.
  intros H. revert i. induction H as [|y wy l ws Hy _ IH]; intros i Hi.
  - destruct i; discriminate.
  - destruct i as [|i]; simpl in Hi.
    + injection Hi as ->. exists wy, [], (List.concat ws). auto.
    + destruct (IH _ Hi) as (wx & pre & post & Hx & E).
      exists wx, (wy ++ pre), post. split; [assumption|].
      simpl. rewrite E. now rewrite app_assoc.
Qed.

Lemma sheet_find_name (styles : StyleSheet) (n : string) (st : ParagraphStyle) :
  sheet_find n styles = Some st -> style_name st = n.
Proof.
  induction styles as [|s styles IH]; simpl; [discriminate|].
  destruct (String.eqb (style_name s) n) eqn:E; [|exact IH].
  intros H. injection H as <-. now apply String.eqb_eq.
Qed.

Lemma sheet_get_name (styles : StyleSheet) (n : string) (st : ParagraphStyle) :
  sheet_get styles n = Ok st -> style_name st = n.
Proof.
  unfold sheet_get. destruct (sheet_find n styles) eqn:E; [|discriminate].
  intros H. injection H as <-. eapply sheet_find_name; eassumption.
Qed.

Section RunFacts.
Context {R : Runtime}.

Lemma new_Paragraph_Ok (t : ptext) (s : ParagraphStyle) (f : flowable) :
  new_Paragraph t s = Ok f -> f = Paragraph t s /\ Paragraph_init t s = None.
Proof.
  unfold new_Paragraph. destruct (Paragraph_init t s); [discriminate|].
  intros H. injection H as <-. auto.
Qed.

Lemma append_para_Ok (styles : StyleSheet) (t : ptext) (n : string) (u : unit)
    (w : list flowable) :
  append_para styles t n = Ok (u, w) ->
  exists st, sheet_get styles n = Ok st /\ style_name st = n /\ w = [Paragraph t st].
Proof.
  unfold append_para. intros H.
  apply bind_Ok in H. destruct H as (st & w1 & w2 & H1 & H & ->).
  apply lift_Ok in H1. destruct H1 as [H1 ->].
  apply bind_Ok in H. destruct H as (p & w3 & w4 & H2 & H & ->).
  apply lift_Ok in H2. destruct H2 as [H2 ->].
  apply new_Paragraph_Ok in H2. destruct H2 as [-> _].
  apply append_Ok in H. subst w4.
  exists st. split; [assumption|]. split; [|reflexivity].
  eapply sheet_get_name; eassumption.
Qed.

Lemma append_para_styled_Ok (styles : StyleSheet) (t : ptext) (n parent : string)
    (kw : ParagraphStyle -> ParagraphStyle) (u : unit) (w : list flowable) :
  append_para_styled styles t n parent kw = Ok (u, w) ->
  exists st, sheet_get styles parent = Ok st /\ w = [Paragraph t (kw (child_style n st))].
Proof.
  unfold append_para_styled. intros H.
  apply bind_Ok in H. destruct H as (st & w1 & w2 & H1 & H & ->).
  apply lift_Ok in H1. destruct H1 as [H1 ->].
  apply bind_Ok in H. destruct H as (p & w3 & w4 & H2 & H & ->).
  apply lift_Ok in H2. destruct H2 as [H2 ->].
  apply new_Paragraph_Ok in H2. destruct H2 as [-> _].
  apply append_Ok in H. subst w4.
  exists st. split; [assumption | reflexivity].
Qed.

End RunFacts.

(** Taking a successful run apart, one statement at a time. *)
Ltac run_step :=
  match goal with
  | H : lift _ = Ok (_, _) |- _ =>
      let E := fresh "E" in apply lift_Ok in H; destruct H as [E ->]
  | H : append _ = Ok (_, _) |- _ => apply append_Ok in H; subst
  | H : ret _ = Ok (_, _) |- _ => apply ret_Ok in H; destruct H as [? ->]
  | H : append_para _ _ _ = Ok (_, _) |- _ =>
      let st := fresh "st" in let E := fresh "E" in let N := fresh "N" in
      apply append_para_Ok in H; destruct H as (st & E & N & ->)
  | H : append_para_styled _ _ _ _ _ = Ok (_, _) |- _ =>
      let st := fresh "st" in let E := fresh "E" in
      apply append_para_styled_Ok in H; destruct H as (st & E & ->)
  | H : bind _ _ = Ok (_, _) |- _ =>
      let a := fresh "a" in let w1 := fresh "w" in let w2 := fresh "w" in
      let H1 := fresh "H" in let H2 := fresh "H" in
      apply bind_Ok in H; destruct H as (a & w1 & w2 & H1 & H2 & ->)
  end.

Ltac run := repeat run_step.

Section Emits.
Context {R : Runtime}.

Lemma emits_bind {A B} (P : flowable -> bool) (m : M A) (f : A -> M B) :
  emits P m -> (forall a, emits P (f a)) -> emits P (bind m f).
Proof.
  intros Hm Hf b w H. run. rewrite forallb_app.
  rewrite (Hm _ _ H0), (Hf _ _ _ H1). reflexivity.
Qed.

Lemma emits_lift {A} (P : flowable -> bool) (r : result A) : emits P (lift r).
Proof. intros a w H. run. reflexivity. Qed.

Lemma emits_ret {A} (P : flowable -> bool) (a : A) : emits P (ret a).
Proof. intros b w H. run. reflexivity. Qed.

Lemma emits_append (P : flowable -> bool) (f : flowable) :
  P f = true -> emits P (append f).
Proof. intros Hf u w H. run. simpl. now rewrite Hf. Qed.

Lemma emits_when (P : flowable -> bool) (b : bool) (m : M unit) :
  emits P m -> emits P (when b m).
Proof. destruct b; simpl; [auto | intros _; apply emits_ret]. Qed.

Lemma emits_for_each (P : flowable -> bool) (body : pyval -> M unit) (l : list pyval) :
  (forall x, emits P (body x)) -> emits P (for_each l body).
Proof.
  intros Hb. induction l as [|x l IH]; simpl.
  - apply emits_ret.
  - apply emits_bind; auto.
Qed.

Lemma emits_append_para (P : flowable -> bool) (styles : StyleSheet) (t : ptext)
    (n : string) :
  (forall st, style_name st = n -> P (Paragraph t st) = true) ->
  emits P (append_para styles t n).
Proof. intros HP u w H. run. simpl. now rewrite HP. Qed.

Lemma emits_append_para_styled (P : flowable -> bool) (styles : StyleSheet) (t : ptext)
    (n parent : string) (kw : ParagraphStyle -> ParagraphStyle) :
  (forall st, P (Paragraph t (kw (child_style n st))) = true) ->
  emits P (append_para_styled styles t n parent kw).
Proof. intros HP u w H. run. simpl. now rewrite HP. Qed.

End Emits.

(* ===================================================================== *)
(** ** Which headings each part of the script can emit *)
(* ===================================================================== *)

Ltac leaf :=
  cbv beta;
  unfold not_para, no_findings_block, is_para, is_finding_title, is_fee_line,
    is_page_break, style_is, text in *;
  repeat match goal with H : style_name _ = _ |- _ => rewrite H; clear H end;
  first
    [ reflexivity
    | vm_compute; reflexivity
    | repeat (match goal with
              | |- context [match ?x with _ => _ end] => destruct x
              end);
      simpl; rewrite ?andb_false_r; reflexivity ].

Ltac emits_walk :=
  cbv zeta;
  repeat first
    [ solve [auto 2]
    | apply emits_append_para; intros ? ?; leaf
    | apply emits_append_para_styled; intro; leaf
    | apply emits_append; leaf
    | apply emits_lift
    | apply emits_ret
    | apply emits_when
    | apply emits_for_each; intro
    | apply emits_bind; [|intro] ].

Section Pages.
Context {R : Runtime}.

Lemma page1_no_heading2 (styles : StyleSheet) (data : pyval) :
  emits (not_para "Patient-Friendly Interpretation" "SectionTitle")
    (generate_pdf_page1 styles data).
Proof.
  unfold generate_pdf_page1, page_header, report_information, analysis_summary,
    key_findings, finding_block.
  emits_walk.
Qed.

Lemma page1_no_heading3 (styles : StyleSheet) (data : pyval) :
  emits (not_para "Recommended Healthcare Providers" "SectionTitle")
    (generate_pdf_page1 styles data).
Proof.
  unfold generate_pdf_page1, page_header, report_information, analysis_summary,
    key_findings, finding_block.
  emits_walk.
Qed.

Lemma page2_no_heading3 (styles : StyleSheet) (interpretation : pyval) :
  emits (not_para "Recommended Healthcare Providers" "SectionTitle")
    (generate_pdf_page2 styles interpretation).
Proof.
  unfold generate_pdf_page2, page_header, medical_condition, item_section,
    item_lines, consultation_info, dos_and_donts.
  emits_walk.
Qed.

Lemma page2_no_findings (styles : StyleSheet) (interpretation : pyval) :
  emits no_findings_block (generate_pdf_page2 styles interpretation).
Proof.
  unfold generate_pdf_page2, page_header, medical_condition, item_section,
    item_lines, consultation_info, dos_and_donts.
  emits_walk.
Qed.

Lemma page3_no_findings (styles : StyleSheet) (interpretation : pyval) :
  emits no_findings_block (generate_pdf_page3 styles interpretation).
Proof.
  unfold generate_pdf_page3, page_header, doctor_block, recommendation_block.
  emits_walk.
Qed.

Lemma py_get_Ok (v : pyval) (k : string) (d x : pyval) :
  py_get v k d = Ok x ->
  exists items, v = PDict items /\
    x = match field v k with Some y => y | None => d end.
Proof.
  destruct v; simpl; try discriminate.
  intros H. injection H as <-. now exists items.
Qed.

Lemma doctor_block_dict (styles : StyleSheet) (d : pyval) (u : unit) (w : list flowable) :
  doctor_block styles d = Ok (u, w) -> exists items, d = PDict items.
Proof.
  unfold doctor_block. intros H. do 2 run_step.
  match goal with E : py_get _ _ _ = Ok _ |- _ =>
    apply py_get_Ok in E; destruct E as (items & -> & _) end.
  now exists items.
Qed.

Lemma recommendation_block_dict (styles : StyleSheet) (r : pyval) (u : unit)
    (w : list flowable) :
  recommendation_block styles r = Ok (u, w) -> exists items, r = PDict items.
Proof.
  unfold recommendation_block. intros H. do 2 run_step.
  match goal with E : py_get _ _ _ = Ok _ |- _ =>
    apply py_get_Ok in E; destruct E as (items & -> & _) end.
  now exists items.
Qed.

Lemma finding_block_dict (styles : StyleSheet) (f : pyval) (u : unit) (w : list flowable) :
  finding_block styles f = Ok (u, w) -> exists items, f = PDict items.
Proof.
  unfold finding_block. intros H. do 2 run_step.
  match goal with E : py_get _ _ _ = Ok _ |- _ =>
    apply py_get_Ok in E; destruct E as (items & -> & _) end.
  now exists items.
Qed.

(** A loop whose body needs a dict runs to its end only over a list:
    the items of a str are strs, and those of a dict are its keys. *)
Lemma loop_over_list (body : pyval -> M unit) (v : pyval) (items : list pyval)
    (u : unit) (w : list flowable) :
  (forall x u' w', body x = Ok (u', w') -> exists it, x = PDict it) ->
  truthy v = true -> py_iter v = Ok items -> for_each items body = Ok (u, w) ->
  exists x l, v = PList (x :: l).
Proof.
  intros Hbody Ht Hi Hl.
  destruct v as [| | | |s|l|kvs]; simpl in Hi; try discriminate; injection Hi as <-.
  - destruct s as [|c s]; [discriminate|]. simpl in Hl. run_step.
    apply Hbody in H. destruct H as (it & H). discriminate.
  - destruct l as [|x l]; [discriminate|]. now exists x, l.
  - destruct kvs as [|kv kvs]; [discriminate|]. simpl in Hl. run_step.
    apply Hbody in H. destruct H as (it & H). discriminate.
Qed.

Lemma is_para_text (s n : string) (st : ParagraphStyle) :
  style_name st = n -> is_para s n (Paragraph (text s) st) = true.
Proof.
  intros <-. unfold is_para, text, style_is.
  now rewrite pystr_eqb_refl, String.eqb_refl.
Qed.

Lemma existsb_not {A} (f : A -> bool) (l : list A) :
  forallb (fun x => negb (f x)) l = true -> existsb f l = false.
Proof.
  induction l as [|x l IH]; simpl; [reflexivity|].
  intros H. apply andb_true_iff in H. destruct H as [Hx Hl].
  apply negb_true_iff in Hx. now rewrite Hx, IH.
Qed.

Lemma emits_not_para {A} (s n : string) (m : M A) (a : A) (w : list flowable) :
  emits (not_para s n) m -> m = Ok (a, w) -> existsb (is_para s n) w = false.
Proof. intros He Hm. apply existsb_not. exact (He _ _ Hm). Qed.

Lemma page_header_Ok (styles : StyleSheet) (t : ptext) (n : string) (u : unit)
    (w : list flowable) :
  page_header styles t n = Ok (u, w) ->
  exists st1 st2, style_name st1 = "Logo" /\ style_name st2 = n /\
    w = [Paragraph (text "MUAINA") st1; Paragraph t st2;
         HRFlowable "100%" 2 PRIMARY_COLOR; Spacer 1 12].
Proof.
  unfold page_header. intros H. run. now exists st, st0.
Qed.

Lemma page2_has_heading (styles : StyleSheet) (interpretation : pyval) (u : unit)
    (w : list flowable) :
  generate_pdf_page2 styles interpretation = Ok (u, w) ->
  has_page2 w = true /\ exists items, interpretation = PDict items.
Proof.
  unfold generate_pdf_page2. intros H.
  do 3 run_step.
  match goal with H : page_header _ _ _ = Ok _ |- _ =>
    apply page_header_Ok in H; destruct H as (st1 & st2 & _ & N2 & ->) end.
  split.
  - unfold has_page2. apply existsb_exists.
    exists (Paragraph (text "Patient-Friendly Interpretation") st2).
    split; [|now apply is_para_text].
    rewrite !in_app_iff. simpl. tauto.
  - repeat run_step.
    match goal with E : py_get interpretation _ _ = Ok _ |- _ =>
      apply py_get_Ok in E; destruct E as (items & -> & _) end.
    now exists items.
Qed.

Lemma field_nonempty_list (v : pyval) (k : string) (x : pyval) (l : list pyval) :
  match field v k with Some y => y | None => PList [] end = PList (x :: l) ->
  nonempty_list (field v k) = true.
Proof. destruct (field v k); [intros -> | discriminate]. reflexivity. Qed.

Lemma field_falsy_list (v : pyval) (k : string) :
  truthy (match field v k with Some y => y | None => PList [] end) = false ->
  nonempty_list (field v k) = false.
Proof.
  destruct (field v k) as [[| | | | |[|x l]|]|]; simpl; congruence.
Qed.

Lemma page3_spec (styles : StyleSheet) (interpretation : pyval) (u : unit)
    (w : list flowable) :
  generate_pdf_page3 styles interpretation = Ok (u, w) ->
  has_page3 w =
    nonempty_list (field interpretation "suggestedDoctors")
    || nonempty_list (field interpretation "doctorRecommendations").
Proof.
  unfold generate_pdf_page3. intros H. do 4 run_step.
  match goal with
  | H1 : py_get _ "suggestedDoctors" _ = Ok ?d,
    H2 : py_get _ "doctorRecommendations" _ = Ok ?r,
    H3 : when _ _ = Ok _ |- _ =>
      rename H1 into Ed; rename H2 into Er; rename H3 into Hw;
      rename d into doctors; rename r into recs
  end.
  apply py_get_Ok in Ed. destruct Ed as (items & Hi & Hd).
  apply py_get_Ok in Er. destruct Er as (_ & _ & Hr).
  apply when_Ok in Hw. destruct Hw as [[Hc Hw]|[Hc ->]].
  - do 3 run_step.
    match goal with H : page_header _ _ _ = Ok _ |- _ =>
      apply page_header_Ok in H; destruct H as (st1 & st2 & _ & N2 & ->) end.
    transitivity true.
    { unfold has_page3. apply existsb_exists.
      exists (Paragraph (text "Recommended Healthcare Providers") st2).
      split; [|now apply is_para_text].
      rewrite !in_app_iff. simpl. tauto. }
    symmetry. apply orb_true_iff. apply orb_true_iff in Hc.
    do 2 run_step.
    repeat match goal with
           | Hw' : when _ _ = Ok _ |- _ =>
               apply when_Ok in Hw'; destruct Hw' as [[? Hw']|[? ?]]
           end.
    all: try (left; run;
      match goal with
      | Td : truthy ?d = true, Hit : py_iter ?d = Ok _,
        Hl : for_each _ (doctor_block _) = Ok _ |- _ =>
          destruct (loop_over_list (doctor_block styles) d _ _ _
                      (doctor_block_dict styles) Td Hit Hl) as (x & l & Ex)
      end;
      apply field_nonempty_list with (x := x) (l := l); congruence).
    all: try (right; run;
      match goal with
      | Tr : truthy ?r = true, Hit : py_iter ?r = Ok _,
        Hl : for_each _ (recommendation_block _) = Ok _ |- _ =>
          destruct (loop_over_list (recommendation_block styles) r _ _ _
                      (recommendation_block_dict styles) Tr Hit Hl) as (x & l & Ex)
      end;
      apply field_nonempty_list with (x := x) (l := l); congruence).
    destruct Hc; congruence.
  - apply orb_false_iff in Hc. destruct Hc as [Td Tr].
    rewrite Hd in Td. rewrite Hr in Tr.
    rewrite (field_falsy_list _ _ Td), (field_falsy_list _ _ Tr). reflexivity.
Qed.

End Pages.

(* ===================================================================== *)
(** ** The pages of the document *)
(* ===================================================================== *)

Section Story.
Context {R : Runtime}.

Lemma story_Ok (data : pyval) (u : unit) (story : list flowable) :
  generate_pdf_story data = Ok (u, story) ->
  exists styles w1 interpretation w2,
    create_styles = Ok styles /\
    generate_pdf_page1 styles data = Ok (tt, w1) /\
    py_get data "muainaInterpretation" PNone = Ok interpretation /\
    story = w1 ++ w2 /\
    ((truthy interpretation = true /\
      exists wp2 wp3,
        generate_pdf_page2 styles interpretation = Ok (tt, wp2) /\
        generate_pdf_page3 styles interpretation = Ok (tt, wp3) /\
        w2 = wp2 ++ wp3)
     \/ (truthy interpretation = false /\ w2 = [])).
Proof.
  unfold generate_pdf_story. intros H. run.
  match goal with
  | H1 : create_styles = Ok ?s, H2 : generate_pdf_page1 _ _ = Ok (?a, ?w1),
    H3 : py_get _ _ _ = Ok ?i, H4 : when _ _ = Ok (_, ?w2) |- _ =>
      exists s, w1, i, w2; destruct a;
      repeat (split; [first [assumption | reflexivity]|]);
      apply when_Ok in H4; destruct H4 as [[T H4]|[T ->]]
  end.
  - left. split; [assumption|]. run_step.
    repeat match goal with x : unit |- _ => destruct x end.
    eauto 6.
  - now right.
Qed.

Lemma falsy_no_field (v : pyval) (k : string) : truthy v = false -> field v k = None.
Proof. destruct v as [| | | | | |[|kv items]]; simpl; congruence. Qed.

Lemma has_page2_spec (data : pyval) (story : list flowable) :
  generate_pdf_story data = Ok (tt, story) ->
  has_page2 story = nonempty_object (field data "muainaInterpretation").
Proof.
  intros H. apply story_Ok in H.
  destruct H as (styles & w1 & i & w2 & _ & H1 & Hi & -> & H2).
  unfold has_page2. rewrite existsb_app.
  rewrite (emits_not_para _ _ _ _ _ (page1_no_heading2 styles data) H1). simpl.
  apply py_get_Ok in Hi. destruct Hi as (items & -> & Hi). simpl in Hi. simpl field.
  destruct H2 as [(T & wp2 & wp3 & H2 & _ & ->)|(T & ->)].
  - apply page2_has_heading in H2. destruct H2 as (H2 & its & ->).
    rewrite existsb_app. unfold has_page2 in H2. rewrite H2. simpl.
    destruct (dict_lookup _ items) as [v|]; [|discriminate]. subst v.
    destruct its; [discriminate | reflexivity].
  - simpl. destruct (dict_lookup _ items) as [v|]; [|reflexivity]. subst v.
    destruct i as [| | | | | |[|kv its]]; simpl in *; congruence.
Qed.

Lemma has_page3_spec (data : pyval) (story : list flowable) :
  generate_pdf_story data = Ok (tt, story) ->
  has_page3 story =
    nonempty_list (interpretation_field data "suggestedDoctors")
    || nonempty_list (interpretation_field data "doctorRecommendations").
Proof.
  intros H. apply story_Ok in H.
  destruct H as (styles & w1 & i & w2 & _ & H1 & Hi & -> & H2).
  unfold has_page3. rewrite existsb_app.
  rewrite (emits_not_para _ _ _ _ _ (page1_no_heading3 styles data) H1). cbn [orb].
  apply py_get_Ok in Hi. destruct Hi as (items & -> & Hi).
  unfold interpretation_field.
  destruct H2 as [(T & wp2 & wp3 & H2 & H3 & ->)|(T & ->)].
  - rewrite existsb_app.
    rewrite (emits_not_para _ _ _ _ _ (page2_no_heading3 styles i) H2). cbn [orb].
    apply page3_spec in H3. unfold has_page3 in H3. rewrite H3.
    destruct (field (PDict items) "muainaInterpretation") as [v|];
      [now subst v | subst i; discriminate].
  - cbn [existsb]. destruct (field (PDict items) "muainaInterpretation") as [v|];
      [subst v | reflexivity].
    now rewrite !falsy_no_field.
Qed.

Lemma interpretation_field_object (data : pyval) (k : string) :
  nonempty_list (interpretation_field data k) = true ->
  nonempty_object (field data "muainaInterpretation") = true.
Proof.
  unfold interpretation_field.
  destruct (field data "muainaInterpretation") as [i|]; [|discriminate].
  destruct i as [| | | | | |[|kv its]]; simpl; try discriminate. reflexivity.
Qed.

End Story.


(** C1, as the specification states it, fails on
    [{"muainaInterpretation": {}}]: the field is present and is not null,
    the run succeeds, and the document has no page 2. *)
Lemma C1_counterexample :
  exists story,
    generate_pdf_story (R := demo_runtime) empty_interpretation_input = Ok (tt, story) /\
    present_non_null (field empty_interpretation_input "muainaInterpretation") = true /\
    has_page2 story = false.
Proof.
  eexists. split; [vm_compute; reflexivity|]. split; vm_compute; reflexivity.
Qed.

(** C1 (amended): whenever the block list is built, it contains the
    heading of the Patient-Friendly Interpretation page if and only if
    [muainaInterpretation] is present and is a non-empty object: the
    script tests the truth value of the field, so an empty object
    suppresses the page as [null] does. *)
Theorem C1_page2_iff_nonempty_interpretation `{R : Runtime}
    (data : pyval) (story : list flowable) :
  generate_pdf_story data = Ok (tt, story) ->
  (has_page2 story = true <->
   nonempty_object (field data "muainaInterpretation") = true).
Proof. intros H. now rewrite (has_page2_spec _ _ H). Qed.

Lemma C1_witness :
  exists story,
    generate_pdf_story (R := demo_runtime) full_input = Ok (tt, story) /\
    (has_page2 story = true <->
     nonempty_object (field full_input "muainaInterpretation") = true).
Proof.
  eexists. split; [vm_compute; reflexivity|].
  apply (C1_page2_iff_nonempty_interpretation (R := demo_runtime)).
  vm_compute. reflexivity.
Defined.

(** C4: whenever the block list is built, it contains the heading of the
    Suggested Doctors page if and only if the [suggestedDoctors] list or
    the [doctorRecommendations] list of the interpretation is non-empty. *)
Theorem C4_page3_iff_doctor_lists `{R : Runtime}
    (data : pyval) (story : list flowable) :
  generate_pdf_story data = Ok (tt, story) ->
  (has_page3 story = true <->
   nonempty_list (interpretation_field data "suggestedDoctors") = true \/
   nonempty_list (interpretation_field data "doctorRecommendations") = true).
Proof. intros H. rewrite (has_page3_spec _ _ H). apply orb_true_iff. Qed.

Lemma C4_witness :
  exists story,
    generate_pdf_story (R := demo_runtime) full_input = Ok (tt, story) /\
    (has_page3 story = true <->
     nonempty_list (interpretation_field full_input "suggestedDoctors") = true \/
     nonempty_list (interpretation_field full_input "doctorRecommendations") = true).
Proof.
  eexists. split; [vm_compute; reflexivity|].
  apply (C4_page3_iff_doctor_lists (R := demo_runtime)).
  vm_compute. reflexivity.
Defined.

(** C10: whenever the block list is built, page 3 comes with page 2, and
    without a [muainaInterpretation] field there is no page 3: the two
    doctor lists are read from the interpretation only. *)
Theorem C10_page3_implies_page2 `{R : Runtime}
    (data : pyval) (story : list flowable) :
  generate_pdf_story data = Ok (tt, story) ->
  (has_page3 story = true -> has_page2 story = true) /\
  (field data "muainaInterpretation" = None -> has_page3 story = false).
Proof.
  intros H. rewrite (has_page3_spec _ _ H), (has_page2_spec _ _ H). split.
  - intros H3. apply orb_true_iff in H3.
    destruct H3 as [H3|H3]; eapply interpretation_field_object; eassumption.
  - intros E. unfold interpretation_field. now rewrite E.
Qed.

Lemma C10_witness :
  exists story,
    generate_pdf_story (R := demo_runtime) full_input = Ok (tt, story) /\
    (has_page3 story = true -> has_page2 story = true) /\
    (field full_input "muainaInterpretation" = None -> has_page3 story = false).
Proof.
  eexists. split; [vm_compute; reflexivity|].
  apply (C10_page3_implies_page2 (R := demo_runtime)).
  vm_compute. reflexivity.
Defined.

(* ===================================================================== *)
(** ** The information table *)
(* ===================================================================== *)

Section InfoTable.
Context {R : Runtime}.

Lemma py_get_field (v : pyval) (k : string) (d x : pyval) :
  py_get v k d = Ok x -> x = get_or (field v k) d.
Proof. intros H. apply py_get_Ok in H. now destruct H as (items & -> & ->). Qed.

Lemma py_upper_Ok (v x : pyval) :
  py_upper v = Ok x -> exists s, v = PStr s /\ x = PStr (str_upper s).
Proof. destruct v; simpl; try discriminate. intros H. injection H as <-. eauto. Qed.

Lemma py_slice_add (v a1 a2 : pyval) (n : nat) (s : pystr) :
  py_slice_to v n = Ok a1 -> py_add_str a1 s = Ok a2 ->
  exists id, v = PStr id /\ a2 = PStr (firstn n id ++ s).
Proof.
  destruct v; simpl; try discriminate; try (destruct hashable_slices; discriminate);
    intros H; injection H as <-; simpl; try discriminate.
  intros H. injection H as <-. eauto.
Qed.

Lemma new_Table_Ok (d : list (list pyval)) (ws : list Z) (t : TableObj) :
  new_Table d ws = Ok t -> t = mkTable d ws [].
Proof.
  unfold new_Table. destruct (Table_init d ws); [discriminate|]. congruence.
Qed.

Lemma report_information_Ok (styles : StyleSheet) (data : pyval) (u : unit)
    (w : list flowable) :
  report_information styles data = Ok (u, w) ->
  exists st id cls,
    get_or (field data "id") (str "N/A") = PStr id /\
    get_or (field data "classification") (str "pending") = PStr cls /\
    w = [ Paragraph (text "Report Information") st;
          Table (mkTable
            [ [str "Report ID:"; PStr (firstn 8 id ++ lit "...")];
              [str "File Name:"; get_or (field data "fileName") (str "Unknown")];
              [str "Uploaded:"; get_or (field data "uploadedAt") (str "N/A")];
              [str "Organization:";
               get_or (field data "organizationName") (str "Unknown")];
              [str "Classification:"; PStr (str_upper cls)];
              [str "Review Status:"; get_or (field data "reviewStatus") (str "pending")] ]
            [120; 350]
            (info_table_style
               (get_classification_color (get_or (field data "classification") (PStr [])))));
          Spacer 1 16 ].
Proof.
  unfold report_information. intros H. run.
  repeat match goal with
         | E : py_get _ _ _ = Ok _ |- _ => apply py_get_field in E; subst
         end.
  match goal with
  | E1 : py_slice_to _ _ = Ok _, E2 : py_add_str _ _ = Ok _ |- _ =>
      destruct (py_slice_add _ _ _ _ _ E1 E2) as (id & Hid & ->)
  end.
  match goal with
  | E : py_upper _ = Ok _ |- _ =>
      apply py_upper_Ok in E; destruct E as (cls & Hcls & ->)
  end.
  match goal with
  | E : new_Table _ _ = Ok _ |- _ => apply new_Table_Ok in E; subst
  end.
  exists st, id, cls. repeat (split; [assumption|]). reflexivity.
Qed.

Lemma analysis_summary_Ok (styles : StyleSheet) (data : pyval) (u : unit)
    (w : list flowable) :
  analysis_summary styles data = Ok (u, w) ->
  exists st1 st2 st3,
    w = [ Paragraph (text "AI Analysis Summary") st1;
          Paragraph (Raw (get_or (field data "summary") (str "No summary available"))) st2;
          Spacer 1 8;
          Paragraph (Raw (get_or (field data "details") (str "No details available"))) st3;
          Spacer 1 16 ].
Proof.
  unfold analysis_summary. intros H. run.
  repeat match goal with
         | E : py_get _ _ _ = Ok _ |- _ => apply py_get_field in E; subst
         end.
  now exists st, st0, st1.
Qed.

(** The information table is the first table of the block list. *)
Lemma story_info_table (data : pyval) (story : list flowable) :
  generate_pdf_story data = Ok (tt, story) ->
  exists id cls,
    get_or (field data "id") (str "N/A") = PStr id /\
    get_or (field data "classification") (str "pending") = PStr cls /\
    first_table story = Some (mkTable
      [ [str "Report ID:"; PStr (firstn 8 id ++ lit "...")];
        [str "File Name:"; get_or (field data "fileName") (str "Unknown")];
        [str "Uploaded:"; get_or (field data "uploadedAt") (str "N/A")];
        [str "Organization:"; get_or (field data "organizationName") (str "Unknown")];
        [str "Classification:"; PStr (str_upper cls)];
        [str "Review Status:"; get_or (field data "reviewStatus") (str "pending")] ]
      [120; 350]
      (info_table_style
         (get_classification_color (get_or (field data "classification") (PStr []))))).
Proof.
  intros H. apply story_Ok in H.
  destruct H as (styles & w1 & i & w2 & _ & H1 & _ & -> & _).
  unfold generate_pdf_page1 in H1. do 2 run_step.
  match goal with H : page_header _ _ _ = Ok _ |- _ =>
    apply page_header_Ok in H; destruct H as (st1 & st2 & _ & _ & ->) end.
  run_step.
  match goal with H : report_information _ _ = Ok _ |- _ =>
    apply report_information_Ok in H; destruct H as (st & id & cls & Hid & Hcls & ->) end.
  exists id, cls. repeat (split; [assumption|]). reflexivity.
Qed.

End InfoTable.

Lemma classification_color_refines (o : option pyval) :
  get_classification_color (get_or o (PStr [])) = classification_color_of o.
Proof. destruct o as [[| | | | | |]|]; reflexivity. Qed.

Lemma classification_color_other (o : option pyval) :
  o <> Some (str "normal") -> o <> Some (str "abnormal") ->
  o <> Some (str "critical") -> classification_color_of o = NEUTRAL_COLOR.
Proof.
  intros Hn Ha Hc. destruct o as [[| | | |s| |]|]; try reflexivity.
  unfold classification_color_of.
  destruct (pystr_eqb s (lit "normal")) eqn:E1;
    [apply pystr_eqb_eq in E1; subst s; now elim Hn|].
  destruct (pystr_eqb s (lit "abnormal")) eqn:E2;
    [apply pystr_eqb_eq in E2; subst s; now elim Ha|].
  destruct (pystr_eqb s (lit "critical")) eqn:E3;
    [apply pystr_eqb_eq in E3; subst s; now elim Hc|].
  reflexivity.
Qed.

(** C5: the Report ID cell of the information table holds the first 8
    characters of the id (of ['N/A'] when the field is absent) followed by
    ["..."]; an id of at most 8 characters is kept whole and still gets
    the suffix. *)
Theorem C5_report_id_cell `{R : Runtime} (data : pyval) (story : list flowable) :
  generate_pdf_story data = Ok (tt, story) ->
  exists t id,
    first_table story = Some t /\
    table_cell t 0 0 = Some (str "Report ID:") /\
    get_or (field data "id") (str "N/A") = PStr id /\
    table_cell t 1 0 = Some (PStr (firstn 8 id ++ lit "...")) /\
    ((List.length id <= 8)%nat ->
     table_cell t 1 0 = Some (PStr (id ++ lit "..."))).
Proof.
  intros H. apply story_info_table in H.
  destruct H as (id & cls & Hid & _ & Ht).
  eexists. exists id. split; [exact Ht|].
  split; [reflexivity|]. split; [assumption|]. split; [reflexivity|].
  intros Hlen. cbn [table_cell table_data nth_error].
  now rewrite firstn_all2.
Qed.

Lemma C5_witness :
  exists story t id,
    generate_pdf_story (R := demo_runtime) full_input = Ok (tt, story) /\
    first_table story = Some t /\
    get_or (field full_input "id") (str "N/A") = PStr id /\
    table_cell t 1 0 = Some (PStr (firstn 8 id ++ lit "...")).
Proof.
  destruct (@C5_report_id_cell demo_runtime full_input
              match generate_pdf_story (R := demo_runtime) full_input with
              | Ok (_, s) => s
              | Err _ => []
              end)
    as (t & id & Ht & _ & Hid & Hc & _).
  - vm_compute. reflexivity.
  - eexists. exists t, id. split; [vm_compute; reflexivity|].
    split; [exact Ht|]. split; assumption.
Defined.

(** C6: the text colour of the Classification cell (column 1, row 4 of
    the information table) is the success colour for ['normal'], the
    warning colour for ['abnormal'], the danger colour for ['critical']
    and the neutral colour for any other value or an absent field. *)
Theorem C6_classification_cell_color `{R : Runtime}
    (data : pyval) (story : list flowable) :
  generate_pdf_story data = Ok (tt, story) ->
  exists t,
    first_table story = Some t /\
    table_cell t 0 4 = Some (str "Classification:") /\
    table_textcolor t 1 4 = Some (classification_color_of (field data "classification")) /\
    (field data "classification" = Some (str "normal") ->
     table_textcolor t 1 4 = Some SUCCESS_COLOR) /\
    (field data "classification" = Some (str "abnormal") ->
     table_textcolor t 1 4 = Some WARNING_COLOR) /\
    (field data "classification" = Some (str "critical") ->
     table_textcolor t 1 4 = Some DANGER_COLOR) /\
    (field data "classification" <> Some (str "normal") ->
     field data "classification" <> Some (str "abnormal") ->
     field data "classification" <> Some (str "critical") ->
     table_textcolor t 1 4 = Some NEUTRAL_COLOR).
Proof.
  intros H. apply story_info_table in H.
  destruct H as (id & cls & _ & _ & Ht).
  eexists. split; [exact Ht|]. split; [reflexivity|].
  match goal with
  | |- table_textcolor ?t 1 4 = _ /\ _ =>
      assert (E : table_textcolor t 1 4 =
                  Some (classification_color_of (field data "classification")))
        by (rewrite <- classification_color_refines; reflexivity)
  end.
  rewrite E. split; [reflexivity|].
  repeat split.
  - intros ->. reflexivity.
  - intros ->. reflexivity.
  - intros ->. reflexivity.
  - intros Hn Ha Hcr. now rewrite classification_color_other.
Qed.

Lemma C6_witness :
  exists story t,
    generate_pdf_story (R := demo_runtime) full_input = Ok (tt, story) /\
    first_table story = Some t /\
    table_textcolor t 1 4 = Some DANGER_COLOR.
Proof.
  destruct (@C6_classification_cell_color demo_runtime full_input
              match generate_pdf_story (R := demo_runtime) full_input with
              | Ok (_, s) => s
              | Err _ => []
              end)
    as (t & Ht & _ & _ & _ & _ & Hc & _).
  - vm_compute. reflexivity.
  - eexists. exists t. split; [vm_compute; reflexivity|].
    split; [exact Ht|]. apply Hc. vm_compute. reflexivity.
Defined.

(* ===================================================================== *)
(** ** The findings *)
(* ===================================================================== *)

Section Findings.
Context {R : Runtime}.

Lemma key_findings_absent (P : flowable -> bool) (data : pyval) :
  empty_or_absent (field data "findings") = true ->
  forall styles, emits P (key_findings styles data).
Proof.
  intros Hf styles u w H. unfold key_findings in H. do 2 run_step.
  match goal with E : py_get _ _ _ = Ok _ |- _ => apply py_get_field in E; subst end.
  destruct (field data "findings") as [[| | | | |[|x l]|]|]; try discriminate;
    simpl in *; run; reflexivity.
Qed.

Lemma story_no_findings (data : pyval) :
  empty_or_absent (field data "findings") = true ->
  emits no_findings_block (generate_pdf_story data).
Proof.
  intros Hf.
  pose proof (key_findings_absent no_findings_block data Hf) as Hk.
  pose proof page2_no_findings as H2.
  pose proof page3_no_findings as H3.
  unfold generate_pdf_story, generate_pdf_page1, page_header, report_information,
    analysis_summary.
  emits_walk.
Qed.

Lemma forallb_no_findings (w : list flowable) :
  forallb no_findings_block w = true ->
  has_key_findings_heading w = false /\ existsb is_finding_title w = false.
Proof.
  unfold has_key_findings_heading.
  induction w as [|f w IH]; simpl; [auto|].
  intros H. apply andb_true_iff in H. destruct H as [Hf Hw].
  destruct (IH Hw) as [-> ->]. unfold no_findings_block in Hf.
  apply andb_true_iff in Hf. destruct Hf as [H1 H2].
  apply negb_true_iff in H1, H2. now rewrite H1, H2.
Qed.

End Findings.

(** C8: when the [findings] field is absent or an empty list, the block
    list has neither the heading "Key Findings" nor the title line of a
    finding. *)
Theorem C8_no_findings_section `{R : Runtime} (data : pyval) (story : list flowable) :
  generate_pdf_story data = Ok (tt, story) ->
  empty_or_absent (field data "findings") = true ->
  has_key_findings_heading story = false /\ existsb is_finding_title story = false.
Proof.
  intros H Hf. apply forallb_no_findings.
  exact (story_no_findings data Hf _ _ H).
Qed.

Lemma C8_witness :
  exists story,
    generate_pdf_story (R := demo_runtime) empty_interpretation_input = Ok (tt, story) /\
    has_key_findings_heading story = false /\ existsb is_finding_title story = false.
Proof.
  eexists. split; [vm_compute; reflexivity|].
  apply (@C8_no_findings_section demo_runtime empty_interpretation_input);
    vm_compute; reflexivity.
Defined.

Lemma contains_refl (b : list flowable) : contains_block b b.
Proof. exists [], []. now rewrite app_nil_r. Qed.

Lemma contains_app_l (b w a : list flowable) :
  contains_block b w -> contains_block b (a ++ w).
Proof.
  intros (pre & post & ->). exists (a ++ pre), post. now rewrite app_assoc.
Qed.

Lemma contains_app_r (b w c : list flowable) :
  contains_block b w -> contains_block b (w ++ c).
Proof.
  intros (pre & post & ->). exists pre, (post ++ c). now rewrite <- !app_assoc.
Qed.

Lemma contains_existsb (P : flowable -> bool) (b w : list flowable) :
  contains_block b w -> existsb P b = true -> existsb P w = true.
Proof.
  intros (pre & post & ->) H. rewrite !existsb_app, H. now rewrite orb_true_r.
Qed.

Create HintDb story.
#[local] Hint Resolve contains_refl contains_app_l contains_app_r : story.

Section FindingBlocks.
Context {R : Runtime}.

Lemma str_upper_ascii (s : pystr) :
  forallb (fun c => (c <? 128)%N) s = true -> str_upper s = map ascii_upper s.
Proof.
  induction s as [|c s IH]; simpl; [reflexivity|].
  intros H. apply andb_true_iff in H. destruct H as [Hc Hs].
  rewrite (IH Hs). unfold upper_char, ascii_upper.
  destruct ((97 <=? c)%N && (c <=? 122)%N); [reflexivity|]. now rewrite Hc.
Qed.

Lemma ascii_recasing_same (s w : pystr) :
  forallb (fun c => (c <? 128)%N) w = true ->
  ascii_recasing s w = true -> same_casing s w = true.
Proof.
  unfold ascii_recasing, same_casing. intros Hw H.
  apply andb_true_iff in H. destruct H as [Hs E].
  now rewrite (str_upper_ascii _ Hs), (str_upper_ascii _ Hw).
Qed.

Lemma severity_color_refines (sev : pystr) :
  severity_color (PStr (str_upper sev)) = severity_color_of sev.
Proof. reflexivity. Qed.

Lemma finding_block_Ok (styles : StyleSheet) (f : pyval) (u : unit) (w : list flowable) :
  finding_block styles f = Ok (u, w) ->
  exists sev parent st,
    get_or (field f "severity") (str "info") = PStr sev /\
    style_name st = "ListItem" /\
    w = [ finding_title (str_upper sev) (get_or (field f "category") (PStr []))
            (with_textColor (severity_color_of sev) (child_style "FindingTitle" parent));
          Paragraph (Raw (get_or (field f "description") (PStr []))) st ].
Proof.
  unfold finding_block. intros H. run.
  repeat match goal with
         | E : py_get _ _ _ = Ok _ |- _ => apply py_get_field in E; subst
         end.
  match goal with
  | E : py_upper _ = Ok _ |- _ =>
      apply py_upper_Ok in E; destruct E as (sev & Hsev & ->)
  end.
  match goal with
  | N : style_name ?s = "ListItem", E : sheet_get _ "CustomBodyText" = Ok ?p |- _ =>
      exists sev, p, s
  end.
  split; [assumption|]. split; [assumption|]. reflexivity.
Qed.

Lemma loop_contains (body : pyval -> M unit) (l : list pyval) (u : unit)
    (w : list flowable) (i : nat) (x : pyval) :
  for_each l body = Ok (u, w) -> nth_error l i = Some x ->
  exists block, body x = Ok (tt, block) /\ contains_block block w.
Proof.
  intros H Hi. apply for_each_Ok in H. destruct H as (ws & Hws & ->).
  destruct (Forall2_nth_split _ _ _ _ _ Hws Hi) as (wx & pre & post & Hx & E).
  exists wx. split; [assumption|]. now exists pre, post.
Qed.

Lemma key_findings_contains (styles : StyleSheet) (data : pyval) (u : unit)
    (w : list flowable) (fs : list pyval) (i : nat) (f : pyval) :
  key_findings styles data = Ok (u, w) ->
  field data "findings" = Some (PList fs) -> nth_error fs i = Some f ->
  exists block, finding_block styles f = Ok (tt, block) /\ contains_block block w.
Proof.
  unfold key_findings. intros H Hf Hi. do 2 run_step.
  match goal with E : py_get _ _ _ = Ok _ |- _ => apply py_get_field in E; subst end.
  rewrite Hf in *. simpl get_or in *.
  destruct fs as [|f0 fs]; [destruct i; discriminate|].
  match goal with
  | Hw : when _ _ = Ok _ |- _ =>
      apply when_Ok in Hw; destruct Hw as [[_ Hw]|[T _]]; [|discriminate T]
  end.
  run.
  match goal with E : py_iter _ = Ok _ |- _ => simpl in E; injection E as <- end.
  match goal with
  | Hl : for_each _ _ = Ok _ |- _ =>
      destruct (loop_contains _ _ _ _ _ _ Hl Hi) as (block & Hb & Hc)
  end.
  exists block. split; [assumption|]. auto 8 with story.
Qed.

Lemma story_contains_finding (data : pyval) (story : list flowable) (fs : list pyval)
    (i : nat) (f : pyval) :
  generate_pdf_story data = Ok (tt, story) ->
  field data "findings" = Some (PList fs) -> nth_error fs i = Some f ->
  exists styles block,
    finding_block styles f = Ok (tt, block) /\ contains_block block story.
Proof.
  intros H Hf Hi. apply story_Ok in H.
  destruct H as (styles & w1 & it & w2 & _ & H1 & _ & -> & _).
  unfold generate_pdf_page1 in H1. do 6 run_step.
  match goal with
  | Hk : key_findings _ _ = Ok _ |- _ =>
      destruct (key_findings_contains _ _ _ _ _ _ _ Hk Hf Hi) as (block & Hb & Hc)
  end.
  exists styles, block. split; [assumption|]. auto 12 with story.
Qed.

End FindingBlocks.

Section SeverityColors.
Context {R : Runtime}.

Lemma severity_color_critical (s : pystr) :
  ascii_recasing s (lit "critical") = true -> severity_color_of s = DANGER_COLOR.
Proof.
  intros H. apply ascii_recasing_same in H; [|reflexivity].
  unfold severity_color_of. now rewrite H.
Qed.

Lemma severity_color_warning (s : pystr) :
  ascii_recasing s (lit "warning") = true -> severity_color_of s = WARNING_COLOR.
Proof.
  intros H. apply ascii_recasing_same in H; [|reflexivity].
  unfold severity_color_of. rewrite H.
  unfold same_casing in *. apply pystr_eqb_eq in H. rewrite H. reflexivity.
Qed.

Lemma severity_color_other (s : pystr) :
  same_casing s (lit "critical") = false -> same_casing s (lit "warning") = false ->
  severity_color_of s = NEUTRAL_COLOR.
Proof. unfold severity_color_of. now intros -> ->. Qed.

End SeverityColors.

(** C7: the title line of every finding of the [findings] list is in the
    block list, reads "[SEVERITY] category" and has the text colour given
    by the severity without regard to case: danger for any casing of
    ['critical'], warning for any casing of ['warning'], neutral for every
    other value, the default ['info'] included. *)
Theorem C7_finding_title_color `{R : Runtime} (data : pyval) (story : list flowable)
    (fs : list pyval) (i : nat) (f : pyval) :
  generate_pdf_story data = Ok (tt, story) ->
  field data "findings" = Some (PList fs) ->
  nth_error fs i = Some f ->
  (exists sev st pre post,
     get_or (field f "severity") (str "info") = PStr sev /\
     story = pre ++ finding_title (str_upper sev)
                      (get_or (field f "category") (PStr [])) st :: post /\
     style_is "FindingTitle" st = true /\
     textColor st = Some (severity_color_of sev)) /\
  (forall s, ascii_recasing s (lit "critical") = true ->
             severity_color_of s = DANGER_COLOR) /\
  (forall s, ascii_recasing s (lit "warning") = true ->
             severity_color_of s = WARNING_COLOR) /\
  (forall s, same_casing s (lit "critical") = false ->
             same_casing s (lit "warning") = false ->
             severity_color_of s = NEUTRAL_COLOR) /\
  severity_color_of (lit "info") = NEUTRAL_COLOR.
Proof.
  intros H Hf Hi. split.
  - destruct (@story_contains_finding R data story fs i f H Hf Hi) as (styles & block & Hb & pre & post & ->).
    apply finding_block_Ok in Hb.
    destruct Hb as (sev & parent & st & Hsev & _ & ->).
    eexists sev, _, pre, _. split; [assumption|]. split; [reflexivity|].
    split; reflexivity.
  - split; [exact severity_color_critical|].
    split; [exact severity_color_warning|].
    split; [exact severity_color_other | reflexivity].
Qed.

Lemma C7_witness :
  exists story st pre post,
    generate_pdf_story (R := demo_runtime) full_input = Ok (tt, story) /\
    story = pre ++ finding_title (lit "CRITICAL") (str "Hemoglobin") st :: post /\
    textColor st = Some DANGER_COLOR.
Proof.
  destruct (@C7_finding_title_color demo_runtime full_input
              match generate_pdf_story (R := demo_runtime) full_input with
              | Ok (_, s) => s
              | Err _ => []
              end
              [ PDict [(lit "severity", str "Critical"); (lit "category", str "Hemoglobin");
                       (lit "description", str "Low")];
                PDict [(lit "category", str "Platelets")] ]
              0%nat
              (PDict [(lit "severity", str "Critical"); (lit "category", str "Hemoglobin");
                      (lit "description", str "Low")]))
    as ((sev & st & pre & post & Hsev & Hs & _ & Hc) & _).
  - vm_compute. reflexivity.
  - vm_compute. reflexivity.
  - reflexivity.
  - vm_compute in Hsev. injection Hsev as <-.
    exists (match generate_pdf_story (R := demo_runtime) full_input with
            | Ok (_, s) => s
            | Err _ => []
            end), st, pre, post.
    split; [vm_compute; reflexivity|]. split; [exact Hs | exact Hc].
Defined.

(* ===================================================================== *)
(** ** The suggested doctors *)
(* ===================================================================== *)

Section Doctors.
Context {R : Runtime}.

Lemma is_fee_line_other (p : pystr) (fs : list frag) (st : ParagraphStyle) :
  pystr_eqb p (lit "Fee: ") = false ->
  is_fee_line (Paragraph (FStr (Lit p :: fs)) st) = false.
Proof. intros H. unfold is_fee_line. now rewrite H. Qed.

Lemma is_fee_line_fee (fs : list frag) (st : ParagraphStyle) :
  style_name st = "ListItem" ->
  is_fee_line (Paragraph (FStr (Lit (lit "Fee: ") :: fs)) st) = true.
Proof.
  intros H. unfold is_fee_line, style_is. rewrite H. reflexivity.
Qed.

Lemma doctor_block_fee (styles : StyleSheet) (d : pyval) (u : unit) (w : list flowable) :
  doctor_block styles d = Ok (u, w) ->
  existsb is_fee_line w = truthy_field (field d "consultationFee").
Proof.
  unfold doctor_block. intros H. do 24 run_step.
  rewrite !existsb_app. cbn [existsb].
  rewrite !is_fee_line_other by reflexivity.
  cbn [is_fee_line orb].
  match goal with
  | E : py_get _ "consultationFee" _ = Ok ?fee |- _ =>
      apply py_get_field in E;
      assert (Hfee : truthy fee = truthy_field (field d "consultationFee"))
        by (subst fee; now destruct (field d "consultationFee"))
  end.
  rewrite <- Hfee.
  run_step.
  match goal with
  | Hw : when _ _ = Ok _ |- _ =>
      apply when_Ok in Hw; destruct Hw as [[T Hw]|[T ->]]
  end.
  - run. rewrite !existsb_app. cbn [existsb].
    rewrite is_fee_line_fee by assumption. now rewrite T.
  - run. rewrite T. reflexivity.
Qed.

Lemma page3_contains_doctor (styles : StyleSheet) (interpretation : pyval) (u : unit)
    (w : list flowable) (ds : list pyval) (i : nat) (d : pyval) :
  generate_pdf_page3 styles interpretation = Ok (u, w) ->
  field interpretation "suggestedDoctors" = Some (PList ds) ->
  nth_error ds i = Some d ->
  exists block, doctor_block styles d = Ok (tt, block) /\ contains_block block w.
Proof.
  unfold generate_pdf_page3. intros H Hf Hi. do 4 run_step.
  repeat match goal with
         | E : py_get _ _ _ = Ok _ |- _ => apply py_get_field in E; subst
         end.
  rewrite Hf in *. cbn [get_or] in *.
  destruct ds as [|d0 ds]; [destruct i; discriminate|].
  match goal with
  | Hw : when _ _ = Ok _ |- _ =>
      apply when_Ok in Hw; destruct Hw as [[_ Hw]|[T _]]; [|discriminate T]
  end.
  run.
  match goal with
  | Hw : when (truthy (PList _)) _ = Ok _ |- _ =>
      apply when_Ok in Hw; destruct Hw as [[_ Hw]|[T _]]; [|discriminate T]
  end.
  run.
  match goal with E : py_iter _ = Ok _ |- _ => simpl in E; injection E as <- end.
  match goal with
  | Hl : for_each _ (doctor_block _) = Ok _ |- _ =>
      destruct (loop_contains _ _ _ _ _ _ Hl Hi) as (block & Hb & Hc)
  end.
  exists block. split; [assumption|]. auto 12 with story.
Qed.

Lemma story_contains_doctor (data : pyval) (story : list flowable) (ds : list pyval)
    (i : nat) (d : pyval) :
  generate_pdf_story data = Ok (tt, story) ->
  interpretation_field data "suggestedDoctors" = Some (PList ds) ->
  nth_error ds i = Some d ->
  exists styles block,
    doctor_block styles d = Ok (tt, block) /\ contains_block block story.
Proof.
  intros H Hf Hi. apply story_Ok in H.
  destruct H as (styles & w1 & it & w2 & _ & _ & Hit & -> & H2).
  apply py_get_field in Hit. unfold interpretation_field in Hf.
  destruct (field data "muainaInterpretation") as [v|]; [|discriminate].
  cbn [get_or] in Hit. subst v.
  destruct H2 as [(T & wp2 & wp3 & _ & H3 & ->)|(T & _)].
  - destruct (page3_contains_doctor _ _ _ _ _ _ _ H3 Hf Hi) as (block & Hb & Hc).
    exists styles, block. split; [assumption|]. auto 6 with story.
  - rewrite (falsy_no_field _ _ T) in Hf. discriminate.
Qed.

End Doctors.

(** C9, as the specification states it, fails on a doctor whose
    [consultationFee] is [0]: the fee is present and is not null, the
    doctor's block is in the document, and it has no "Fee:" line. *)
Lemma C9_counterexample :
  exists story styles block,
    generate_pdf_story (R := demo_runtime) full_input = Ok (tt, story) /\
    interpretation_field full_input "suggestedDoctors"
      = Some (PList [free_doctor; paid_doctor]) /\
    doctor_block (R := demo_runtime) styles free_doctor = Ok (tt, block) /\
    contains_block block story /\
    field free_doctor "consultationFee" = Some (PInt 0) /\
    present_non_null (field free_doctor "consultationFee") = true /\
    existsb is_fee_line block = false.
Proof.
  assert (H : exists story,
             generate_pdf_story (R := demo_runtime) full_input = Ok (tt, story))
    by (eexists; vm_compute; reflexivity).
  destruct H as (story & H).
  assert (Hf : interpretation_field full_input "suggestedDoctors"
               = Some (PList [free_doctor; paid_doctor])) by reflexivity.
  destruct (@story_contains_doctor demo_runtime full_input story _ 0%nat free_doctor
              H Hf eq_refl) as (styles & block & Hb & Hc).
  exists story, styles, block.
  repeat (split; [first [assumption | reflexivity]|]).
  now rewrite (doctor_block_fee _ _ _ _ Hb).
Qed.

(** C9 (amended): for every doctor of the [suggestedDoctors] list, the
    doctor's block is in the block list and has a "Fee:" line if and only
    if the doctor's [consultationFee] is present and true as a Python
    value; an absent fee gives no line, and neither does [null], [0], or an
    empty string. *)
Theorem C9_fee_line_iff_truthy_fee `{R : Runtime} (data : pyval)
    (story : list flowable) (ds : list pyval) (i : nat) (d : pyval) :
  generate_pdf_story data = Ok (tt, story) ->
  interpretation_field data "suggestedDoctors" = Some (PList ds) ->
  nth_error ds i = Some d ->
  exists styles block,
    doctor_block styles d = Ok (tt, block) /\
    contains_block block story /\
    (existsb is_fee_line block = true <->
     truthy_field (field d "consultationFee") = true) /\
    (field d "consultationFee" = None -> existsb is_fee_line block = false).
Proof.
  intros H Hf Hi.
  destruct (@story_contains_doctor R data story ds i d H Hf Hi)
    as (styles & block & Hb & Hc).
  exists styles, block. split; [assumption|]. split; [assumption|].
  rewrite (doctor_block_fee _ _ _ _ Hb). split; [reflexivity|].
  now intros ->.
Qed.

Lemma C9_witness :
  exists story styles block,
    generate_pdf_story (R := demo_runtime) full_input = Ok (tt, story) /\
    doctor_block (R := demo_runtime) styles paid_doctor = Ok (tt, block) /\
    contains_block block story /\
    existsb is_fee_line block = true.
Proof.
  destruct (@C9_fee_line_iff_truthy_fee demo_runtime full_input
              match generate_pdf_story (R := demo_runtime) full_input with
              | Ok (_, s) => s
              | Err _ => []
              end
              [free_doctor; paid_doctor] 1%nat paid_doctor)
    as (styles & block & Hb & Hc & Hfee & _).
  - vm_compute. reflexivity.
  - reflexivity.
  - reflexivity.
  - eexists. exists styles, block. split; [vm_compute; reflexivity|].
    split; [exact Hb|]. split; [exact Hc|]. apply Hfee. reflexivity.
Defined.
(* ===================================================================== *)
(** ** The process *)
(* ===================================================================== *)

Lemma count_newline_prefix :
  count_occ N.eq_dec (lit "Error generating PDF: ") NEWLINE = 0%nat.
Proof. reflexivity. Qed.

Lemma count_newline_error_line `{R : Runtime} (e : exn) :
  count_occ N.eq_dec (error_line e) NEWLINE
    = S (count_occ N.eq_dec (str_exn e) NEWLINE).
Proof.
  unfold error_line. rewrite !count_occ_app, count_newline_prefix.
  cbn [count_occ Nat.add]. destruct (N.eq_dec NEWLINE NEWLINE); [lia | congruence].
Qed.




(* ===================================================================== *)
(** ** Inputs of the documented shape never fail in the script itself *)
(* ===================================================================== *)

Lemma create_styles_Ok : create_styles = Ok the_styles.
Proof. reflexivity. Qed.

Lemma opt_str_get (o : option pyval) (d : pystr) :
  opt_str o = true -> exists s, get_or o (PStr d) = PStr s.
Proof.
  destruct o as [[| | | |s| |]|]; simpl; try discriminate; eauto.
Qed.

Lemma opt_list_get (p : pyval -> bool) (o : option pyval) :
  opt_list p o = true ->
  exists l, get_or o (PList []) = PList l /\ forallb p l = true.
Proof.
  destruct o as [[| | | | |l|]|]; simpl; try discriminate; eauto.
Qed.

Lemma opt_object_get (p : pyval -> bool) (o : option pyval) :
  opt_object p o = true ->
  is_object (get_or o (PDict [])) = true /\
  (truthy (get_or o (PDict [])) = true -> p (get_or o (PDict [])) = true).
Proof.
  destruct o as [v|]; simpl; [|split; [reflexivity | discriminate]].
  intros H. apply andb_true_iff in H. tauto.
Qed.

Ltac split_andb :=
  repeat match goal with
         | H : _ && _ = true |- _ => apply andb_true_iff in H; destruct H
         end.

Section Safety.
Context {R : Runtime}.

Lemma layout_only_bind {A B} (m : M A) (f : A -> M B) :
  layout_only m -> (forall a w, m = Ok (a, w) -> layout_only (f a)) ->
  layout_only (bind m f).
Proof.
  intros Hm Hf e H. apply bind_Err in H.
  destruct H as [H|(a & w & H1 & H2)]; [now apply Hm | exact (Hf a w H1 e H2)].
Qed.

Lemma layout_only_bind_lift {A B} (r : result A) (a : A) (f : A -> M B) :
  r = Ok a -> layout_only (f a) -> layout_only (bind (lift r) f).
Proof.
  intros -> Hf. apply layout_only_bind; [discriminate|].
  intros a' w H. apply lift_Ok in H. destruct H as [H _]. now injection H as <-.
Qed.

Lemma layout_only_get {B} (v : pyval) (k : string) (d : pyval) (f : pyval -> M B) :
  is_object v = true -> layout_only (f (get_or (field v k) d)) ->
  layout_only (bind (lift (py_get v k d)) f).
Proof.
  intros Hv Hf. destruct v; try discriminate.
  now apply layout_only_bind_lift with (a := get_or (field (PDict items) k) d).
Qed.

Lemma layout_only_ret {A} (a : A) : layout_only (ret a).
Proof. discriminate. Qed.

Lemma layout_only_append (f : flowable) : layout_only (append f).
Proof. discriminate. Qed.

Lemma layout_only_when (b : bool) (m : M unit) :
  (b = true -> layout_only m) -> layout_only (when b m).
Proof. destruct b; simpl; [auto | intros _; apply layout_only_ret]. Qed.

Lemma layout_only_for_each (p : pyval -> bool) (body : pyval -> M unit) (l : list pyval) :
  forallb p l = true -> (forall x, p x = true -> layout_only (body x)) ->
  layout_only (for_each l body).
Proof.
  intros Hl Hb. induction l as [|x l IH]; simpl.
  - apply layout_only_ret.
  - simpl in Hl. apply andb_true_iff in Hl. destruct Hl as [Hx Hl].
    apply layout_only_bind; auto.
Qed.

Lemma layout_only_new_Paragraph (t : ptext) (s : ParagraphStyle) :
  layout_only (lift (new_Paragraph t s)).
Proof.
  intros e. unfold new_Paragraph.
  destruct (Paragraph_init t s) as [msg|] eqn:E; simpl; [|discriminate].
  intros H. injection H as <-. exists msg. split; [reflexivity|]. left. eauto.
Qed.

Lemma layout_only_new_Table (d : list (list pyval)) (ws : list Z) :
  layout_only (lift (new_Table d ws)).
Proof.
  intros e. unfold new_Table.
  destruct (Table_init d ws) as [msg|] eqn:E; simpl; [|discriminate].
  intros H. injection H as <-. exists msg. split; [reflexivity|]. right. eauto.
Qed.

Lemma sheet_get_the_styles (n : string) :
  match sheet_find n the_styles with Some _ => true | None => false end = true ->
  sheet_get the_styles n = Ok (style_of n).
Proof.
  unfold sheet_get, style_of. now destruct (sheet_find n the_styles).
Qed.

Lemma layout_only_append_para (t : ptext) (n : string) :
  match sheet_find n the_styles with Some _ => true | None => false end = true ->
  layout_only (append_para the_styles t n).
Proof.
  intros H. unfold append_para.
  apply layout_only_bind_lift with (a := style_of n);
    [now apply sheet_get_the_styles|].
  apply layout_only_bind; [apply layout_only_new_Paragraph|].
  intros a w _. apply layout_only_append.
Qed.

Lemma layout_only_append_para_styled (t : ptext) (n parent : string)
    (kw : ParagraphStyle -> ParagraphStyle) :
  match sheet_find parent the_styles with Some _ => true | None => false end = true ->
  layout_only (append_para_styled the_styles t n parent kw).
Proof.
  intros H. unfold append_para_styled.
  apply layout_only_bind_lift with (a := style_of parent);
    [now apply sheet_get_the_styles|].
  apply layout_only_bind; [apply layout_only_new_Paragraph|].
  intros a w _. apply layout_only_append.
Qed.

End Safety.

Ltac rewrite_gets :=
  repeat match goal with
         | E : get_or ?o ?d = _ |- context [get_or ?o ?d] => rewrite E
         end.

Ltac lo_step :=
  first
    [ solve [auto 2]
    | apply layout_only_append_para; reflexivity
    | apply layout_only_append_para_styled; reflexivity
    | apply layout_only_append
    | apply layout_only_ret
    | apply layout_only_new_Table
    | apply layout_only_new_Paragraph
    | apply layout_only_get; [assumption | cbv beta; rewrite_gets]
    | apply layout_only_bind_lift with (1 := eq_refl); cbv beta
    | apply layout_only_when; intro
    | apply layout_only_bind; [| intros ? ? _] ].

Ltac lo_walk := cbv zeta; repeat lo_step.

Section SafeBlocks.
Context {R : Runtime}.

Lemma report_information_safe (data : pyval) :
  is_object data = true ->
  opt_str (field data "id") = true ->
  opt_str (field data "classification") = true ->
  layout_only (report_information the_styles data).
Proof.
  intros Hd Hid Hcls.
  destruct (opt_str_get (field data "id") (lit "N/A") Hid) as (id & Eid).
  destruct (opt_str_get (field data "classification") (lit "pending") Hcls)
    as (cls & Ecls).
  unfold report_information. lo_walk.
Qed.

Lemma analysis_summary_safe (data : pyval) :
  is_object data = true -> layout_only (analysis_summary the_styles data).
Proof. intros Hd. unfold analysis_summary. lo_walk. Qed.

Lemma finding_block_safe (f : pyval) :
  finding_ok f = true -> layout_only (finding_block the_styles f).
Proof.
  unfold finding_ok, all_opt_str. cbn [forallb]. intros H. split_andb.
  match goal with
  | H : opt_str (field f "severity") = true |- _ =>
      destruct (opt_str_get _ (lit "info") H) as (sev & Esev)
  end.
  unfold finding_block. lo_walk.
Qed.

Lemma key_findings_safe (data : pyval) :
  is_object data = true ->
  opt_list finding_ok (field data "findings") = true ->
  layout_only (key_findings the_styles data).
Proof.
  intros Hd Hf. destruct (opt_list_get _ _ Hf) as (l & El & Hl).
  unfold key_findings. lo_walk.
  eapply layout_only_for_each; [exact Hl|]. exact finding_block_safe.
Qed.

Lemma page_header_safe (t : ptext) (n : string) :
  match sheet_find n the_styles with Some _ => true | None => false end = true ->
  layout_only (page_header the_styles t n).
Proof.
  intros H. unfold page_header.
  apply layout_only_bind; [apply layout_only_append_para; reflexivity|].
  intros ? ? _.
  apply layout_only_bind; [now apply layout_only_append_para|].
  intros ? ? _. lo_walk.
Qed.

Lemma page1_safe (data : pyval) :
  is_object data = true ->
  opt_str (field data "id") = true ->
  opt_str (field data "classification") = true ->
  opt_list finding_ok (field data "findings") = true ->
  layout_only (generate_pdf_page1 the_styles data).
Proof.
  intros Hd Hid Hcls Hf.
  pose proof (report_information_safe data Hd Hid Hcls).
  pose proof (analysis_summary_safe data Hd).
  pose proof (key_findings_safe data Hd Hf).
  pose proof (page_header_safe (text "AI-Powered Pathology Report Analysis")
                "Subtitle" eq_refl).
  unfold generate_pdf_page1. lo_walk.
Qed.

Lemma item_lines_safe (glyph : N) (n : string) (l : list pyval) :
  match sheet_find n the_styles with Some _ => true | None => false end = true ->
  layout_only (item_lines the_styles glyph n l).
Proof.
  intros H. unfold item_lines. induction l as [|x l IH]; simpl.
  - apply layout_only_ret.
  - apply layout_only_bind; [now apply layout_only_append_para | auto].
Qed.

Lemma item_section_safe (i : pyval) (key title : string) (glyph : N) (n : string) :
  is_object i = true ->
  opt_list is_str (field i key) = true ->
  match sheet_find n the_styles with Some _ => true | None => false end = true ->
  layout_only (item_section the_styles i key title glyph n).
Proof.
  intros Hi Hl Hn. destruct (opt_list_get _ _ Hl) as (l & El & _).
  pose proof (item_lines_safe glyph n) as Hs.
  unfold item_section. lo_walk.
Qed.

Lemma medical_condition_safe (i : pyval) :
  is_object i = true ->
  opt_object condition_ok (field i "medicalCondition") = true ->
  layout_only (medical_condition the_styles i).
Proof.
  intros Hi Hc. apply opt_object_get in Hc. destruct Hc as [Hc Hp].
  remember (get_or (field i "medicalCondition") (PDict [])) as c eqn:E.
  symmetry in E.
  unfold medical_condition.
  apply layout_only_get; [assumption|]. rewrite_gets.
  apply layout_only_when; intro T. specialize (Hp T).
  unfold condition_ok, all_opt_str in Hp. cbn [forallb] in Hp. split_andb.
  match goal with
  | H : opt_str (field c "severity") = true |- _ =>
      destruct (opt_str_get _ (lit "moderate") H) as (sev & Esev)
  end.
  lo_walk.
Qed.

Lemma consultation_info_safe (i : pyval) :
  is_object i = true ->
  opt_object consultation_ok (field i "consultation") = true ->
  layout_only (consultation_info the_styles i).
Proof.
  intros Hi Hc. apply opt_object_get in Hc. destruct Hc as [Hc Hp].
  remember (get_or (field i "consultation") (PDict [])) as c eqn:E.
  symmetry in E.
  unfold consultation_info.
  apply layout_only_get; [assumption|]. rewrite_gets.
  apply layout_only_when; intro T. specialize (Hp T).
  unfold consultation_ok, all_opt_str in Hp. cbn [forallb] in Hp. split_andb.
  match goal with
  | H : opt_str (field c "urgency") = true |- _ =>
      destruct (opt_str_get _ (lit "routine") H) as (urg & Eurg)
  end.
  lo_walk.
Qed.

Lemma dos_and_donts_safe (i : pyval) :
  is_object i = true ->
  opt_list is_str (field i "dos") = true ->
  opt_list is_str (field i "donts") = true ->
  layout_only (dos_and_donts the_styles i).
Proof.
  intros Hi H1 H2.
  destruct (opt_list_get _ _ H1) as (l1 & E1 & _).
  destruct (opt_list_get _ _ H2) as (l2 & E2 & _).
  pose proof (item_lines_safe CHECK_MARK "SuccessText") as Hs1.
  pose proof (item_lines_safe BALLOT_X "DangerText") as Hs2.
  unfold dos_and_donts. lo_walk.
Qed.

Lemma doctor_block_safe (d : pyval) :
  doctor_ok d = true -> layout_only (doctor_block the_styles d).
Proof.
  unfold doctor_ok. intros H. split_andb.
  unfold doctor_block. lo_walk.
Qed.

Lemma recommendation_block_safe (r : pyval) :
  recommendation_ok r = true -> layout_only (recommendation_block the_styles r).
Proof.
  unfold recommendation_ok, all_opt_str. cbn [forallb]. intros H. split_andb.
  match goal with
  | H : opt_str (field r "urgency") = true |- _ =>
      destruct (opt_str_get _ (lit "routine") H) as (urg & Eurg)
  end.
  unfold recommendation_block. lo_walk.
Qed.

Lemma page3_safe (i : pyval) :
  is_object i = true ->
  opt_list doctor_ok (field i "suggestedDoctors") = true ->
  opt_list recommendation_ok (field i "doctorRecommendations") = true ->
  layout_only (generate_pdf_page3 the_styles i).
Proof.
  intros Hi H1 H2.
  destruct (opt_list_get _ _ H1) as (l1 & E1 & Hl1).
  destruct (opt_list_get _ _ H2) as (l2 & E2 & Hl2).
  pose proof (layout_only_for_each _ _ _ Hl1 doctor_block_safe) as Hd.
  pose proof (layout_only_for_each _ _ _ Hl2 recommendation_block_safe) as Hr.
  pose proof (page_header_safe (text "Recommended Healthcare Providers")
                "SectionTitle" eq_refl).
  unfold generate_pdf_page3. lo_walk.
Qed.

Lemma page2_safe (i : pyval) :
  is_object i = true -> interpretation_ok i = true ->
  layout_only (generate_pdf_page2 the_styles i).
Proof.
  unfold interpretation_ok. intros Hi H. split_andb.
  pose proof (page_header_safe (text "Patient-Friendly Interpretation")
                "SectionTitle" eq_refl).
  pose proof (medical_condition_safe i Hi).
  pose proof (consultation_info_safe i Hi).
  pose proof (dos_and_donts_safe i Hi).
  pose proof (fun key title glyph n => item_section_safe i key title glyph n Hi) as Hs.
  unfold generate_pdf_page2. lo_walk.
Qed.

Lemma story_safe (data : pyval) :
  well_typed data = true -> layout_only (generate_pdf_story data).
Proof.
  unfold well_typed, all_opt_str. cbn [forallb]. intros H.
  apply andb_true_iff in H. destruct H as [H Hint]. split_andb.
  unfold generate_pdf_story.
  apply layout_only_bind_lift with (1 := create_styles_Ok).
  apply layout_only_bind; [now apply page1_safe|]. intros ? ? _.
  apply layout_only_get; [assumption|].
  apply layout_only_when; intro T.
  assert (Hi : is_object (get_or (field data "muainaInterpretation") PNone) = true /\
               interpretation_ok (get_or (field data "muainaInterpretation") PNone) = true).
  { destruct (field data "muainaInterpretation") as [v|]; [|discriminate T].
    cbn [get_or] in *. destruct v; try discriminate.
    simpl in Hint. split; [reflexivity | exact Hint]. }
  destruct Hi as [Hi Hok].
  apply layout_only_bind; [now apply page2_safe|]. intros ? ? _.
  unfold interpretation_ok in Hok. split_andb. now apply page3_safe.
Qed.

End SafeBlocks.

(* ===================================================================== *)
(** ** The minimal input *)
(* ===================================================================== *)

Section Minimal.
Context {R : Runtime}.

Lemma sheet_get_style_of (n : string) (st : ParagraphStyle) :
  sheet_get the_styles n = Ok st -> st = style_of n.
Proof.
  unfold sheet_get, style_of. destruct (sheet_find n the_styles); congruence.
Qed.

Lemma minimal_story_unique (story : list flowable) :
  generate_pdf_story (PDict []) = Ok (tt, story) -> story = minimal_story.
Proof.
  unfold generate_pdf_story, generate_pdf_page1, page_header, report_information,
    analysis_summary, key_findings.
  intros H. run.
  match goal with
  | E : create_styles = Ok ?s |- _ =>
      rewrite create_styles_Ok in E; injection E as <-
  end.
  repeat match goal with
         | E : sheet_get the_styles _ = Ok ?st |- _ =>
             apply sheet_get_style_of in E; subst st
         end.
  repeat match goal with
         | E : py_get (PDict []) _ _ = Ok ?a |- _ =>
             simpl in E; injection E as <-
         end.
  repeat match goal with
         | Hw : when _ _ = Ok _ |- _ =>
             apply when_Ok in Hw; destruct Hw as [[T _]|[_ ->]]; [discriminate T|]
         end.
  repeat match goal with
         | E : _ = Ok _ |- _ => simpl in E; injection E as <-
         end.
  match goal with
  | E : new_Table _ _ = Ok _ |- _ => apply new_Table_Ok in E; subst
  end.
  reflexivity.
Qed.

Lemma accepted_paragraph (t : ptext) (s : ParagraphStyle) :
  block_accepted (Paragraph t s) = true -> new_Paragraph t s = Ok (Paragraph t s).
Proof.
  unfold block_accepted, new_Paragraph.
  destruct (Paragraph_init t s); [discriminate | reflexivity].
Qed.

Lemma accepted_append_para (t : ptext) (n : string) :
  match sheet_find n the_styles with Some _ => true | None => false end = true ->
  block_accepted (Paragraph t (style_of n)) = true ->
  append_para the_styles t n = Ok (tt, [Paragraph t (style_of n)]).
Proof.
  intros Hn Ha. unfold append_para.
  rewrite (sheet_get_the_styles n Hn). cbn [lift bind].
  rewrite (accepted_paragraph _ _ Ha). reflexivity.
Qed.

Lemma minimal_story_built :
  forallb block_accepted minimal_story = true ->
  generate_pdf_story (PDict []) = Ok (tt, minimal_story).
Proof.
  unfold minimal_story. cbn [forallb]. intros H. split_andb.
  unfold generate_pdf_story. rewrite create_styles_Ok. cbn [lift bind].
  unfold generate_pdf_page1, page_header, report_information, analysis_summary,
    key_findings.
  match goal with
  | Ht : block_accepted (Table _) = true |- _ =>
      unfold block_accepted in Ht; cbn [table_data table_colWidths] in Ht;
      match type of Ht with
      | match ?x with _ => _ end = true =>
          assert (Ht' : x = None) by (destruct x; [discriminate | reflexivity])
      end
  end.
  repeat (rewrite accepted_append_para by (first [reflexivity | assumption]);
          cbn [lift bind append ret when py_get dict_lookup truthy
               py_slice_to py_add_str py_upper]).
  unfold new_Table.
  match goal with
  | |- context [Table_init ?d ?w] =>
      replace (Table_init d w) with (@None pystr) by (symmetry; exact Ht')
  end.
  cbn [lift bind append ret when].
  repeat (rewrite accepted_append_para by (first [reflexivity | assumption]);
          cbn [lift bind append ret when py_get dict_lookup truthy]).
  reflexivity.
Qed.

End Minimal.

(* ===================================================================== *)
(** ** Absent fields and their defaults *)
(* ===================================================================== *)

Lemma lit_inj (s t : string) : lit s = lit t -> s = t.
Proof.
  unfold lit. intros H.
  rewrite <- (string_of_list_ascii_of_string s), <- (string_of_list_ascii_of_string t).
  f_equal. revert H.
  generalize (list_ascii_of_string s) (list_ascii_of_string t).
  induction l as [|a l IH]; intros [|b l']; simpl; try discriminate; [reflexivity|].
  intros H. injection H as Hab Hl. f_equal; [|now apply IH].
  rewrite <- (ascii_N_embedding a), <- (ascii_N_embedding b). now rewrite Hab.
Qed.

Lemma py_get_set_other (items : list (pystr * pyval)) (k : string) (x : pyval)
    (k' : string) (d' : pyval) :
  k' <> k ->
  py_get (set_field (PDict items) k x) k' d' = py_get (PDict items) k' d'.
Proof.
  intros Hk. simpl. destruct (pystr_eqb (lit k') (lit k)) eqn:E; [|reflexivity].
  apply pystr_eqb_eq, lit_inj in E. contradiction.
Qed.

Lemma py_get_set_same (items : list (pystr * pyval)) (k : string) (x d' : pyval) :
  py_get (set_field (PDict items) k x) k d' = Ok x.
Proof. simpl. now rewrite pystr_eqb_refl. Qed.

Lemma py_get_absent (items : list (pystr * pyval)) (k : string) (d : pyval) :
  field (PDict items) k = None -> py_get (PDict items) k d = Ok d.
Proof. simpl. now intros ->. Qed.

Lemma py_get_present (items : list (pystr * pyval)) (k : string) (d x : pyval) :
  field (PDict items) k = Some x -> py_get (PDict items) k d = Ok x.
Proof. simpl. now intros ->. Qed.

Lemma bind_lift_Ok {A B} (a : A) (f : A -> M B) : bind (lift (Ok a)) f = f a.
Proof. cbn [lift bind]. destruct (f a) as [[b w]|e]; reflexivity. Qed.

(** Every read of the object that got the field [k] is a read of the
    object as it was, or gives the value of [k]. *)
Ltac reads_of_set_field :=
  repeat match goal with
         | |- context [py_get (set_field (PDict ?items) ?k ?x) ?k' ?d'] =>
             first [ rewrite (py_get_set_other items k x k' d') by discriminate
                   | rewrite (py_get_set_same items k x d') ]
         end.

(** A read of an absent key gives the default of the read. *)
Ltac reads_of_absent :=
  match goal with
  | H : field (PDict ?items) ?k = None |- _ =>
      repeat match goal with
             | |- context [py_get (PDict items) k ?d'] =>
                 rewrite (py_get_absent items k d' H)
             end
  end.

Ltac each_default H :=
  simpl in H;
  repeat (destruct H as [H|H]; [injection H as <- <-|]);
  try contradiction.

Ltac default_read := reads_of_set_field; reads_of_absent; reflexivity.

Section Defaults.
Context {R : Runtime}.

Lemma story_record_default (items : list (pystr * pyval)) (k : string) (d : pyval) :
  In (k, d) record_defaults -> field (PDict items) k = None ->
  generate_pdf_story (set_field (PDict items) k d) = generate_pdf_story (PDict items).
Proof.
  intros Hin Hk.
  unfold generate_pdf_story, generate_pdf_page1, report_information, analysis_summary,
    key_findings.
  each_default Hin; default_read.
Qed.

Lemma page2_default (styles : StyleSheet) (items : list (pystr * pyval))
    (k : string) (d : pyval) :
  In (k, d) interpretation_defaults -> field (PDict items) k = None ->
  generate_pdf_page2 styles (set_field (PDict items) k d)
    = generate_pdf_page2 styles (PDict items).
Proof.
  intros Hin Hk.
  unfold generate_pdf_page2, medical_condition, item_section, consultation_info,
    dos_and_donts.
  each_default Hin; default_read.
Qed.

Lemma page3_default (styles : StyleSheet) (items : list (pystr * pyval))
    (k : string) (d : pyval) :
  In (k, d) interpretation_defaults -> field (PDict items) k = None ->
  generate_pdf_page3 styles (set_field (PDict items) k d)
    = generate_pdf_page3 styles (PDict items).
Proof.
  intros Hin Hk. unfold generate_pdf_page3.
  each_default Hin; default_read.
Qed.

Lemma story_interpretation_default (data i : pyval) (k : string) (d : pyval) :
  field data "muainaInterpretation" = Some i -> truthy i = true ->
  In (k, d) interpretation_defaults -> field i k = None ->
  generate_pdf_story (set_field data "muainaInterpretation" (set_field i k d))
    = generate_pdf_story data.
Proof.
  intros Hi Ti Hin Hk. destruct data as [| | | | | |items]; try discriminate Hi.
  unfold generate_pdf_story, generate_pdf_page1, report_information, analysis_summary,
    key_findings.
  rewrite create_styles_Ok, !bind_lift_Ok. cbv beta.
  reads_of_set_field. rewrite (py_get_present items _ PNone i Hi).
  rewrite !bind_lift_Ok. cbv beta.
  destruct i as [| | | | | |iitems]; try reflexivity.
  rewrite (page2_default _ _ _ _ Hin Hk), (page3_default _ _ _ _ Hin Hk).
  rewrite Ti. reflexivity.
Qed.

Lemma finding_block_default (styles : StyleSheet) (o : pyval) (k : string) (d : pyval) :
  In (k, d) finding_defaults -> field o k = None ->
  finding_block styles (set_field o k d) = finding_block styles o.
Proof.
  intros Hin Hk. destruct o as [| | | | | |items]; try reflexivity.
  unfold finding_block. each_default Hin; default_read.
Qed.

Lemma doctor_block_default (styles : StyleSheet) (o : pyval) (k : string) (d : pyval) :
  In (k, d) doctor_defaults -> field o k = None ->
  doctor_block styles (set_field o k d) = doctor_block styles o.
Proof.
  intros Hin Hk. destruct o as [| | | | | |items]; try reflexivity.
  unfold doctor_block. each_default Hin; default_read.
Qed.

Lemma recommendation_block_default (styles : StyleSheet) (o : pyval) (k : string)
    (d : pyval) :
  In (k, d) recommendation_defaults -> field o k = None ->
  recommendation_block styles (set_field o k d) = recommendation_block styles o.
Proof.
  intros Hin Hk. destruct o as [| | | | | |items]; try reflexivity.
  unfold recommendation_block. each_default Hin; default_read.
Qed.

Lemma medical_condition_default (styles : StyleSheet) (i c : pyval) (k : string)
    (d : pyval) :
  field i "medicalCondition" = Some c -> truthy c = true ->
  In (k, d) condition_defaults -> field c k = None ->
  medical_condition styles (set_field i "medicalCondition" (set_field c k d))
    = medical_condition styles i.
Proof.
  intros Hc Tc Hin Hk. destruct i as [| | | | | |items]; try discriminate Hc.
  unfold medical_condition.
  rewrite py_get_set_same, (py_get_present items _ (PDict []) c Hc), !bind_lift_Ok.
  destruct c as [| | | | | |citems]; try reflexivity.
  rewrite Tc. change (truthy (set_field (PDict citems) k d)) with true.
  cbn [when]. each_default Hin; default_read.
Qed.

Lemma consultation_info_default (styles : StyleSheet) (i c : pyval) (k : string)
    (d : pyval) :
  field i "consultation" = Some c -> truthy c = true ->
  In (k, d) consultation_defaults -> field c k = None ->
  consultation_info styles (set_field i "consultation" (set_field c k d))
    = consultation_info styles i.
Proof.
  intros Hc Tc Hin Hk. destruct i as [| | | | | |items]; try discriminate Hc.
  unfold consultation_info.
  rewrite py_get_set_same, (py_get_present items _ (PDict []) c Hc), !bind_lift_Ok.
  destruct c as [| | | | | |citems]; try reflexivity.
  rewrite Tc. change (truthy (set_field (PDict citems) k d)) with true.
  cbn [when]. each_default Hin; default_read.
Qed.

(** An empty interpretation, medical condition or consultation is read
    as an absent one. *)
Lemma story_empty_interpretation (data i : pyval) :
  field data "muainaInterpretation" = Some i -> truthy i = false ->
  generate_pdf_story data
    = generate_pdf_story (set_field data "muainaInterpretation" PNone).
Proof.
  intros Hi Ti. destruct data as [| | | | | |items]; try discriminate Hi.
  unfold generate_pdf_story, generate_pdf_page1, report_information, analysis_summary,
    key_findings.
  rewrite create_styles_Ok, !bind_lift_Ok. cbv beta.
  reads_of_set_field. rewrite (py_get_present items _ PNone i Hi).
  rewrite !bind_lift_Ok. cbv beta. rewrite Ti. reflexivity.
Qed.

Lemma medical_condition_empty (styles : StyleSheet) (i c : pyval) :
  field i "medicalCondition" = Some c -> truthy c = false ->
  medical_condition styles i = ret tt.
Proof.
  intros Hc Tc. destruct i as [| | | | | |items]; try discriminate Hc.
  unfold medical_condition.
  rewrite (py_get_present items _ (PDict []) c Hc), bind_lift_Ok, Tc. reflexivity.
Qed.

Lemma consultation_info_empty (styles : StyleSheet) (i c : pyval) :
  field i "consultation" = Some c -> truthy c = false ->
  consultation_info styles i = ret tt.
Proof.
  intros Hc Tc. destruct i as [| | | | | |items]; try discriminate Hc.
  unfold consultation_info.
  rewrite (py_get_present items _ (PDict []) c Hc), bind_lift_Ok, Tc. reflexivity.
Qed.

End Defaults.



(* ===================================================================== *)
(** ** Further properties of [main] and [get_classification_color] *)
(* ===================================================================== *)



(** X2: [get_classification_color] compares exactly: it returns the
    success, warning or danger colour only for the strs ['normal'],
    ['abnormal'] and ['critical'] themselves, so that another casing such
    as ['Normal'], or a value that is not a str, gets the neutral colour. *)
Theorem X2_classification_color_exact (v : pyval) :
  (get_classification_color v = SUCCESS_COLOR <-> v = str "normal") /\
  (get_classification_color v = WARNING_COLOR <-> v = str "abnormal") /\
  (get_classification_color v = DANGER_COLOR <-> v = str "critical") /\
  (get_classification_color v = NEUTRAL_COLOR <->
   v <> str "normal" /\ v <> str "abnormal" /\ v <> str "critical") /\
  get_classification_color (str "Normal") = NEUTRAL_COLOR.
Proof.
  unfold get_classification_color.
  destruct (py_eq_str v (lit "normal")) eqn:E1.
  { destruct v; try discriminate. apply pystr_eqb_eq in E1. subst s.
    repeat split; intros; try reflexivity; try tauto; try discriminate. }
  destruct (py_eq_str v (lit "abnormal")) eqn:E2.
  { destruct v; try discriminate. apply pystr_eqb_eq in E2. subst s.
    repeat split; intros; try reflexivity; try tauto; try discriminate. }
  destruct (py_eq_str v (lit "critical")) eqn:E3.
  { destruct v; try discriminate. apply pystr_eqb_eq in E3. subst s.
    repeat split; intros; try reflexivity; try tauto; try discriminate. }
  assert (N1 : v <> str "normal")
    by (intros ->; unfold str in E1; simpl in E1; now rewrite pystr_eqb_refl in E1).
  assert (N2 : v <> str "abnormal")
    by (intros ->; unfold str in E2; simpl in E2; now rewrite pystr_eqb_refl in E2).
  assert (N3 : v <> str "critical")
    by (intros ->; unfold str in E3; simpl in E3; now rewrite pystr_eqb_refl in E3).
  repeat split; intros; try reflexivity; try tauto; try discriminate.
Qed.

(* ===================================================================== *)
(** ** The exceptions of the script *)
(* ===================================================================== *)

Section Failures.
Context {R : Runtime}.
Variable Q : exn -> bool.

Lemma fails_bind {A B} (m : M A) (f : A -> M B) :
  fails_with Q m -> (forall a, fails_with Q (f a)) -> fails_with Q (bind m f).
Proof.
  intros Hm Hf e H. apply bind_Err in H.
  destruct H as [H|(a & w & _ & H)]; [now apply Hm | exact (Hf a e H)].
Qed.

Lemma fails_lift {A} (r : result A) :
  (forall e, r = Err e -> Q e = true) -> fails_with Q (lift r).
Proof. intros Hr e. destruct r; simpl; [discriminate|]. intros H. apply Hr. congruence. Qed.

Lemma fails_ok {A} (a : A) (w : list flowable) : fails_with Q (Ok (a, w)).
Proof. discriminate. Qed.

Lemma fails_bind_ok {A B} (a : A) (w : list flowable) (f : A -> M B) :
  fails_with Q (f a) -> fails_with Q (bind (Ok (a, w)) f).
Proof.
  intros Hf e. cbn [bind]. destruct (f a) as [[b w2]|e'] eqn:E; [discriminate|].
  intros H. injection H as <-. now apply Hf.
Qed.

Lemma fails_when (b : bool) (m : M unit) : fails_with Q m -> fails_with Q (when b m).
Proof. destruct b; simpl; [auto | intros _; apply fails_ok]. Qed.

Lemma fails_for_each (body : pyval -> M unit) (l : list pyval) :
  (forall x, fails_with Q (body x)) -> fails_with Q (for_each l body).
Proof.
  intros Hb. induction l as [|x l IH]; simpl; [apply fails_ok|].
  apply fails_bind; auto.
Qed.

Hypothesis Q_layout : forall msg, Q (LayoutError msg) = true.

Lemma fails_new_Paragraph (t : ptext) (s : ParagraphStyle) :
  fails_with Q (lift (new_Paragraph t s)).
Proof.
  apply fails_lift. intros e. unfold new_Paragraph.
  destruct (Paragraph_init t s); [|discriminate]. intros H. injection H as <-. auto.
Qed.

Lemma fails_new_Table (d : list (list pyval)) (ws : list Z) :
  fails_with Q (lift (new_Table d ws)).
Proof.
  apply fails_lift. intros e. unfold new_Table.
  destruct (Table_init d ws); [|discriminate]. intros H. injection H as <-. auto.
Qed.

Lemma fails_append_para (t : ptext) (n : string) :
  match sheet_find n the_styles with Some _ => true | None => false end = true ->
  fails_with Q (append_para the_styles t n).
Proof.
  intros H. unfold append_para. rewrite (sheet_get_the_styles n H). cbn [lift].
  apply fails_bind; [apply fails_ok|]. intros st.
  apply fails_bind; [apply fails_new_Paragraph|]. intros p. discriminate.
Qed.

Lemma fails_append_para_styled (t : ptext) (n parent : string)
    (kw : ParagraphStyle -> ParagraphStyle) :
  match sheet_find parent the_styles with Some _ => true | None => false end = true ->
  fails_with Q (append_para_styled the_styles t n parent kw).
Proof.
  intros H. unfold append_para_styled. rewrite (sheet_get_the_styles parent H).
  cbn [lift]. apply fails_bind; [apply fails_ok|]. intros st.
  apply fails_bind; [apply fails_new_Paragraph|]. intros p. discriminate.
Qed.

End Failures.

Ltac fails_op :=
  apply fails_lift;
  let e := fresh "e" in let H := fresh "H" in
  intros e H;
  match type of H with
  | py_get ?v _ _ = _ => destruct v
  | py_slice_to ?v _ = _ => destruct v
  | py_add_str ?v _ = _ => destruct v
  | py_iter ?v = _ => destruct v
  | py_upper ?v = _ => destruct v
  end;
  simpl in H; try discriminate H;
  try (revert H; case hashable_slices; intro H);
  injection H as <-; reflexivity.

Ltac fails_step :=
  first
    [ solve [auto 2]
    | apply fails_append_para; [intro; reflexivity | reflexivity]
    | apply fails_append_para_styled; [intro; reflexivity | reflexivity]
    | apply fails_new_Table; intro; reflexivity
    | apply fails_ok
    | discriminate
    | apply fails_when
    | apply fails_for_each; intro
    | fails_op
    | apply fails_bind; [|intro] ].

Ltac fails_walk := cbv zeta; repeat fails_step.

Section ScriptErrors.
Context {R : Runtime}.

Lemma fails_bind_val {A B} (Q : exn -> bool) (m : M A) (f : A -> M B) :
  fails_with Q m -> (forall a w, m = Ok (a, w) -> fails_with Q (f a)) ->
  fails_with Q (bind m f).
Proof.
  intros Hm Hf e H. apply bind_Err in H.
  destruct H as [H|(a & w & Ha & H)]; [now apply Hm | exact (Hf a w Ha e H)].
Qed.

Lemma record_error_script (data : pyval) (e : exn) :
  record_error data e = true -> script_error e = true.
Proof. destruct e; simpl; auto. Qed.

(** The slice of line 181 is the one place where a [KeyError] can come
    from. *)
Lemma report_information_record_error (data : pyval) :
  fails_with (record_error data) (report_information the_styles data).
Proof.
  unfold report_information.
  apply fails_bind; [apply fails_append_para; [intro|]; reflexivity|]. intros _.
  apply fails_bind_val; [fails_op|]. intros id w Hid.
  apply lift_Ok in Hid. destruct Hid as [Hid _]. apply py_get_field in Hid.
  apply fails_bind; [|intro; fails_walk].
  apply fails_lift. intros e H.
  destruct id; simpl in H; try discriminate H;
    try (injection H as <-; reflexivity).
  revert H. destruct hashable_slices eqn:Eh; intros H; injection H as <-;
    [|reflexivity].
  unfold record_error. rewrite Eh. cbn [andb].
  destruct (field data "id") as [v|]; cbn [get_or] in Hid; [|discriminate Hid].
  now subst v.
Qed.

Lemma page1_script_error (data : pyval) :
  fails_with (record_error data) (generate_pdf_page1 the_styles data).
Proof.
  pose proof (report_information_record_error data).
  unfold generate_pdf_page1, page_header, analysis_summary, key_findings,
    finding_block.
  fails_walk.
Qed.

Lemma page2_script_error (data i : pyval) :
  fails_with (record_error data) (generate_pdf_page2 the_styles i).
Proof.
  unfold generate_pdf_page2, page_header, medical_condition, item_section,
    item_lines, consultation_info, dos_and_donts.
  fails_walk.
Qed.

Lemma page3_script_error (data i : pyval) :
  fails_with (record_error data) (generate_pdf_page3 the_styles i).
Proof.
  unfold generate_pdf_page3, page_header, doctor_block, recommendation_block.
  fails_walk.
Qed.

End ScriptErrors.

(** X3: whatever the input, building the block list never fails on a
    style name: every style the script looks up is in the sheet that
    [create_styles] returns, and no style is added twice.  A failure
    before [doc.build] is a missing [get] or [upper] method, a bad slice,
    operand or loop, or an exception of the layout library.  The bad
    slice is a [TypeError], except that it is the [KeyError] of the slice
    when the [id] of the record is an object and the interpreter can hash
    slices (Python 3.12 and later). *)
Theorem X3_only_script_errors `{R : Runtime} (data : pyval) (e : exn) :
  generate_pdf_story data = Err e ->
  script_error e = true /\
  (forall k, e <> KeyError k) /\
  (e = KeyError_slice ->
   hashable_slices = true /\ exists items, field data "id" = Some (PDict items)).
Proof.
  intros H.
  assert (Hs : record_error data e = true).
  { revert e H. change (fails_with (record_error data) (generate_pdf_story data)).
    pose proof (page1_script_error data). pose proof (page2_script_error data).
    pose proof (page3_script_error data).
    unfold generate_pdf_story. rewrite create_styles_Ok. cbn [lift].
    apply fails_bind_ok. fails_walk. }
  split; [exact (record_error_script data e Hs)|]. split.
  - intros k ->. discriminate.
  - intros ->. unfold record_error in Hs. apply andb_true_iff in Hs.
    destruct Hs as [Hh Hi]. split; [exact Hh|].
    destruct (field data "id") as [[| | | | | |items]|]; try discriminate Hi.
    now exists items.
Qed.

Lemma X3_witness :
  generate_pdf_story (R := demo_runtime) object_id_input = Err KeyError_slice /\
  script_error KeyError_slice = true /\
  exists items, field object_id_input "id" = Some (PDict items).
Proof.
  split; [vm_compute; reflexivity|].
  destruct (@X3_only_script_errors demo_runtime object_id_input KeyError_slice)
    as (Hs & _ & Hk); [vm_compute; reflexivity|].
  split; [exact Hs | exact (proj2 (Hk eq_refl))].
Defined.

Lemma pytype_eqb_eq (s t : pytype) : pytype_eqb s t = true -> s = t.
Proof. destruct s, t; simpl; congruence. Qed.

Lemma pytype_eqb_refl (t : pytype) : pytype_eqb t t = true.
Proof. now destruct t. Qed.

Section NonObject.
Context {R : Runtime}.

Lemma fails_bind_never_ok {A B} (Q : exn -> bool) (m : M A) (f : A -> M B) :
  fails_with Q m -> (forall a w, m <> Ok (a, w)) -> fails_with Q (bind m f).
Proof.
  intros Hm Hn e H. apply bind_Err in H.
  destruct H as [H|(a & w & H & _)]; [now apply Hm | now elim (Hn a w)].
Qed.

Lemma report_information_needs_object (styles : StyleSheet) (data : pyval) (u : unit)
    (w : list flowable) :
  report_information styles data = Ok (u, w) -> is_object data = true.
Proof.
  unfold report_information. intros H. do 4 run_step.
  match goal with
  | E : py_get data _ _ = Ok _ |- _ =>
      apply py_get_Ok in E; destruct E as (items & -> & _)
  end.
  reflexivity.
Qed.

Lemma report_information_non_object (data : pyval) :
  is_object data = false ->
  fails_with (missing_get_or_layout (type_of data)) (report_information the_styles data).
Proof.
  intros Hd. unfold report_information.
  apply fails_bind; [apply fails_append_para; [intro|]; reflexivity|]. intros _.
  apply fails_bind_never_ok.
  - apply fails_lift. intros e H. destruct data; try discriminate Hd;
      simpl in H; injection H as <-; reflexivity.
  - intros a w H. apply lift_Ok in H. destruct H as [H _].
    apply py_get_Ok in H. destruct H as (items & -> & _). discriminate.
Qed.

Lemma story_non_object (data : pyval) :
  is_object data = false ->
  fails_with (missing_get_or_layout (type_of data)) (generate_pdf_story data) /\
  (forall u w, generate_pdf_story data <> Ok (u, w)).
Proof.
  intros Hd. split.
  - unfold generate_pdf_story. rewrite create_styles_Ok. cbn [lift].
    apply fails_bind_ok. apply fails_bind_never_ok.
    + unfold generate_pdf_page1.
      apply fails_bind; [unfold page_header; fails_walk|]. intros _.
      apply fails_bind_never_ok; [now apply report_information_non_object|].
      intros a w H. apply report_information_needs_object in H. congruence.
    + intros a w H. unfold generate_pdf_page1 in H. do 2 run_step.
      match goal with
      | H : report_information _ _ = Ok _ |- _ =>
          apply report_information_needs_object in H; congruence
      end.
  - intros u w H. apply story_Ok in H.
    destruct H as (styles & w1 & i & w2 & _ & _ & Hi & _).
    apply py_get_Ok in Hi. destruct Hi as (items & -> & _). discriminate.
Qed.

End NonObject.

(** X4: on a value that is not a JSON object (a list, a string, a number,
    [true], [false] or [null]) [generate_pdf] always raises: the first
    [data.get] finds no such method, unless the layout library has already
    refused one of the three paragraphs built before it.  No document is
    produced. *)
Theorem X4_non_object_input_fails `{R : Runtime} (data : pyval) :
  is_object data = false ->
  exists e,
    generate_pdf data = Err e /\
    (e = AttributeError (type_of data) "get" \/ is_layout_error e = true).
Proof.
  intros Hd. destruct (story_non_object data Hd) as [Hf Hn].
  unfold generate_pdf.
  destruct (generate_pdf_story data) as [[u w]|e] eqn:E; [now elim (Hn u w)|].
  exists e. split; [reflexivity|].
  specialize (Hf e eq_refl). destruct e; simpl in Hf; try discriminate.
  - left. apply andb_true_iff in Hf. destruct Hf as [Ht Ha].
    apply pytype_eqb_eq in Ht. apply String.eqb_eq in Ha. congruence.
  - now right.
Qed.

Lemma X4_witness :
  exists e,
    generate_pdf (R := demo_runtime) (PList []) = Err e /\
    (e = AttributeError Tlist "get" \/ is_layout_error e = true).
Proof. apply (@X4_non_object_input_fails demo_runtime (PList [])). reflexivity. Defined.

(* ===================================================================== *)
(** ** Page breaks *)
(* ===================================================================== *)

Lemma no_break_block (w : list flowable) :
  forallb (fun f => negb (is_page_break f)) w = true ->
  existsb is_page_break w = false.
Proof.
  induction w as [|f w IH]; simpl; [reflexivity|].
  intros H. apply andb_true_iff in H. destruct H as [Hf Hw].
  apply negb_true_iff in Hf. rewrite Hf. auto.
Qed.

Lemma page_breaks_none (w : list flowable) :
  existsb is_page_break w = false -> page_breaks w = 0%nat.
Proof.
  unfold page_breaks. induction w as [|f w IH]; simpl; [reflexivity|].
  intros H. apply orb_false_iff in H. destruct H as [Hf Hw]. rewrite Hf. auto.
Qed.

Lemma page_breaks_app (a b : list flowable) :
  page_breaks (a ++ b) = (page_breaks a + page_breaks b)%nat.
Proof. unfold page_breaks. now rewrite filter_app, length_app. Qed.

Lemma page_from_breaks (title : string) (present : bool) (p : list flowable) :
  page_from title present p -> page_breaks p = if present then 1%nat else 0%nat.
Proof.
  unfold page_from. destruct present.
  - intros (st1 & st2 & rest & -> & _ & _ & Hr).
    change (page_breaks (PageBreak :: Paragraph (text "MUAINA") st1
                           :: Paragraph (text title) st2 :: rest))
      with (S (page_breaks rest)).
    now rewrite (page_breaks_none _ Hr).
  - now intros ->.
Qed.

Section Breaks.
Context {R : Runtime}.

Lemma page1_no_breaks (styles : StyleSheet) (data : pyval) :
  emits (fun f => negb (is_page_break f)) (generate_pdf_page1 styles data).
Proof.
  unfold generate_pdf_page1, page_header, report_information, analysis_summary,
    key_findings, finding_block.
  emits_walk.
Qed.

(** Page 2 begins with its page break and its header. *)
Lemma page2_from (styles : StyleSheet) (i : pyval) (u : unit) (w : list flowable) :
  generate_pdf_page2 styles i = Ok (u, w) ->
  page_from "Patient-Friendly Interpretation" true w.
Proof.
  unfold generate_pdf_page2. intros H.
  apply bind_Ok in H. destruct H as ([] & w1 & w2 & H1 & H2 & ->).
  apply append_Ok in H1. subst w1.
  apply bind_Ok in H2. destruct H2 as ([] & wh & w3 & Hh & H3 & ->).
  apply page_header_Ok in Hh. destruct Hh as (st1 & st2 & N1 & N2 & ->).
  match type of H3 with
  | ?m = _ =>
      assert (He : emits (fun f => negb (is_page_break f)) m)
        by (unfold medical_condition, item_section, item_lines,
              consultation_info, dos_and_donts; emits_walk)
  end.
  exists st1, st2, (HRFlowable "100%" 2 PRIMARY_COLOR :: Spacer 1 12 :: w3).
  split; [reflexivity|]. split; [exact N1|]. split; [exact N2|].
  cbn [existsb is_page_break orb]. exact (no_break_block _ (He _ _ H3)).
Qed.

(** Page 3, when it is there, begins with its page break and its header. *)
Lemma page3_from (styles : StyleSheet) (i : pyval) (u : unit) (w : list flowable) :
  generate_pdf_page3 styles i = Ok (u, w) ->
  page_from "Recommended Healthcare Providers" (has_page3 w) w.
Proof.
  unfold generate_pdf_page3. intros H. do 4 run_step.
  match goal with
  | Hw : when _ _ = Ok _ |- _ =>
      apply when_Ok in Hw; destruct Hw as [[_ Hw]|[_ ->]]; [|reflexivity]
  end.
  match goal with
  | Hw : bind (append PageBreak) _ = Ok _ |- _ =>
      apply bind_Ok in Hw; destruct Hw as ([] & w1 & w2 & H1 & H2 & ->)
  end.
  apply append_Ok in H1. subst w1.
  apply bind_Ok in H2. destruct H2 as ([] & wh & w3 & Hh & H3 & ->).
  apply page_header_Ok in Hh. destruct Hh as (st1 & st2 & N1 & N2 & ->).
  match type of H3 with
  | ?m = _ =>
      assert (He : emits (fun f => negb (is_page_break f)) m)
        by (unfold doctor_block, recommendation_block; emits_walk)
  end.
  cbn [app].
  assert (H3' : has_page3
                  (PageBreak :: Paragraph (text "MUAINA") st1
                     :: Paragraph (text "Recommended Healthcare Providers") st2
                     :: HRFlowable "100%" 2 PRIMARY_COLOR :: Spacer 1 12 :: w3) = true).
  { unfold has_page3. apply existsb_exists.
    exists (Paragraph (text "Recommended Healthcare Providers") st2).
    split; [simpl; tauto | now apply is_para_text]. }
  rewrite H3'.
  exists st1, st2, (HRFlowable "100%" 2 PRIMARY_COLOR :: Spacer 1 12 :: w3).
  split; [reflexivity|]. split; [exact N1|]. split; [exact N2|].
  cbn [existsb is_page_break orb]. exact (no_break_block _ (He _ _ H3)).
Qed.

End Breaks.

(** X5: the block list is page 1, then the blocks of page 2, then those
    of page 3.  Page 1 has no page break.  Each of the two optional pages,
    when it is in the document, begins with its page break, which the
    logo and the title of the page follow, and has no other page break;
    when the page is left out it contributes no block.  So the number of
    page breaks is the number of optional pages in the document. *)
Theorem X5_page_break_count `{R : Runtime} (data : pyval) (story : list flowable) :
  generate_pdf_story data = Ok (tt, story) ->
  exists p1 p2 p3,
    story = p1 ++ p2 ++ p3 /\
    existsb is_page_break p1 = false /\
    page_from "Patient-Friendly Interpretation" (has_page2 story) p2 /\
    page_from "Recommended Healthcare Providers" (has_page3 story) p3 /\
    page_breaks story
      = ((if has_page2 story then 1 else 0) + (if has_page3 story then 1 else 0))%nat.
Proof.
  intros H. apply story_Ok in H.
  destruct H as (styles & w1 & i & w2 & _ & H1 & _ & -> & H2).
  pose proof (no_break_block _ (page1_no_breaks styles data _ _ H1)) as B1.
  assert (E2 : forall w, has_page2 (w1 ++ w) = has_page2 w).
  { intros w. unfold has_page2. rewrite existsb_app.
    now rewrite (emits_not_para _ _ _ _ _ (page1_no_heading2 styles data) H1). }
  assert (E3 : forall w, has_page3 (w1 ++ w) = has_page3 w).
  { intros w. unfold has_page3. rewrite existsb_app.
    now rewrite (emits_not_para _ _ _ _ _ (page1_no_heading3 styles data) H1). }
  rewrite E2, E3, page_breaks_app, (page_breaks_none _ B1). cbn [Nat.add].
  destruct H2 as [(T & wp2 & wp3 & H2 & H3 & ->)|(T & ->)].
  - assert (F2 : has_page2 (wp2 ++ wp3) = true).
    { unfold has_page2. rewrite existsb_app.
      destruct (page2_has_heading _ _ _ _ H2) as [Hh _]. unfold has_page2 in Hh.
      now rewrite Hh. }
    assert (F3 : has_page3 (wp2 ++ wp3) = has_page3 wp3).
    { unfold has_page3. rewrite existsb_app.
      now rewrite (emits_not_para _ _ _ _ _ (page2_no_heading3 styles i) H2). }
    rewrite F2, F3.
    pose proof (page2_from _ _ _ _ H2) as P2.
    pose proof (page3_from _ _ _ _ H3) as P3.
    exists w1, wp2, wp3. split; [reflexivity|]. split; [exact B1|].
    split; [exact P2|]. split; [exact P3|].
    rewrite page_breaks_app, (page_from_breaks _ _ _ P2), (page_from_breaks _ _ _ P3).
    reflexivity.
  - exists w1, [], []. repeat split; try reflexivity. exact B1.
Qed.

Lemma X5_witness :
  exists story p1 p2 p3,
    generate_pdf_story (R := demo_runtime) full_input = Ok (tt, story) /\
    story = p1 ++ p2 ++ p3 /\
    existsb is_page_break p1 = false /\
    hd_error p2 = Some PageBreak /\ hd_error p3 = Some PageBreak /\
    page_breaks story = 2%nat.
Proof.
  destruct (@X5_page_break_count demo_runtime full_input
              match generate_pdf_story (R := demo_runtime) full_input with
              | Ok (_, s) => s
              | Err _ => []
              end)
    as (p1 & p2 & p3 & Hs & H1 & H2 & H3 & Hc).
  - vm_compute. reflexivity.
  - eexists. exists p1, p2, p3. split; [vm_compute; reflexivity|].
    split; [exact Hs|]. split; [exact H1|].
    change (page_from "Patient-Friendly Interpretation" true p2) in H2.
    change (page_from "Recommended Healthcare Providers" true p3) in H3.
    destruct H2 as (a1 & a2 & r2 & -> & _). destruct H3 as (b1 & b2 & r3 & -> & _).
    split; [reflexivity|]. split; [reflexivity|]. exact Hc.
Defined.

(* ===================================================================== *)
(** ** The cells of the information table *)
(* ===================================================================== *)

Lemma no_tables (w : list flowable) :
  forallb (fun f => negb (is_table f)) w = true -> filter is_table w = [].
Proof.
  induction w as [|f w IH]; simpl; [reflexivity|].
  intros H. apply andb_true_iff in H. destruct H as [Hf Hw].
  apply negb_true_iff in Hf. rewrite Hf. auto.
Qed.

Section Tables.
Context {R : Runtime}.

Lemma page2_no_tables (styles : StyleSheet) (i : pyval) :
  emits (fun f => negb (is_table f)) (generate_pdf_page2 styles i).
Proof.
  unfold generate_pdf_page2, page_header, medical_condition, item_section,
    item_lines, consultation_info, dos_and_donts.
  emits_walk.
Qed.

Lemma page3_no_tables (styles : StyleSheet) (i : pyval) :
  emits (fun f => negb (is_table f)) (generate_pdf_page3 styles i).
Proof.
  unfold generate_pdf_page3, page_header, doctor_block, recommendation_block.
  emits_walk.
Qed.

Lemma key_findings_no_tables (styles : StyleSheet) (data : pyval) :
  emits (fun f => negb (is_table f)) (key_findings styles data).
Proof. unfold key_findings, finding_block. emits_walk. Qed.

Lemma story_one_table (data : pyval) (story : list flowable) :
  generate_pdf_story data = Ok (tt, story) ->
  List.length (filter is_table story) = 1%nat.
Proof.
  intros H. apply story_Ok in H.
  destruct H as (styles & w1 & i & w2 & _ & H1 & _ & -> & H2).
  assert (Hw2 : filter is_table w2 = []).
  { destruct H2 as [(_ & wp2 & wp3 & H2 & H3 & ->)|(_ & ->)]; [|reflexivity].
    rewrite filter_app.
    rewrite (no_tables _ (page2_no_tables styles i _ _ H2)).
    now rewrite (no_tables _ (page3_no_tables styles i _ _ H3)). }
  rewrite filter_app, Hw2, app_nil_r.
  unfold generate_pdf_page1 in H1. run.
  match goal with H : page_header _ _ _ = Ok _ |- _ =>
    apply page_header_Ok in H; destruct H as (st1 & st2 & _ & _ & ->) end.
  match goal with H : report_information _ _ = Ok _ |- _ =>
    apply report_information_Ok in H; destruct H as (st' & id & cls & _ & _ & ->) end.
  match goal with H : analysis_summary _ _ = Ok _ |- _ =>
    apply analysis_summary_Ok in H; destruct H as (s1 & s2 & s3 & ->) end.
  match goal with H : key_findings _ _ = Ok _ |- _ =>
    pose proof (no_tables _ (key_findings_no_tables _ _ _ _ H)) as Hk end.
  rewrite !filter_app, Hk. reflexivity.
Qed.

End Tables.

(** X6: the block list has exactly one table, the information table: six
    rows of a label and a value, columns 120 and 350 wide.  The values are
    the truncated id, then [fileName] (default ['Unknown']), [uploadedAt]
    (['N/A']), [organizationName] (['Unknown']), the classification in
    upper case (default ['pending'], shown as ['PENDING']) and
    [reviewStatus] (['pending']), each as found in the input. *)
Theorem X6_information_table `{R : Runtime} (data : pyval) (story : list flowable) :
  generate_pdf_story data = Ok (tt, story) ->
  exists t cls,
    first_table story = Some t /\
    List.length (filter is_table story) = 1%nat /\
    table_colWidths t = [120; 350] /\
    map (fun row => nth_error row 0) (table_data t)
      = map Some [str "Report ID:"; str "File Name:"; str "Uploaded:";
                  str "Organization:"; str "Classification:"; str "Review Status:"] /\
    Forall (fun row => List.length row = 2%nat) (table_data t) /\
    table_cell t 1 1 = Some (get_or (field data "fileName") (str "Unknown")) /\
    table_cell t 1 2 = Some (get_or (field data "uploadedAt") (str "N/A")) /\
    table_cell t 1 3 = Some (get_or (field data "organizationName") (str "Unknown")) /\
    get_or (field data "classification") (str "pending") = PStr cls /\
    table_cell t 1 4 = Some (PStr (str_upper cls)) /\
    table_cell t 1 5 = Some (get_or (field data "reviewStatus") (str "pending")).
Proof.
  intros H. pose proof (story_one_table data story H) as H1.
  apply story_info_table in H. destruct H as (id & cls & _ & Hcls & Ht).
  eexists. exists cls. split; [exact Ht|]. split; [exact H1|].
  split; [reflexivity|]. split; [reflexivity|].
  split; [repeat constructor|].
  repeat (split; [first [reflexivity | assumption]|]). reflexivity.
Qed.

Lemma X6_witness :
  exists story t,
    generate_pdf_story (R := demo_runtime) (PDict []) = Ok (tt, story) /\
    first_table story = Some t /\
    table_cell t 1 4 = Some (str "PENDING") /\
    table_cell t 1 5 = Some (str "pending").
Proof.
  destruct (@X6_information_table demo_runtime (PDict [])
              match generate_pdf_story (R := demo_runtime) (PDict []) with
              | Ok (_, s) => s
              | Err _ => []
              end)
    as (t & cls & Ht & _ & _ & _ & _ & _ & _ & _ & Hcls & H4 & H5).
  - vm_compute. reflexivity.
  - eexists. exists t. split; [vm_compute; reflexivity|]. split; [exact Ht|].
    vm_compute in Hcls. injection Hcls as <-. split; [exact H4 | exact H5].
Defined.

(** X7: the Classification cell shows the value in upper case, but its
    colour is chosen from the value as given: a classification that is not
    exactly ['normal'], ['abnormal'] or ['critical'], such as ['Normal'],
    is shown upper-cased in the neutral colour. *)
Theorem X7_classification_text_and_color `{R : Runtime} (data : pyval)
    (story : list flowable) (s : pystr) :
  generate_pdf_story data = Ok (tt, story) ->
  field data "classification" = Some (PStr s) ->
  s <> lit "normal" -> s <> lit "abnormal" -> s <> lit "critical" ->
  exists t,
    first_table story = Some t /\
    table_cell t 1 4 = Some (PStr (str_upper s)) /\
    table_textcolor t 1 4 = Some NEUTRAL_COLOR.
Proof.
  intros H Hs N1 N2 N3. apply story_info_table in H.
  destruct H as (id & cls & _ & Hcls & Ht).
  rewrite Hs in *. cbn [get_or] in *. injection Hcls as <-.
  eexists. split; [exact Ht|]. split; [reflexivity|].
  match goal with
  | |- table_textcolor ?t 1 4 = _ =>
      change (table_textcolor t 1 4)
        with (Some (get_classification_color (get_or (Some (PStr s)) (PStr []))))
  end.
  rewrite classification_color_refines, classification_color_other;
    [reflexivity | unfold str; congruence..].
Qed.

Lemma X7_witness :
  exists story t,
    generate_pdf_story (R := demo_runtime) capitalised_input = Ok (tt, story) /\
    first_table story = Some t /\
    table_cell t 1 4 = Some (str "NORMAL") /\
    table_textcolor t 1 4 = Some NEUTRAL_COLOR.
Proof.
  destruct (@X7_classification_text_and_color demo_runtime capitalised_input
              match generate_pdf_story (R := demo_runtime) capitalised_input with
              | Ok (_, s) => s
              | Err _ => []
              end
              (lit "Normal"))
    as (t & Ht & H4 & Hc).
  - vm_compute. reflexivity.
  - reflexivity.
  - vm_compute. discriminate.
  - vm_compute. discriminate.
  - vm_compute. discriminate.
  - eexists. exists t. split; [vm_compute; reflexivity|].
    split; [exact Ht|]. split; [exact H4 | exact Hc].
Defined.

(* ===================================================================== *)
(** ** The findings, in order *)
(* ===================================================================== *)

Lemma truthy_get_or_list (o : option pyval) :
  truthy (get_or o (PList [])) = truthy_field o.
Proof. now destruct o. Qed.

Lemma child_style_name (k : string) (p : ParagraphStyle) (n : string) :
  style_name p = n -> child_style k p = child_style k (base_style n).
Proof. intros <-. reflexivity. Qed.

Lemma no_titles (w : list flowable) :
  forallb (fun f => negb (is_finding_title f)) w = true ->
  filter is_finding_title w = [].
Proof.
  induction w as [|f w IH]; simpl; [reflexivity|].
  intros H. apply andb_true_iff in H. destruct H as [Hf Hw].
  apply negb_true_iff in Hf. rewrite Hf. auto.
Qed.

Lemma no_findings_no_titles (w : list flowable) :
  forallb no_findings_block w = true -> filter is_finding_title w = [].
Proof.
  intros H. apply no_titles. rewrite forallb_forall in *. intros f Hf.
  specialize (H f Hf). unfold no_findings_block in H.
  apply andb_true_iff in H. tauto.
Qed.

Section FindingsInOrder.
Context {R : Runtime}.

Lemma finding_block_title (styles : StyleSheet) (f : pyval) (u : unit)
    (w : list flowable) :
  finding_block styles f = Ok (u, w) ->
  is_object f = true /\
  exists st, style_name st = "ListItem" /\
    w = [finding_title_of f; Paragraph (Raw (get_or (field f "description") (PStr []))) st].
Proof.
  unfold finding_block. intros H. run.
  assert (Hf : is_object f = true).
  { match goal with
    | E : py_get ?v "severity" _ = Ok _ |- _ =>
        destruct (py_get_Ok _ _ _ _ E) as (items & -> & _)
    end.
    reflexivity. }
  split; [exact Hf|].
  repeat match goal with
         | E : py_get _ _ _ = Ok _ |- _ => apply py_get_field in E; subst
         end.
  match goal with
  | E : py_upper _ = Ok _ |- _ =>
      apply py_upper_Ok in E; destruct E as (sev & Hsev & ->)
  end.
  match goal with
  | N : style_name ?s = "ListItem", E : sheet_get _ "CustomBodyText" = Ok ?p |- _ =>
      exists s; split; [exact N|];
      apply sheet_get_name in E;
      unfold finding_title_of, finding_title_style, str;
      rewrite Hsev, (child_style_name "FindingTitle" p _ E)
  end.
  reflexivity.
Qed.

Lemma finding_blocks_titles (styles : StyleSheet) (fs : list pyval)
    (ws : list (list flowable)) :
  Forall2 (fun f wf => finding_block styles f = Ok (tt, wf)) fs ws ->
  filter is_finding_title (List.concat ws) = map finding_title_of fs /\
  Forall (fun f => is_object f = true) fs.
Proof.
  induction 1 as [|f wf fs ws Hf _ [IH1 IH2]]; [split; [reflexivity | constructor]|].
  apply finding_block_title in Hf. destruct Hf as (Ho & st & N & ->).
  split; [|now constructor].
  cbn [List.concat app filter map]. rewrite IH1.
  unfold is_finding_title at 2, style_is. rewrite N. reflexivity.
Qed.

Lemma key_findings_Ok (styles : StyleSheet) (data : pyval) (u : unit)
    (w : list flowable) :
  key_findings styles data = Ok (u, w) ->
  (truthy_field (field data "findings") = false /\ w = []) \/
  (exists f fs st ws,
     field data "findings" = Some (PList (f :: fs)) /\
     style_name st = "SectionTitle" /\
     Forall2 (fun x wx => finding_block styles x = Ok (tt, wx)) (f :: fs) ws /\
     w = Paragraph (text "Key Findings") st :: List.concat ws ++ [Spacer 1 16]).
Proof.
  unfold key_findings. intros H. do 2 run_step.
  match goal with E : py_get _ _ _ = Ok _ |- _ => apply py_get_field in E; subst end.
  match goal with
  | Hw : when _ _ = Ok _ |- _ =>
      apply when_Ok in Hw; destruct Hw as [[T Hw]|[T ->]]
  end.
  - right. run.
    match goal with
    | Hit : py_iter _ = Ok ?items, Hl : for_each ?items _ = Ok _ |- _ =>
        destruct (loop_over_list (finding_block styles) _ _ _ _
                    (finding_block_dict styles) T Hit Hl) as (x & l & Ex);
        rewrite Ex in Hit; simpl in Hit; injection Hit as <-;
        apply for_each_Ok in Hl; destruct Hl as (ws & Hws & ->)
    end.
    destruct (field data "findings") as [v|]; [|discriminate].
    cbn [get_or] in Ex. subst v.
    match goal with
    | N : style_name ?s = "SectionTitle" |- _ => exists x, l, s, ws
    end.
    repeat (split; [first [reflexivity | assumption]|]). reflexivity.
  - left. now rewrite <- truthy_get_or_list.
Qed.

Lemma key_findings_falsy (P : flowable -> bool) (data : pyval) :
  truthy_field (field data "findings") = false ->
  forall styles, emits P (key_findings styles data).
Proof.
  intros Hf styles u w H. apply key_findings_Ok in H.
  destruct H as [[_ ->]|(f & fs & _ & _ & E & _)]; [reflexivity|].
  rewrite E in Hf. discriminate.
Qed.

Lemma page1_parts_no_findings (styles : StyleSheet) (data : pyval) :
  emits no_findings_block
    (page_header styles (text "AI-Powered Pathology Report Analysis") "Subtitle") /\
  emits no_findings_block (report_information styles data) /\
  emits no_findings_block (analysis_summary styles data) /\
  emits no_findings_block
    (bind (append (Spacer 1 20))
       (fun _ => append_para styles (text disclaimer1) "Disclaimer")).
Proof.
  unfold page_header, report_information, analysis_summary.
  repeat split; emits_walk.
Qed.

Lemma story_findings_part (data : pyval) (story : list flowable) :
  generate_pdf_story data = Ok (tt, story) ->
  exists styles wk,
    key_findings styles data = Ok (tt, wk) /\
    filter is_finding_title story = filter is_finding_title wk /\
    has_key_findings_heading story = has_key_findings_heading wk.
Proof.
  intros H. apply story_Ok in H.
  destruct H as (styles & w1 & i & w2 & _ & H1 & _ & -> & H2).
  assert (Hw2 : forallb no_findings_block w2 = true).
  { destruct H2 as [(_ & wp2 & wp3 & H2 & H3 & ->)|(_ & ->)]; [|reflexivity].
    rewrite forallb_app.
    now rewrite (page2_no_findings styles i _ _ H2), (page3_no_findings styles i _ _ H3). }
  unfold generate_pdf_page1 in H1.
  destruct (page1_parts_no_findings styles data) as (Eh & Er & Ea & Et).
  repeat match goal with
         | H : bind ?m _ = Ok (_, _) |- _ =>
             lazymatch m with
             | append _ => fail
             | _ => idtac
             end;
             let a := fresh "a" in let wa := fresh "w" in let wb := fresh "w" in
             let Ha := fresh "H" in let Hb := fresh "H" in
             apply bind_Ok in H; destruct H as (a & wa & wb & Ha & Hb & ->)
         end.
  repeat match goal with x : unit |- _ => destruct x end.
  match goal with
  | Hh : page_header _ _ _ = Ok (_, ?wh), Hr : report_information _ _ = Ok (_, ?wr),
    Ha : analysis_summary _ _ = Ok (_, ?wa), Hk : key_findings _ _ = Ok (_, ?wk),
    Ht : bind (append _) _ = Ok (_, ?wt) |- _ =>
      exists styles, wk; split; [exact Hk|];
      pose proof (Eh _ _ Hh) as Fh; pose proof (Er _ _ Hr) as Fr;
      pose proof (Ea _ _ Ha) as Fa; pose proof (Et _ _ Ht) as Ft
  end.
  unfold has_key_findings_heading.
  rewrite !filter_app, !existsb_app.
  repeat match goal with
         | F : forallb no_findings_block ?w = true |- _ =>
             let G := fresh "G" in
             pose proof (proj1 (forallb_no_findings w F)) as G;
             unfold has_key_findings_heading in G;
             rewrite (no_findings_no_titles w F), G;
             clear F G
         end.
  cbn [app orb]. now rewrite !app_nil_r, !orb_false_r.
Qed.

End FindingsInOrder.

(** X8: the "Key Findings" heading is in the block list exactly when the
    [findings] field is true as a Python value, so that [null], [0], an
    empty string or an empty object suppress the section as an empty list
    does; and a block list is built from a true [findings] only when it is
    a non-empty list of objects. *)
Theorem X8_findings_section_iff_truthy `{R : Runtime} (data : pyval)
    (story : list flowable) :
  generate_pdf_story data = Ok (tt, story) ->
  has_key_findings_heading story = truthy_field (field data "findings") /\
  (truthy_field (field data "findings") = true ->
   exists f fs,
     field data "findings" = Some (PList (f :: fs)) /\
     Forall (fun x => is_object x = true) (f :: fs)).
Proof.
  intros H. apply story_findings_part in H.
  destruct H as (styles & wk & Hk & _ & ->).
  apply key_findings_Ok in Hk.
  destruct Hk as [[T ->]|(f & fs & st & ws & E & N & Hws & ->)].
  - rewrite T. split; [reflexivity | discriminate].
  - rewrite E. split.
    + unfold has_key_findings_heading. cbn [existsb truthy_field truthy].
      now rewrite (is_para_text "Key Findings" _ st N).
    + intros _. exists f, fs. split; [reflexivity|].
      exact (proj2 (finding_blocks_titles _ _ _ Hws)).
Qed.

Lemma X8_witness :
  exists story,
    generate_pdf_story (R := demo_runtime) full_input = Ok (tt, story) /\
    has_key_findings_heading story = true.
Proof.
  destruct (@X8_findings_section_iff_truthy demo_runtime full_input
              match generate_pdf_story (R := demo_runtime) full_input with
              | Ok (_, s) => s
              | Err _ => []
              end) as [Hh _].
  - vm_compute. reflexivity.
  - eexists. split; [vm_compute; reflexivity | exact Hh].
Defined.

(** X9: the paragraphs in the style [FindingTitle] are the title lines of
    the findings, one for each finding and in the order of the input list;
    no other block of the document has that style. *)
Theorem X9_finding_titles_in_order `{R : Runtime} (data : pyval)
    (story : list flowable) (fs : list pyval) :
  generate_pdf_story data = Ok (tt, story) ->
  field data "findings" = Some (PList fs) ->
  filter is_finding_title story = map finding_title_of fs.
Proof.
  intros H Hf. apply story_findings_part in H.
  destruct H as (styles & wk & Hk & -> & _).
  apply key_findings_Ok in Hk.
  destruct Hk as [[T ->]|(f & fs' & st & ws & E & N & Hws & ->)].
  - rewrite Hf in T. destruct fs; [reflexivity | discriminate].
  - rewrite Hf in E. injection E as ->.
    cbn [filter]. unfold is_finding_title at 1, style_is. rewrite N. cbn [String.eqb].
    rewrite filter_app. cbn [filter is_finding_title]. rewrite app_nil_r.
    exact (proj1 (finding_blocks_titles _ _ _ Hws)).
Qed.

Lemma X9_witness :
  exists story,
    generate_pdf_story (R := demo_runtime) full_input = Ok (tt, story) /\
    filter is_finding_title story
      = [ finding_title (lit "CRITICAL") (str "Hemoglobin")
            (finding_title_style DANGER_COLOR);
          finding_title (lit "INFO") (str "Platelets")
            (finding_title_style NEUTRAL_COLOR) ].
Proof.
  eexists. split; [vm_compute; reflexivity|].
  exact (@X9_finding_titles_in_order demo_runtime full_input
           match generate_pdf_story (R := demo_runtime) full_input with
           | Ok (_, s) => s
           | Err _ => []
           end
           [ PDict [(lit "severity", str "Critical"); (lit "category", str "Hemoglobin");
                    (lit "description", str "Low")];
             PDict [(lit "category", str "Platelets")] ] eq_refl eq_refl).
Defined.

(* ===================================================================== *)
(** ** The parts of page 2 *)
(* ===================================================================== *)

(** Taking a run apart down to the named parts of the script. *)
Ltac run_parts :=
  repeat match goal with
         | H : bind _ _ = Ok (_, _) |- _ =>
             let a := fresh "a" in let wa := fresh "w" in let wb := fresh "w" in
             let Ha := fresh "H" in let Hb := fresh "H" in
             apply bind_Ok in H; destruct H as (a & wa & wb & Ha & Hb & ->)
         end;
  repeat match goal with x : unit |- _ => destruct x end.

Section Page2Parts.
Context {R : Runtime}.

Lemma story_pages (data i : pyval) (story : list flowable) :
  generate_pdf_story data = Ok (tt, story) ->
  field data "muainaInterpretation" = Some i -> truthy i = true ->
  exists styles wp2 wp3,
    generate_pdf_page2 styles i = Ok (tt, wp2) /\
    generate_pdf_page3 styles i = Ok (tt, wp3) /\
    contains_block wp2 story /\ contains_block wp3 story.
Proof.
  intros H Hi T. apply story_Ok in H.
  destruct H as (styles & w1 & i' & w2 & _ & _ & Hg & -> & H2).
  apply py_get_field in Hg. rewrite Hi in Hg. cbn [get_or] in Hg. subst i'.
  destruct H2 as [(_ & wp2 & wp3 & H2 & H3 & ->)|(T' & _)]; [|congruence].
  exists styles, wp2, wp3. repeat split; auto 6 with story.
Qed.

Lemma page2_parts (styles : StyleSheet) (i : pyval) (u : unit) (w : list flowable) :
  generate_pdf_page2 styles i = Ok (u, w) ->
  exists wm wc wd,
    medical_condition styles i = Ok (tt, wm) /\ contains_block wm w /\
    consultation_info styles i = Ok (tt, wc) /\ contains_block wc w /\
    dos_and_donts styles i = Ok (tt, wd) /\ contains_block wd w /\
    (forall key title glyph name, In (key, title, glyph, name) item_sections ->
     exists ws, item_section styles i key title glyph name = Ok (tt, ws) /\
                contains_block ws w).
Proof.
  unfold generate_pdf_page2. intros H. run_parts.
  match goal with
  | Hm : medical_condition _ _ = Ok (_, ?wm), Hc : consultation_info _ _ = Ok (_, ?wc),
    Hd : dos_and_donts _ _ = Ok (_, ?wd) |- _ =>
      exists wm, wc, wd;
      split; [exact Hm|]; split; [auto 20 with story|];
      split; [exact Hc|]; split; [auto 20 with story|];
      split; [exact Hd|]; split; [auto 20 with story|]
  end.
  intros key title glyph name Hin. unfold item_sections in Hin. simpl in Hin.
  destruct Hin as [E|[E|[E|[]]]]; injection E as <- <- <- <-;
    match goal with
    | Hs : item_section _ _ ?k _ _ _ = Ok (_, ?ws)
      |- exists _, item_section _ _ ?k _ _ _ = _ /\ _ =>
        exists ws; split; [exact Hs | auto 20 with story]
    end.
Qed.

End Page2Parts.

Section Page2Blocks.
Context {R : Runtime}.

Lemma medical_condition_Ok (styles : StyleSheet) (i c : pyval) (u : unit)
    (w : list flowable) :
  medical_condition styles i = Ok (u, w) ->
  field i "medicalCondition" = Some c -> truthy c = true ->
  exists sev st1 st2 st3 st4,
    get_or (field c "severity") (str "moderate") = PStr sev /\
    style_name st3 = "CustomBodyText" /\ style_name st4 = "ListItem" /\
    w = [ Paragraph (text "Medical Condition") st1;
          Paragraph (FStr [Lit (lit "<b>");
                           Fmt (get_or (field c "name") (str "Unknown"));
                           Lit (lit "</b>")])
            (with_fontSize 12 (with_textColor DANGER_COLOR
               (child_style "ConditionName" st2)));
          Paragraph (Raw (get_or (field c "description") (PStr []))) st3;
          Paragraph (FStr (condition_meta_text c)) st4;
          Spacer 1 12 ].
Proof.
  unfold medical_condition. intros H Hc T. do 2 run_step.
  match goal with E : py_get _ _ _ = Ok _ |- _ => apply py_get_field in E; subst end.
  rewrite Hc in *. cbn [get_or] in *. rewrite T in *. cbn [when] in *. run.
  repeat match goal with
         | E : py_get _ _ _ = Ok _ |- _ => apply py_get_field in E; subst
         end.
  match goal with
  | E : py_upper _ = Ok _ |- _ =>
      apply py_upper_Ok in E; destruct E as (sev & Hsev & ->)
  end.
  exists sev. do 4 eexists. split; [exact Hsev|].
  split; [|split]; cycle 2.
  - unfold condition_meta_text, str in *. rewrite Hsev.
    destruct (truthy (get_or (field c "icdCode") (PStr []))); reflexivity.
  - assumption.
  - assumption.
Qed.

Lemma consultation_info_Ok (styles : StyleSheet) (i c : pyval) (u : unit)
    (w : list flowable) :
  consultation_info styles i = Ok (u, w) ->
  field i "consultation" = Some c -> truthy c = true ->
  exists urg st1 st2 st3 st4,
    get_or (field c "urgency") (str "routine") = PStr urg /\
    w = [ Paragraph (text "Consultation Information") st1;
          Paragraph (FStr [Lit (lit "<b>Follow-up:</b> ");
                           Fmt (get_or (field c "followUpTiming") (str "N/A"))]) st2;
          Paragraph (FStr [Lit (lit "<b>How to Book:</b> ");
                           Fmt (get_or (field c "bookingInfo") (str "N/A"))]) st3;
          Paragraph (FStr [Lit (lit "<b>Priority:</b> "); Fmt (PStr (str_upper urg))])
            (with_textColor (urgency_color_of urg) (child_style "Urgency" st4));
          Spacer 1 12 ].
Proof.
  unfold consultation_info. intros H Hc T. do 2 run_step.
  match goal with E : py_get _ _ _ = Ok _ |- _ => apply py_get_field in E; subst end.
  rewrite Hc in *. cbn [get_or] in *. rewrite T in *. cbn [when] in *. run.
  repeat match goal with
         | E : py_get _ _ _ = Ok _ |- _ => apply py_get_field in E; subst
         end.
  match goal with
  | E : py_upper _ = Ok _ |- _ =>
      apply py_upper_Ok in E; destruct E as (urg & Hurg & ->)
  end.
  exists urg. do 4 eexists. split; [exact Hurg | reflexivity].
Qed.

Lemma urgency_color_urgent (s : pystr) :
  ascii_recasing s (lit "urgent") = true -> urgency_color_of s = DANGER_COLOR.
Proof.
  intros H. apply ascii_recasing_same in H; [|reflexivity].
  unfold urgency_color_of. now rewrite H.
Qed.

Lemma urgency_color_soon (s : pystr) :
  ascii_recasing s (lit "soon") = true -> urgency_color_of s = WARNING_COLOR.
Proof.
  intros H. apply ascii_recasing_same in H; [|reflexivity].
  unfold urgency_color_of. rewrite H.
  unfold same_casing in *. apply pystr_eqb_eq in H. rewrite H. reflexivity.
Qed.

End Page2Blocks.

(** X10: when the interpretation has a medical condition, page 2 has the
    condition's block: its heading, the name in bold (default
    ['Unknown']), the description, and a meta line "Severity: X" with the
    severity in upper case (default ['moderate']), to which the suffix
    " | ICD Code: Y" is added exactly when [icdCode] is true as a Python
    value. *)
Theorem X10_medical_condition_block `{R : Runtime} (data i c : pyval)
    (story : list flowable) :
  generate_pdf_story data = Ok (tt, story) ->
  field data "muainaInterpretation" = Some i -> truthy i = true ->
  field i "medicalCondition" = Some c -> truthy c = true ->
  exists sev st1 st2 st3 st4,
    get_or (field c "severity") (str "moderate") = PStr sev /\
    style_name st4 = "ListItem" /\
    contains_block
      [ Paragraph (text "Medical Condition") st1;
        Paragraph (FStr [Lit (lit "<b>");
                         Fmt (get_or (field c "name") (str "Unknown"));
                         Lit (lit "</b>")])
          (with_fontSize 12 (with_textColor DANGER_COLOR
             (child_style "ConditionName" st2)));
        Paragraph (Raw (get_or (field c "description") (PStr []))) st3;
        Paragraph
          (FStr ([Lit (lit "Severity: "); Fmt (PStr (str_upper sev))]
                 ++ (if truthy (get_or (field c "icdCode") (PStr []))
                     then [Lit (lit " | ICD Code: ");
                           Fmt (get_or (field c "icdCode") (PStr []))]
                     else []))) st4;
        Spacer 1 12 ]
      story.
Proof.
  intros H Hi Ti Hc Tc.
  destruct (story_pages _ _ _ H Hi Ti) as (styles & wp2 & wp3 & H2 & _ & (p & q & ->) & _).
  destruct (page2_parts _ _ _ _ H2) as (wm & _ & _ & Hm & (p' & q' & ->) & _).
  destruct (medical_condition_Ok _ _ _ _ _ Hm Hc Tc)
    as (sev & st1 & st2 & st3 & st4 & Hsev & _ & N4 & ->).
  exists sev, st1, st2, st3, st4. split; [exact Hsev|]. split; [exact N4|].
  unfold condition_meta_text, str in *. rewrite Hsev.
  auto 8 with story.
Qed.

Lemma X10_witness :
  exists story st,
    generate_pdf_story (R := demo_runtime) str_precautions_input = Ok (tt, story) /\
    In (Paragraph
          (FStr [Lit (lit "Severity: "); Fmt (str "MODERATE");
                 Lit (lit " | ICD Code: "); Fmt (str "D64.9")]) st) story.
Proof.
  destruct (@X10_medical_condition_block demo_runtime str_precautions_input
              (get_or (field str_precautions_input "muainaInterpretation") PNone)
              (PDict [(lit "name", str "Anemia"); (lit "icdCode", str "D64.9")])
              match generate_pdf_story (R := demo_runtime) str_precautions_input with
              | Ok (_, s) => s
              | Err _ => []
              end)
    as (sev & st1 & st2 & st3 & st4 & Hsev & _ & (pre & post & Hs)).
  - vm_compute. reflexivity.
  - reflexivity.
  - reflexivity.
  - reflexivity.
  - reflexivity.
  - vm_compute in Hsev. injection Hsev as <-.
    eexists. exists st4. split; [vm_compute; reflexivity|].
    change (In (Paragraph
                  (FStr [Lit (lit "Severity: "); Fmt (str "MODERATE");
                         Lit (lit " | ICD Code: "); Fmt (str "D64.9")]) st4)
               match generate_pdf_story (R := demo_runtime) str_precautions_input with
               | Ok (_, s) => s
               | Err _ => []
               end).
    rewrite Hs. rewrite in_app_iff. right. simpl. tauto.
Defined.

(** X11: when the interpretation has consultation information, page 2 has
    its block: the heading, the follow-up and booking lines (default
    ['N/A']) and a priority line with the urgency in upper case (default
    ['routine']), coloured without regard to case: danger for ['urgent'],
    warning for ['soon'], info for anything else. *)
Theorem X11_consultation_block `{R : Runtime} (data i c : pyval)
    (story : list flowable) :
  generate_pdf_story data = Ok (tt, story) ->
  field data "muainaInterpretation" = Some i -> truthy i = true ->
  field i "consultation" = Some c -> truthy c = true ->
  (exists urg st1 st2 st3 st4,
     get_or (field c "urgency") (str "routine") = PStr urg /\
     contains_block
       [ Paragraph (text "Consultation Information") st1;
         Paragraph (FStr [Lit (lit "<b>Follow-up:</b> ");
                          Fmt (get_or (field c "followUpTiming") (str "N/A"))]) st2;
         Paragraph (FStr [Lit (lit "<b>How to Book:</b> ");
                          Fmt (get_or (field c "bookingInfo") (str "N/A"))]) st3;
         Paragraph (FStr [Lit (lit "<b>Priority:</b> "); Fmt (PStr (str_upper urg))])
           (with_textColor (urgency_color_of urg) (child_style "Urgency" st4));
         Spacer 1 12 ]
       story) /\
  (forall s, ascii_recasing s (lit "urgent") = true -> urgency_color_of s = DANGER_COLOR) /\
  (forall s, ascii_recasing s (lit "soon") = true -> urgency_color_of s = WARNING_COLOR) /\
  (forall s, same_casing s (lit "urgent") = false -> same_casing s (lit "soon") = false ->
             urgency_color_of s = INFO_COLOR).
Proof.
  intros H Hi Ti Hc Tc. split; [|split; [|split]].
  - destruct (story_pages _ _ _ H Hi Ti)
      as (styles & wp2 & wp3 & H2 & _ & (p & q & ->) & _).
    destruct (page2_parts _ _ _ _ H2) as (_ & wc & _ & _ & _ & Hm & (p' & q' & ->) & _).
    destruct (consultation_info_Ok _ _ _ _ _ Hm Hc Tc)
      as (urg & st1 & st2 & st3 & st4 & Hurg & ->).
    exists urg, st1, st2, st3, st4. split; [exact Hurg|]. auto 8 with story.
  - exact urgency_color_urgent.
  - exact urgency_color_soon.
  - intros s H1 H2. unfold urgency_color_of. now rewrite H1, H2.
Qed.

Lemma X11_witness :
  exists story st,
    generate_pdf_story (R := demo_runtime) str_precautions_input = Ok (tt, story) /\
    In (Paragraph (FStr [Lit (lit "<b>Priority:</b> "); Fmt (str "URGENT")]) st) story /\
    textColor st = Some DANGER_COLOR.
Proof.
  destruct (@X11_consultation_block demo_runtime str_precautions_input
              (get_or (field str_precautions_input "muainaInterpretation") PNone)
              (PDict [(lit "urgency", str "Urgent")])
              match generate_pdf_story (R := demo_runtime) str_precautions_input with
              | Ok (_, s) => s
              | Err _ => []
              end)
    as ((urg & st1 & st2 & st3 & st4 & Hurg & (pre & post & Hs)) & _).
  - vm_compute. reflexivity.
  - reflexivity.
  - reflexivity.
  - reflexivity.
  - reflexivity.
  - vm_compute in Hurg. injection Hurg as <-.
    eexists.
    exists (with_textColor (urgency_color_of (R := demo_runtime) (lit "Urgent"))
              (child_style "Urgency" st4)).
    split; [vm_compute; reflexivity|]. split; [|reflexivity].
    change (In (Paragraph (FStr [Lit (lit "<b>Priority:</b> "); Fmt (str "URGENT")])
                  (with_textColor (urgency_color_of (R := demo_runtime) (lit "Urgent"))
                     (child_style "Urgency" st4)))
               match generate_pdf_story (R := demo_runtime) str_precautions_input with
               | Ok (_, s) => s
               | Err _ => []
               end).
    rewrite Hs. rewrite in_app_iff. right. simpl. tauto.
Defined.

(* ===================================================================== *)
(** ** The lists of page 2 *)
(* ===================================================================== *)

Section ItemLists.
Context {R : Runtime}.

Lemma item_lines_Ok (styles : StyleSheet) (glyph : N) (name : string)
    (items : list pyval) (u : unit) (w : list flowable) :
  item_lines styles glyph name items = Ok (u, w) ->
  forall st, sheet_get styles name = Ok st -> w = map (item_line glyph st) items.
Proof.
  unfold item_lines. revert u w.
  induction items as [|x items IH]; simpl; intros u w H st Hst.
  - now run.
  - apply bind_Ok in H. destruct H as ([] & w1 & w2 & H1 & H2 & ->).
    apply append_para_Ok in H1. destruct H1 as (st' & E & _ & ->).
    rewrite Hst in E. injection E as <-.
    now rewrite (IH _ _ H2 st Hst).
Qed.

Lemma item_lines_style (styles : StyleSheet) (glyph : N) (name : string)
    (x : pyval) (items : list pyval) (u : unit) (w : list flowable) :
  item_lines styles glyph name (x :: items) = Ok (u, w) ->
  exists st, sheet_get styles name = Ok st /\ style_name st = name.
Proof.
  unfold item_lines. simpl. intros H.
  apply bind_Ok in H. destruct H as ([] & w1 & w2 & H1 & _ & _).
  apply append_para_Ok in H1. destruct H1 as (st & E & N & _). eauto.
Qed.

Lemma truthy_iter_nonempty (v : pyval) (items : list pyval) :
  truthy v = true -> py_iter v = Ok items -> exists x l, items = x :: l.
Proof.
  destruct v as [| | | |[|c s]|[|x l]|[|kv kvs]]; simpl; try discriminate;
    intros _ H; injection H as <-; eauto.
Qed.

Lemma item_section_Ok (styles : StyleSheet) (i v : pyval) (key title : string)
    (glyph : N) (name : string) (u : unit) (w : list flowable) :
  item_section styles i key title glyph name = Ok (u, w) ->
  field i key = Some v -> truthy v = true ->
  exists items st1 st2,
    py_iter v = Ok items /\
    style_name st1 = "SubSectionTitle" /\ style_name st2 = name /\
    w = Paragraph (text title) st1 :: map (item_line glyph st2) items ++ [Spacer 1 12].
Proof.
  unfold item_section. intros H Hv T. do 2 run_step.
  match goal with E : py_get _ _ _ = Ok _ |- _ => apply py_get_field in E; subst end.
  rewrite Hv in *. cbn [get_or] in *. rewrite T in *. cbn [when] in *. run.
  match goal with
  | Hit : py_iter v = Ok ?items, Hl : item_lines _ _ _ ?items = Ok _ |- _ =>
      destruct (truthy_iter_nonempty _ _ T Hit) as (x & l & ->);
      destruct (item_lines_style _ _ _ _ _ _ _ Hl) as (st2 & E2 & N2);
      rewrite (item_lines_Ok _ _ _ _ _ _ Hl st2 E2);
      exists (x :: l); eexists; exists st2;
      split; [exact Hit|]
  end.
  split; [eassumption|]. split; [exact N2 | reflexivity].
Qed.

End ItemLists.

(** X12: each of the three titled lists of page 2 (precautions, diet and
    lifestyle changes) whose value is true as a Python value gives its
    heading, then one line per item of the value in order, each with the
    list's glyph and style, then a spacer.  The items are those a [for]
    loop sees: a str given in place of a list is printed one character per
    line. *)
Theorem X12_titled_lists `{R : Runtime} (data i v : pyval) (story : list flowable)
    (key title : string) (glyph : N) (name : string) :
  generate_pdf_story data = Ok (tt, story) ->
  field data "muainaInterpretation" = Some i -> truthy i = true ->
  In (key, title, glyph, name) item_sections ->
  field i key = Some v -> truthy v = true ->
  exists items st1 st2,
    py_iter v = Ok items /\
    (forall l, v = PList l -> items = l) /\
    (forall s, v = PStr s -> items = map (fun c => PStr [c]) s) /\
    style_name st2 = name /\
    contains_block
      (Paragraph (text title) st1 :: map (item_line glyph st2) items ++ [Spacer 1 12])
      story.
Proof.
  intros H Hi Ti Hin Hv Tv.
  destruct (story_pages _ _ _ H Hi Ti) as (styles & wp2 & wp3 & H2 & _ & (p & q & ->) & _).
  destruct (page2_parts _ _ _ _ H2) as (_ & _ & _ & _ & _ & _ & _ & _ & _ & Hs).
  destruct (Hs _ _ _ _ Hin) as (ws & Hw & (p' & q' & ->)).
  destruct (item_section_Ok _ _ _ _ _ _ _ _ _ Hw Hv Tv)
    as (items & st1 & st2 & Hit & _ & N2 & ->).
  exists items, st1, st2. split; [exact Hit|].
  split; [intros l ->; simpl in Hit; congruence|].
  split; [intros s ->; simpl in Hit; congruence|].
  split; [exact N2|]. auto 8 with story.
Qed.

Lemma X12_witness :
  exists story st1 st2,
    generate_pdf_story (R := demo_runtime) str_precautions_input = Ok (tt, story) /\
    contains_block
      (Paragraph (text "Important Precautions") st1
       :: map (item_line WARNING_SIGN st2) [str "R"; str "e"; str "s"; str "t"]
       ++ [Spacer 1 12])
      story.
Proof.
  destruct (@X12_titled_lists demo_runtime str_precautions_input
              (get_or (field str_precautions_input "muainaInterpretation") PNone)
              (str "Rest")
              match generate_pdf_story (R := demo_runtime) str_precautions_input with
              | Ok (_, s) => s
              | Err _ => []
              end
              "precautions" "Important Precautions" WARNING_SIGN "WarningText")
    as (items & st1 & st2 & Hit & _ & _ & _ & Hc).
  - vm_compute. reflexivity.
  - reflexivity.
  - reflexivity.
  - simpl. tauto.
  - reflexivity.
  - reflexivity.
  - vm_compute in Hit. injection Hit as <-.
    eexists. exists st1, st2. split; [vm_compute; reflexivity | exact Hc].
Defined.

Section Advice.
Context {R : Runtime}.

Lemma advice_Ok (styles : StyleSheet) (v : pyval) (heading : string) (glyph : N)
    (name : string) (u : unit) (w : list flowable) :
  when (truthy v)
    (bind (append_para styles (text heading) "CustomBodyText")
       (fun _ => bind (lift (py_iter v))
          (fun items => item_lines styles glyph name items))) = Ok (u, w) ->
  exists st1 st2,
    (truthy v = true -> style_name st1 = "CustomBodyText" /\ style_name st2 = name) /\
    w = advice_lines v heading glyph st1 st2.
Proof.
  intros H. unfold advice_lines. apply when_Ok in H.
  destruct H as [[T H]|[T ->]].
  - rewrite T. run.
    match goal with
    | Hit : py_iter v = Ok ?items, Hl : item_lines _ _ _ ?items = Ok _ |- _ =>
        destruct (truthy_iter_nonempty _ _ T Hit) as (x & l & ->);
        destruct (item_lines_style _ _ _ _ _ _ _ Hl) as (st2 & E2 & N2);
        rewrite (item_lines_Ok _ _ _ _ _ _ Hl st2 E2), Hit
    end.
    eexists. exists st2. split; [split; eassumption | reflexivity].
  - rewrite T. exists (base_style ""), (base_style ""). split; [discriminate | reflexivity].
Qed.

Lemma dos_and_donts_Ok (styles : StyleSheet) (i : pyval) (u : unit) (w : list flowable) :
  dos_and_donts styles i = Ok (u, w) ->
  let dos := get_or (field i "dos") (PList []) in
  let donts := get_or (field i "donts") (PList []) in
  (truthy dos || truthy donts = false /\ w = []) \/
  (truthy dos || truthy donts = true /\
   exists st st1 st2 st3 st4,
     style_name st = "SubSectionTitle" /\
     (truthy dos = true -> style_name st2 = "SuccessText") /\
     (truthy donts = true -> style_name st4 = "DangerText") /\
     w = Paragraph (text "Do's and Don'ts") st
         :: advice_lines dos "<b>Things to Do:</b>" CHECK_MARK st1 st2
         ++ advice_lines donts "<b>Things to Avoid:</b>" BALLOT_X st3 st4
         ++ [Spacer 1 12]).
Proof.
  unfold dos_and_donts. intros H. do 4 run_step.
  repeat match goal with
         | E : py_get _ _ _ = Ok _ |- _ => apply py_get_field in E; subst
         end.
  cbv zeta.
  match goal with
  | Hw : when (_ || _) _ = Ok _ |- _ =>
      apply when_Ok in Hw; destruct Hw as [[T Hw]|[T ->]]; [right | now left]
  end.
  split; [exact T|].
  run_parts.
  repeat match goal with
         | Ha : when (truthy _) _ = Ok _ |- _ =>
             apply advice_Ok in Ha;
             let s1 := fresh "s" in let s2 := fresh "s" in let Hn := fresh "Hn" in
             destruct Ha as (s1 & s2 & Hn & ->)
         end.
  repeat match goal with
         | Hp : append_para _ _ _ = Ok _ |- _ =>
             apply append_para_Ok in Hp;
             let s := fresh "s" in let N := fresh "N" in
             destruct Hp as (s & _ & N & ->)
         end.
  repeat match goal with
         | Hp : append _ = Ok _ |- _ => apply append_Ok in Hp; subst
         end.
  do 5 eexists.
  split; [|split; [|split]]; cycle 3.
  - reflexivity.
  - eassumption.
  - intros Td.
    match goal with
    | Hn : truthy (get_or (field i "dos") _) = true -> _ |- _ => exact (proj2 (Hn Td))
    end.
  - intros Td.
    match goal with
    | Hn : truthy (get_or (field i "donts") _) = true -> _ |- _ => exact (proj2 (Hn Td))
    end.
Qed.

End Advice.

(** X13: when [dos] or [donts] is true as a Python value, page 2 has the
    "Do's and Don'ts" block: its heading, the sub-heading "Things to Do"
    with one check-marked line per item only when [dos] is true, the
    sub-heading "Things to Avoid" with one crossed line per item only when
    [donts] is true, and a spacer. *)
Theorem X13_dos_and_donts_block `{R : Runtime} (data i : pyval)
    (story : list flowable) :
  generate_pdf_story data = Ok (tt, story) ->
  field data "muainaInterpretation" = Some i -> truthy i = true ->
  truthy (get_or (field i "dos") (PList []))
  || truthy (get_or (field i "donts") (PList [])) = true ->
  exists st st1 st2 st3 st4,
    style_name st = "SubSectionTitle" /\
    (truthy (get_or (field i "dos") (PList [])) = true ->
     style_name st2 = "SuccessText") /\
    (truthy (get_or (field i "donts") (PList [])) = true ->
     style_name st4 = "DangerText") /\
    contains_block
      (Paragraph (text "Do's and Don'ts") st
       :: advice_lines (get_or (field i "dos") (PList []))
            "<b>Things to Do:</b>" CHECK_MARK st1 st2
       ++ advice_lines (get_or (field i "donts") (PList []))
            "<b>Things to Avoid:</b>" BALLOT_X st3 st4
       ++ [Spacer 1 12])
      story.
Proof.
  intros H Hi Ti T.
  destruct (story_pages _ _ _ H Hi Ti) as (styles & wp2 & wp3 & H2 & _ & (p & q & ->) & _).
  destruct (page2_parts _ _ _ _ H2) as (_ & _ & wd & _ & _ & _ & _ & Hd & (p' & q' & ->) & _).
  apply dos_and_donts_Ok in Hd. cbv zeta in Hd.
  destruct Hd as [[F _]|(_ & st & st1 & st2 & st3 & st4 & N & N2 & N4 & ->)];
    [congruence|].
  exists st, st1, st2, st3, st4. repeat (split; [assumption|]). auto 8 with story.
Qed.

Lemma X13_witness :
  exists story st st3 st4,
    generate_pdf_story (R := demo_runtime) str_precautions_input = Ok (tt, story) /\
    contains_block
      [ Paragraph (text "Do's and Don'ts") st;
        Paragraph (text "<b>Things to Avoid:</b>") st3;
        item_line BALLOT_X st4 (str "Smoking");
        Spacer 1 12 ]
      story.
Proof.
  destruct (@X13_dos_and_donts_block demo_runtime str_precautions_input
              (get_or (field str_precautions_input "muainaInterpretation") PNone)
              match generate_pdf_story (R := demo_runtime) str_precautions_input with
              | Ok (_, s) => s
              | Err _ => []
              end)
    as (st & st1 & st2 & st3 & st4 & _ & _ & _ & Hc).
  - vm_compute. reflexivity.
  - reflexivity.
  - reflexivity.
  - reflexivity.
  - eexists. exists st, st3, st4. split; [vm_compute; reflexivity | exact Hc].
Defined.

(* ===================================================================== *)
(** ** The blocks of page 3 *)
(* ===================================================================== *)

Section Page3Blocks.
Context {R : Runtime}.

Lemma recommendation_block_Ok (styles : StyleSheet) (r : pyval) (u : unit)
    (w : list flowable) :
  recommendation_block styles r = Ok (u, w) ->
  exists urg st1 st2,
    get_or (field r "urgency") (str "routine") = PStr urg /\
    style_name st1 = "CustomBodyText" /\ style_name st2 = "ListItem" /\
    w = [ Paragraph
            (FStr [Lit (lit "<b>"); Fmt (get_or (field r "specialty") (str "N/A"));
                   Lit (lit "</b> ("); Fmt (PStr (str_upper urg)); Lit (lit ")")]) st1;
          Paragraph (Raw (get_or (field r "reason") (PStr []))) st2;
          Spacer 1 6 ].
Proof.
  unfold recommendation_block. intros H. run.
  repeat match goal with
         | E : py_get _ _ _ = Ok _ |- _ => apply py_get_field in E; subst
         end.
  match goal with
  | E : py_upper _ = Ok _ |- _ =>
      apply py_upper_Ok in E; destruct E as (urg & Hurg & ->)
  end.
  exists urg. do 2 eexists. split; [exact Hurg|].
  split; [|split]; cycle 2.
  - reflexivity.
  - assumption.
  - assumption.
Qed.

Lemma page3_contains_recommendation (styles : StyleSheet) (i : pyval) (u : unit)
    (w : list flowable) (rs : list pyval) (k : nat) (r : pyval) :
  generate_pdf_page3 styles i = Ok (u, w) ->
  field i "doctorRecommendations" = Some (PList rs) ->
  nth_error rs k = Some r ->
  exists block, recommendation_block styles r = Ok (tt, block) /\ contains_block block w.
Proof.
  unfold generate_pdf_page3. intros H Hf Hk. do 4 run_step.
  repeat match goal with
         | E : py_get _ _ _ = Ok _ |- _ => apply py_get_field in E; subst
         end.
  rewrite Hf in *. cbn [get_or] in *.
  destruct rs as [|r0 rs]; [destruct k; discriminate|].
  match goal with
  | Hw : when _ _ = Ok _ |- _ =>
      apply when_Ok in Hw; destruct Hw as [[_ Hw]|[T _]];
        [|rewrite orb_true_r in T; discriminate T]
  end.
  run.
  match goal with
  | Hw : when (truthy (PList _)) _ = Ok _ |- _ =>
      apply when_Ok in Hw; destruct Hw as [[_ Hw]|[T _]]; [|discriminate T]
  end.
  run.
  match goal with E : py_iter (PList _) = Ok _ |- _ => simpl in E; injection E as <- end.
  match goal with
  | Hl : for_each _ (recommendation_block _) = Ok _ |- _ =>
      destruct (loop_contains _ _ _ _ _ _ Hl Hk) as (block & Hb & Hc)
  end.
  exists block. split; [assumption|]. auto 12 with story.
Qed.

Lemma doctor_block_Ok (styles : StyleSheet) (d : pyval) (u : unit) (w : list flowable) :
  doctor_block styles d = Ok (u, w) ->
  exists st1 st2 st3 st4 st5 st6,
    style_name st2 = "CustomBodyText" /\ style_name st3 = "ListItem" /\
    style_name st4 = "ListItem" /\ style_name st5 = "ListItem" /\
    (truthy_field (field d "consultationFee") = true -> style_name st6 = "ListItem") /\
    w = [ Paragraph (FStr [Lit (lit "<b>"); Fmt (get_or (field d "name") (str "N/A"));
                           Lit (lit "</b>")])
            (with_fontSize 11 (with_textColor SUCCESS_COLOR (child_style "DocName" st1)));
          Paragraph (FStr [Fmt (get_or (field d "specialty") (PStr []));
                           Lit (lit " - ");
                           Fmt (get_or (field d "qualification") (PStr []))]) st2;
          Paragraph (FStr [Lit (lit "Location: ");
                           Fmt (get_or (field d "location") (str "N/A"))]) st3;
          Paragraph (FStr [Lit (lit "Availability: ");
                           Fmt (get_or (field d "availability") (str "N/A"))]) st4;
          Paragraph (FStr [Lit (lit "Contact: ");
                           Fmt (get_or (field d "contact") (str "N/A"))]) st5 ]
        ++ (if truthy_field (field d "consultationFee")
            then [Paragraph (FStr [Lit (lit "Fee: ");
                                   Fmt (get_or (field d "consultationFee") PNone)]) st6]
            else [])
        ++ [Spacer 1 10].
Proof.
  unfold doctor_block. intros H. run_parts.
  repeat match goal with
         | Hl : lift _ = Ok _ |- _ =>
             apply lift_Ok in Hl; let E := fresh "E" in destruct Hl as [E ->]
         end.
  repeat match goal with
         | E : py_get _ _ _ = Ok _ |- _ => apply py_get_field in E; subst
         end.
  repeat match goal with
         | Hp : append_para _ _ _ = Ok _ |- _ =>
             apply append_para_Ok in Hp;
             let s := fresh "s" in let N := fresh "N" in
             destruct Hp as (s & _ & N & ->)
         | Hp : append_para_styled _ _ _ _ _ = Ok _ |- _ =>
             apply append_para_styled_Ok in Hp;
             let s := fresh "s" in destruct Hp as (s & _ & ->)
         | Hp : append _ = Ok _ |- _ => apply append_Ok in Hp; subst
         end.
  assert (Hfee : truthy (get_or (field d "consultationFee") PNone)
                 = truthy_field (field d "consultationFee"))
    by now destruct (field d "consultationFee").
  match goal with
  | Hw : when _ _ = Ok _ |- _ =>
      apply when_Ok in Hw; destruct Hw as [[T Hw]|[T ->]]; rewrite Hfee in T; rewrite T
  end.
  - run.
    match goal with E : py_get _ _ _ = Ok _ |- _ => apply py_get_field in E; subst end.
    do 6 eexists.
    split; [|split; [|split; [|split; [|split]]]]; cycle 5.
    + reflexivity.
    + assumption.
    + assumption.
    + assumption.
    + assumption.
    + intros _. assumption.
  - do 5 eexists. exists (base_style "").
    split; [|split; [|split; [|split; [|split]]]]; cycle 5.
    + reflexivity.
    + assumption.
    + assumption.
    + assumption.
    + assumption.
    + discriminate.
Qed.

End Page3Blocks.

(** X14: every entry of the [doctorRecommendations] list gives its block
    on page 3: a line with the specialty in bold (default ['N/A']) followed
    by the urgency in upper case between parentheses (default
    ['routine']), the reason as an indented line, and a spacer. *)
Theorem X14_recommendation_block `{R : Runtime} (data : pyval) (story : list flowable)
    (rs : list pyval) (k : nat) (r : pyval) :
  generate_pdf_story data = Ok (tt, story) ->
  interpretation_field data "doctorRecommendations" = Some (PList rs) ->
  nth_error rs k = Some r ->
  exists urg st1 st2,
    get_or (field r "urgency") (str "routine") = PStr urg /\
    style_name st1 = "CustomBodyText" /\ style_name st2 = "ListItem" /\
    contains_block
      [ Paragraph
          (FStr [Lit (lit "<b>"); Fmt (get_or (field r "specialty") (str "N/A"));
                 Lit (lit "</b> ("); Fmt (PStr (str_upper urg)); Lit (lit ")")]) st1;
        Paragraph (Raw (get_or (field r "reason") (PStr []))) st2;
        Spacer 1 6 ]
      story.
Proof.
  intros H Hf Hk. unfold interpretation_field in Hf.
  destruct (field data "muainaInterpretation") as [i|] eqn:Hi; [|discriminate].
  assert (Ti : truthy i = true).
  { destruct (truthy i) eqn:T; [reflexivity|].
    rewrite (falsy_no_field _ _ T) in Hf. discriminate. }
  destruct (story_pages _ _ _ H Hi Ti) as (styles & wp2 & wp3 & _ & H3 & _ & (p & q & ->)).
  destruct (page3_contains_recommendation _ _ _ _ _ _ _ H3 Hf Hk)
    as (block & Hb & (p' & q' & ->)).
  apply recommendation_block_Ok in Hb.
  destruct Hb as (urg & st1 & st2 & Hurg & N1 & N2 & ->).
  exists urg, st1, st2. repeat (split; [assumption|]). auto 8 with story.
Qed.

Lemma X14_witness :
  exists story st1 st2,
    generate_pdf_story (R := demo_runtime) str_precautions_input = Ok (tt, story) /\
    contains_block
      [ Paragraph
          (FStr [Lit (lit "<b>"); Fmt (str "Hematology");
                 Lit (lit "</b> ("); Fmt (str "SOON"); Lit (lit ")")]) st1;
        Paragraph (Raw (str "Low hemoglobin")) st2;
        Spacer 1 6 ]
      story.
Proof.
  destruct (@X14_recommendation_block demo_runtime str_precautions_input
              match generate_pdf_story (R := demo_runtime) str_precautions_input with
              | Ok (_, s) => s
              | Err _ => []
              end
              [PDict [(lit "specialty", str "Hematology"); (lit "urgency", str "soon");
                      (lit "reason", str "Low hemoglobin")]]
              0%nat
              (PDict [(lit "specialty", str "Hematology"); (lit "urgency", str "soon");
                      (lit "reason", str "Low hemoglobin")]))
    as (urg & st1 & st2 & Hurg & _ & _ & Hc).
  - vm_compute. reflexivity.
  - reflexivity.
  - reflexivity.
  - vm_compute in Hurg. injection Hurg as <-.
    eexists. exists st1, st2. split; [vm_compute; reflexivity | exact Hc].
Defined.

(** X15: every entry of the [suggestedDoctors] list gives its block on
    page 3, in this order: the name in bold (default ['N/A']), the line
    "specialty - qualification" (both default to the empty string), the
    location, availability and contact lines (default ['N/A']), the fee
    line when the fee is true as a Python value, and a spacer. *)
Theorem X15_doctor_block `{R : Runtime} (data : pyval) (story : list flowable)
    (ds : list pyval) (k : nat) (d : pyval) :
  generate_pdf_story data = Ok (tt, story) ->
  interpretation_field data "suggestedDoctors" = Some (PList ds) ->
  nth_error ds k = Some d ->
  exists st1 st2 st3 st4 st5 st6,
    style_name st2 = "CustomBodyText" /\ style_name st3 = "ListItem" /\
    style_name st4 = "ListItem" /\ style_name st5 = "ListItem" /\
    contains_block
      ([ Paragraph (FStr [Lit (lit "<b>"); Fmt (get_or (field d "name") (str "N/A"));
                          Lit (lit "</b>")])
           (with_fontSize 11 (with_textColor SUCCESS_COLOR (child_style "DocName" st1)));
         Paragraph (FStr [Fmt (get_or (field d "specialty") (PStr []));
                          Lit (lit " - ");
                          Fmt (get_or (field d "qualification") (PStr []))]) st2;
         Paragraph (FStr [Lit (lit "Location: ");
                          Fmt (get_or (field d "location") (str "N/A"))]) st3;
         Paragraph (FStr [Lit (lit "Availability: ");
                          Fmt (get_or (field d "availability") (str "N/A"))]) st4;
         Paragraph (FStr [Lit (lit "Contact: ");
                          Fmt (get_or (field d "contact") (str "N/A"))]) st5 ]
       ++ (if truthy_field (field d "consultationFee")
           then [Paragraph (FStr [Lit (lit "Fee: ");
                                  Fmt (get_or (field d "consultationFee") PNone)]) st6]
           else [])
       ++ [Spacer 1 10])
      story.
Proof.
  intros H Hf Hk.
  destruct (@story_contains_doctor R data story ds k d H Hf Hk)
    as (styles & block & Hb & Hc).
  apply doctor_block_Ok in Hb.
  destruct Hb as (st1 & st2 & st3 & st4 & st5 & st6 & N2 & N3 & N4 & N5 & _ & ->).
  exists st1, st2, st3, st4, st5, st6. repeat (split; [assumption|]). exact Hc.
Qed.

Lemma X15_witness :
  exists story st1 st2 st3 st4 st5,
    generate_pdf_story (R := demo_runtime) full_input = Ok (tt, story) /\
    contains_block
      [ Paragraph (FStr [Lit (lit "<b>"); Fmt (str "Dr. A"); Lit (lit "</b>")])
          (with_fontSize 11 (with_textColor SUCCESS_COLOR (child_style "DocName" st1)));
        Paragraph (FStr [Fmt (PStr []); Lit (lit " - "); Fmt (PStr [])]) st2;
        Paragraph (FStr [Lit (lit "Location: "); Fmt (str "N/A")]) st3;
        Paragraph (FStr [Lit (lit "Availability: "); Fmt (str "N/A")]) st4;
        Paragraph (FStr [Lit (lit "Contact: "); Fmt (str "N/A")]) st5;
        Spacer 1 10 ]
      story.
Proof.
  destruct (@X15_doctor_block demo_runtime full_input
              match generate_pdf_story (R := demo_runtime) full_input with
              | Ok (_, s) => s
              | Err _ => []
              end
              [free_doctor; paid_doctor] 0%nat free_doctor)
    as (st1 & st2 & st3 & st4 & st5 & st6 & _ & _ & _ & _ & Hc).
  - vm_compute. reflexivity.
  - reflexivity.
  - reflexivity.
  - eexists. exists st1, st2, st3, st4, st5.
    split; [vm_compute; reflexivity | exact Hc].
Defined.
